(** * Finance ledger: daily cashier reports, balances and account history

    A shallow embedding of [database_v5.py] (class [FinanceSystemV5]) and of
    the report endpoint of [api_server.py].

    Conventions of the embedding.
    - A table is the list of its rows in rowid order; [INSERT] appends a row
      whose id is given by [Sql.next_id]; [UPDATE] rewrites rows in place.
    - SQLite [REAL] columns and Python [float] values are exact rationals
      ([Q]) in the store: the expressions of the code are kept, their
      rounding is not. The statements about amounts are therefore about the
      rows that enter a sum and about the expressions that the code
      evaluates; where rounding decides a statement, the arithmetic is also
      given on binary64 numbers ([Binary64]).
    - An integer is a [Z]. [sqlite3] binds a Python [int] only when it fits
      in 64 bits ([sqlite_integer]); the [OverflowError] of a larger one is
      not part of the operations, and the statements about the answers of
      the endpoint take a request whose integers bind ([request_binds]).
    - The order that SQLite gives to rows with equal [ORDER BY] keys is left
      to its query plan; [Sql.ORDER_BY] keeps them in table order, and no
      statement depends on the order of such rows.
    - [TEXT] is [string]; a nullable column is an [option].
    - A [datetime.date] is carried as its [isoformat()] text, which is what
      the store keeps in [report_date] and what the history sort compares.
    - [CURRENT_TIMESTAMP] is an explicit argument [now] of the operations
      that read the clock.
    - The connection is opened by [sqlite3.connect] with its defaults, so
      foreign keys are declared but not enforced; [UNIQUE], [NOT NULL] and
      [CHECK] constraints are.
    - A column that every [INSERT] and [UPDATE] of the class fills from a
      parameter annotated [int], [float], [str] or [bool] is not nullable in
      the model, and a column with a [CHECK ... IN (...)] list is an
      enumeration.
    - Columns that no method reads or writes (currency, description of an
      account, created_at, verified_by, verified_at, notes, ...) and the
      tables categories, expense_categories and users are left out. *)

From Stdlib Require Import ZArith QArith List String Bool Lia Permutation Sorted Floats.
From stdpp Require Import gmap strings.
Import ListNotations.
Local Open Scope Z_scope.

(** ** SQL and Python building blocks *)

Module Sql.

(** [INTEGER PRIMARY KEY AUTOINCREMENT]: one more than the largest rowid.
    No method deletes rows, so the largest rowid ever used is the largest
    one in the table. *)
Definition next_id (ids : list Z) : Z := 1 + fold_right Z.max 0 ids.

(** [SELECT SUM(col)]: NULLs are skipped, the result is NULL when there is
    no non-NULL value. *)
Definition SUM (col : list (option Q)) : option Q :=
  fold_left
    (fun acc v =>
       match v with
       | None => acc
       | Some q => Some (match acc with None => q | Some s => (s + q)%Q end)
       end)
    col None.

(** [a JOIN b ON on a b]. *)
Definition JOIN {A B} (on : A -> B -> bool) (l : list A) (r : list B)
  : list (A * B) :=
  flat_map (fun a => List.map (pair a) (List.filter (on a) r)) l.

(** [a LEFT JOIN b ON on a b]. *)
Definition LEFT_JOIN {A B} (on : A -> B -> bool) (l : list A) (r : list B)
  : list (A * option B) :=
  flat_map
    (fun a =>
       match List.filter (on a) r with
       | [] => [(a, None)]
       | bs => List.map (fun b => (a, Some b)) bs
       end)
    l.

(** Stable insertion sort; [le x y] says that [x] may stand before [y].
    It stands for [ORDER BY] and for Python's [list.sort]. *)
Fixpoint insert {A} (le : A -> A -> bool) (x : A) (l : list A) : list A :=
  match l with
  | [] => [x]
  | y :: l' => if le x y then x :: y :: l' else y :: insert le x l'
  end.

Definition ORDER_BY {A} (le : A -> A -> bool) (l : list A) : list A :=
  fold_right (insert le) [] l.

(** Lexicographic combination of two sort keys. *)
Definition lex {A} (le1 eq1 le2 : A -> A -> bool) (x y : A) : bool :=
  if eq1 x y then le2 x y else le1 x y.

End Sql.

Module Py.

(** [x or 0] on the value fetched from a [SUM]: [None] and [0.0] are falsy. *)
Definition or0 (x : option Q) : Q :=
  match x with
  | None => 0%Q
  | Some q => if Qeq_bool q 0 then 0%Q else q
  end.

(** [x > 0] on floats. *)
Definition gt0 (x : Q) : bool := negb (Qle_bool x 0).

(** [next((m for m in ms if p(m)), None)]. *)
Definition next {A} (p : A -> bool) (ms : list A) : option A :=
  List.find p ms.

(** Exceptions the modelled code can raise. *)
Inductive exn :=
| IntegrityError (msg : string)
| ValueError
| TypeError.

Inductive result (A : Type) :=
| Ok (a : A)
| Raise (e : exn).
Arguments Ok {A} a.
Arguments Raise {A} e.

End Py.

(** ** The schema *)

Inductive account_type := bank | cash.
Inductive method_type := delivery | online | terminal.
Inductive report_status := st_open | st_closed | st_verified.

Definition account_type_eqb (a b : account_type) : bool :=
  match a, b with bank, bank | cash, cash => true | _, _ => false end.

(** Order of the text values ['bank' < 'cash']. *)
Definition account_type_leb (a b : account_type) : bool :=
  match a, b with cash, bank => false | _, _ => true end.

Definition method_type_eqb (a b : method_type) : bool :=
  match a, b with
  | delivery, delivery | online, online | terminal, terminal => true
  | _, _ => false
  end.

(** Order of the text values ['delivery' < 'online' < 'terminal']. *)
Definition method_type_leb (a b : method_type) : bool :=
  match a, b with
  | delivery, _ | online, online | online, terminal | terminal, terminal => true
  | _, _ => false
  end.

Definition is_closed (s : report_status) : bool :=
  match s with st_closed => true | _ => false end.

Module Account.
Record t := mk {
  id : Z;
  name : string;
  account_type : account_type;
  is_active : bool }.
End Account.

Module PaymentMethod.
Record t := mk {
  id : Z;
  name : string;
  method_type : method_type;
  default_account_id : Z;
  commission_percent : Q;
  is_visible : bool;
  is_active : bool;
  display_order : Z }.
End PaymentMethod.

Module Location.
Record t := mk {
  id : Z;
  name : string;
  address : string;
  is_active : bool }.
End Location.

Module DailyReport.
Record t := mk {
  id : Z;
  report_date : string;
  location_id : Z;
  total_sales : Q;
  cash_expected : option Q;
  cash_actual : option Q;
  cash_difference : option Q;
  cash_breakdown : option string;
  status : report_status;
  created_by : option string;
  closed_at : option string }.
End DailyReport.

Module ReportPayment.
Record t := mk {
  id : Z;
  report_id : Z;
  payment_method_id : Z;
  account_id : Z;
  amount : Q;
  commission_amount : Q;
  net_amount : Q }.
End ReportPayment.

(** [non_sales_income] and [report_expenses] have the same columns. *)
Module Line.
Record t := mk {
  id : Z;
  report_id : Z;
  category_id : option Z;
  account_id : Z;
  amount : Q;
  description : string }.
End Line.

Record database := mkdb {
  accounts : list Account.t;
  payment_methods : list PaymentMethod.t;
  locations : list Location.t;
  daily_reports : list DailyReport.t;
  report_payments : list ReportPayment.t;
  non_sales_income : list Line.t;
  report_expenses : list Line.t }.

(** [init_database] on a new file: every table exists and is empty. *)
Definition init_database : database := mkdb [] [] [] [] [] [] [].

Definition with_accounts (db : database) v :=
  mkdb v (payment_methods db) (locations db) (daily_reports db)
       (report_payments db) (non_sales_income db) (report_expenses db).
Definition with_payment_methods (db : database) v :=
  mkdb (accounts db) v (locations db) (daily_reports db)
       (report_payments db) (non_sales_income db) (report_expenses db).
Definition with_locations (db : database) v :=
  mkdb (accounts db) (payment_methods db) v (daily_reports db)
       (report_payments db) (non_sales_income db) (report_expenses db).
Definition with_daily_reports (db : database) v :=
  mkdb (accounts db) (payment_methods db) (locations db) v
       (report_payments db) (non_sales_income db) (report_expenses db).
Definition with_report_payments (db : database) v :=
  mkdb (accounts db) (payment_methods db) (locations db) (daily_reports db)
       v (non_sales_income db) (report_expenses db).
Definition with_non_sales_income (db : database) v :=
  mkdb (accounts db) (payment_methods db) (locations db) (daily_reports db)
       (report_payments db) v (report_expenses db).
Definition with_report_expenses (db : database) v :=
  mkdb (accounts db) (payment_methods db) (locations db) (daily_reports db)
       (report_payments db) (non_sales_income db) v.


(** ** [FinanceSystemV5]: accounts, payment methods, locations

    The class body defines [add_account], [update_account],
    [add_payment_method] and [add_location] twice; Python keeps the later
    definition of each, which is the one embedded here. A mutating method
    returns the new store and its Python outcome; when it raises, nothing
    was committed and the store is returned as it was. *)

Definition unique_failed (column : string) : Py.exn :=
  Py.IntegrityError ("UNIQUE constraint failed: " ++ column).

Definition add_account (db : database) (name : string)
  (account_type : account_type) : database * Py.result Z :=
  if existsb (fun a => String.eqb (Account.name a) name) (accounts db)
  then (db, Py.Raise (unique_failed "accounts.name"))
  else
    let account_id := Sql.next_id (List.map Account.id (accounts db)) in
    (with_accounts db
       (accounts db ++ [Account.mk account_id name account_type true]),
     Py.Ok account_id).

Definition account_name_leb (a b : Account.t) : bool :=
  String.leb (Account.name a) (Account.name b).

Definition get_accounts (db : database) (account_type : option account_type)
  : list Account.t :=
  match account_type with
  | Some ty =>
      Sql.ORDER_BY account_name_leb
        (List.filter
           (fun a => Account.is_active a
                     && account_type_eqb (Account.account_type a) ty)
           (accounts db))
  | None =>
      Sql.ORDER_BY
        (Sql.lex
           (fun a b => account_type_leb (Account.account_type a)
                                        (Account.account_type b))
           (fun a b => account_type_eqb (Account.account_type a)
                                        (Account.account_type b))
           account_name_leb)
        (List.filter Account.is_active (accounts db))
  end.

Definition update_account (db : database) (account_id : Z) (name : string)
  (account_type : account_type) (is_active : bool)
  : database * Py.result unit :=
  if existsb (fun a => Account.id a =? account_id) (accounts db)
     && existsb (fun a => negb (Account.id a =? account_id)
                          && String.eqb (Account.name a) name) (accounts db)
  then (db, Py.Raise (unique_failed "accounts.name"))
  else
    (with_accounts db
       (List.map
          (fun a => if Account.id a =? account_id
                    then Account.mk (Account.id a) name account_type is_active
                    else a)
          (accounts db)),
     Py.Ok tt).

Definition delete_account (db : database) (account_id : Z) : database :=
  with_accounts db
    (List.map
       (fun a => if Account.id a =? account_id
                 then Account.mk (Account.id a) (Account.name a)
                                 (Account.account_type a) false
                 else a)
       (accounts db)).

Definition add_payment_method (db : database) (name : string)
  (method_type : method_type) (commission : Q) (account_id : Z)
  : database * Py.result Z :=
  if existsb (fun m => String.eqb (PaymentMethod.name m) name)
             (payment_methods db)
  then (db, Py.Raise (unique_failed "payment_methods.name"))
  else
    let method_id :=
      Sql.next_id (List.map PaymentMethod.id (payment_methods db)) in
    (with_payment_methods db
       (payment_methods db
        ++ [PaymentMethod.mk method_id name method_type account_id commission
                             true true 0]),
     Py.Ok method_id).

(** [UPDATE payment_methods SET ... WHERE id=?] with the row rewritten by [f]. *)
Definition update_method_row (db : database) (method_id : Z)
  (f : PaymentMethod.t -> PaymentMethod.t) : database :=
  with_payment_methods db
    (List.map (fun m => if PaymentMethod.id m =? method_id then f m else m)
              (payment_methods db)).

Definition update_payment_method (db : database) (method_id : Z)
  (name : string) (method_type : method_type) (commission : Q)
  (account_id : Z) (is_active : bool) : database * Py.result unit :=
  if existsb (fun m => PaymentMethod.id m =? method_id) (payment_methods db)
     && existsb (fun m => negb (PaymentMethod.id m =? method_id)
                          && String.eqb (PaymentMethod.name m) name)
                (payment_methods db)
  then (db, Py.Raise (unique_failed "payment_methods.name"))
  else
    (update_method_row db method_id
       (fun m => PaymentMethod.mk (PaymentMethod.id m) name method_type
                   account_id commission (PaymentMethod.is_visible m)
                   is_active (PaymentMethod.display_order m)),
     Py.Ok tt).

Definition delete_payment_method (db : database) (method_id : Z) : database :=
  update_method_row db method_id
    (fun m => PaymentMethod.mk (PaymentMethod.id m) (PaymentMethod.name m)
                (PaymentMethod.method_type m)
                (PaymentMethod.default_account_id m)
                (PaymentMethod.commission_percent m)
                (PaymentMethod.is_visible m) false
                (PaymentMethod.display_order m)).

Definition toggle_payment_method_visibility (db : database) (method_id : Z)
  (is_visible : bool) : database :=
  update_method_row db method_id
    (fun m => PaymentMethod.mk (PaymentMethod.id m) (PaymentMethod.name m)
                (PaymentMethod.method_type m)
                (PaymentMethod.default_account_id m)
                (PaymentMethod.commission_percent m)
                is_visible (PaymentMethod.is_active m)
                (PaymentMethod.display_order m)).

Definition update_payment_method_default_account (db : database)
  (method_id account_id : Z) : database :=
  update_method_row db method_id
    (fun m => PaymentMethod.mk (PaymentMethod.id m) (PaymentMethod.name m)
                (PaymentMethod.method_type m) account_id
                (PaymentMethod.commission_percent m)
                (PaymentMethod.is_visible m) (PaymentMethod.is_active m)
                (PaymentMethod.display_order m)).

(** [for order, method_id in enumerate(ordered_ids)], counting from [order]. *)
Fixpoint update_payment_methods_order_from (order : Z) (ordered_ids : list Z)
  (db : database) : database :=
  match ordered_ids with
  | [] => db
  | method_id :: rest =>
      update_payment_methods_order_from (order + 1) rest
        (update_method_row db method_id
           (fun m => PaymentMethod.mk (PaymentMethod.id m)
                       (PaymentMethod.name m) (PaymentMethod.method_type m)
                       (PaymentMethod.default_account_id m)
                       (PaymentMethod.commission_percent m)
                       (PaymentMethod.is_visible m)
                       (PaymentMethod.is_active m) order))
  end.

Definition update_payment_methods_order (db : database) (ordered_ids : list Z)
  : database :=
  update_payment_methods_order_from 0 ordered_ids db.

Definition method_name_leb (a b : PaymentMethod.t) : bool :=
  String.leb (PaymentMethod.name a) (PaymentMethod.name b).

Definition method_order_leb (a b : PaymentMethod.t) : bool :=
  PaymentMethod.display_order a <=? PaymentMethod.display_order b.

Definition method_order_eqb (a b : PaymentMethod.t) : bool :=
  PaymentMethod.display_order a =? PaymentMethod.display_order b.

(** Each row comes with [default_account_name] of the [LEFT JOIN]. *)
Definition get_payment_methods (db : database)
  (method_type : option method_type)
  : list (PaymentMethod.t * option Account.t) :=
  let joined :=
    Sql.LEFT_JOIN
      (fun pm a => PaymentMethod.default_account_id pm =? Account.id a)
      (payment_methods db) (accounts db) in
  let on_method (le : PaymentMethod.t -> PaymentMethod.t -> bool)
        (x y : PaymentMethod.t * option Account.t) := le (fst x) (fst y) in
  match method_type with
  | Some ty =>
      Sql.ORDER_BY
        (on_method (Sql.lex method_order_leb method_order_eqb method_name_leb))
        (List.filter
           (fun r => PaymentMethod.is_active (fst r)
                     && method_type_eqb (PaymentMethod.method_type (fst r)) ty)
           joined)
  | None =>
      Sql.ORDER_BY
        (on_method
           (Sql.lex method_order_leb method_order_eqb
              (Sql.lex
                 (fun a b => method_type_leb (PaymentMethod.method_type a)
                                             (PaymentMethod.method_type b))
                 (fun a b => method_type_eqb (PaymentMethod.method_type a)
                                             (PaymentMethod.method_type b))
                 method_name_leb)))
        (List.filter (fun r => PaymentMethod.is_active (fst r)) joined)
  end.

Definition add_location (db : database) (name address : string)
  : database * Py.result Z :=
  if existsb (fun l => String.eqb (Location.name l) name) (locations db)
  then (db, Py.Raise (unique_failed "locations.name"))
  else
    let location_id := Sql.next_id (List.map Location.id (locations db)) in
    (with_locations db
       (locations db ++ [Location.mk location_id name address true]),
     Py.Ok location_id).

Definition update_location (db : database) (location_id : Z)
  (name address : string) (is_active : bool) : database * Py.result unit :=
  if existsb (fun l => Location.id l =? location_id) (locations db)
     && existsb (fun l => negb (Location.id l =? location_id)
                          && String.eqb (Location.name l) name) (locations db)
  then (db, Py.Raise (unique_failed "locations.name"))
  else
    (with_locations db
       (List.map
          (fun l => if Location.id l =? location_id
                    then Location.mk (Location.id l) name address is_active
                    else l)
          (locations db)),
     Py.Ok tt).

Definition delete_location (db : database) (location_id : Z) : database :=
  with_locations db
    (List.map
       (fun l => if Location.id l =? location_id
                 then Location.mk (Location.id l) (Location.name l)
                                  (Location.address l) false
                 else l)
       (locations db)).

Definition get_locations (db : database) : list Location.t :=
  Sql.ORDER_BY (fun a b => String.leb (Location.name a) (Location.name b))
    (List.filter Location.is_active (locations db)).

(** ** [FinanceSystemV5]: daily reports and their lines *)

Definition same_day_and_place (report_date : string) (location_id : Z)
  (dr : DailyReport.t) : bool :=
  String.eqb (DailyReport.report_date dr) report_date
  && (DailyReport.location_id dr =? location_id).

(** The [INSERT] is refused by [UNIQUE(report_date, location_id)]. *)
Definition create_daily_report (db : database) (report_date : string)
  (location_id : Z) (total_sales : Q) (created_by : option string)
  : database * Py.result Z :=
  if existsb (same_day_and_place report_date location_id) (daily_reports db)
  then
    (db, Py.Raise (unique_failed
                     "daily_reports.report_date, daily_reports.location_id"))
  else
    let report_id := Sql.next_id (List.map DailyReport.id (daily_reports db)) in
    (with_daily_reports db
       (daily_reports db
        ++ [DailyReport.mk report_id report_date location_id total_sales
                           None None None None st_open created_by None]),
     Py.Ok report_id).

(** The report comes with [location_name] of the inner [JOIN]; [fetchone]
    takes the first row. *)
Definition get_daily_report (db : database) (report_date : string)
  (location_id : Z) : option (DailyReport.t * Location.t) :=
  head
    (List.filter
       (fun r => same_day_and_place report_date location_id (fst r))
       (Sql.JOIN (fun dr l => DailyReport.location_id dr =? Location.id l)
                 (daily_reports db) (locations db))).

Definition add_report_payment (db : database)
  (report_id payment_method_id account_id : Z) (amount : Q) : database * Z :=
  let method :=
    head (List.filter (fun m => PaymentMethod.id m =? payment_method_id)
                      (payment_methods db)) in
  let commission_percent :=
    match method with
    | Some m => PaymentMethod.commission_percent m
    | None => 0%Q
    end in
  let commission_amount := (amount * (commission_percent / 100))%Q in
  let net_amount := (amount - commission_amount)%Q in
  let lastrowid := Sql.next_id (List.map ReportPayment.id (report_payments db)) in
  (with_report_payments db
     (report_payments db
      ++ [ReportPayment.mk lastrowid report_id payment_method_id account_id
                           amount commission_amount net_amount]),
   lastrowid).

(** The three lines of arithmetic of [add_report_payment] on the numbers that
    Python computes with, IEEE 754 binary64 rounded to nearest even:
    [commission_amount = amount * (commission_percent / 100)] and
    [net_amount = amount - commission_amount]. *)
Module Binary64.

Definition commission_amount (amount commission_percent : float) : float :=
  (amount * (commission_percent / 100))%float.

Definition net_amount (amount commission_percent : float) : float :=
  (amount - commission_amount amount commission_percent)%float.

End Binary64.

Definition add_non_sales_income (db : database) (report_id account_id : Z)
  (amount : Q) (category_id : option Z) (description : string)
  : database * Z :=
  let lastrowid := Sql.next_id (List.map Line.id (non_sales_income db)) in
  (with_non_sales_income db
     (non_sales_income db
      ++ [Line.mk lastrowid report_id category_id account_id amount
                  description]),
   lastrowid).

Definition add_report_expense (db : database) (report_id account_id : Z)
  (amount : Q) (category_id : option Z) (description : string)
  : database * Z :=
  let lastrowid := Sql.next_id (List.map Line.id (report_expenses db)) in
  (with_report_expenses db
     (report_expenses db
      ++ [Line.mk lastrowid report_id category_id account_id amount
                  description]),
   lastrowid).

(** [UPDATE daily_reports SET ... WHERE id=?] with the row rewritten by [f]. *)
Definition update_report_row (db : database) (report_id : Z)
  (f : DailyReport.t -> DailyReport.t) : database :=
  with_daily_reports db
    (List.map (fun dr => if DailyReport.id dr =? report_id then f dr else dr)
              (daily_reports db)).

(** [cash_breakdown] is the text that [json.dumps] gave. *)
Definition update_report_cash (db : database) (report_id : Z)
  (cash_expected cash_actual : Q) (cash_breakdown : string) : database :=
  let cash_difference := (cash_actual - cash_expected)%Q in
  update_report_row db report_id
    (fun dr =>
       DailyReport.mk (DailyReport.id dr) (DailyReport.report_date dr)
         (DailyReport.location_id dr) (DailyReport.total_sales dr)
         (Some cash_expected) (Some cash_actual) (Some cash_difference)
         (Some cash_breakdown) (DailyReport.status dr)
         (DailyReport.created_by dr) (DailyReport.closed_at dr)).

Definition close_report (db : database) (now : string) (report_id : Z)
  : database :=
  update_report_row db report_id
    (fun dr =>
       DailyReport.mk (DailyReport.id dr) (DailyReport.report_date dr)
         (DailyReport.location_id dr) (DailyReport.total_sales dr)
         (DailyReport.cash_expected dr) (DailyReport.cash_actual dr)
         (DailyReport.cash_difference dr) (DailyReport.cash_breakdown dr)
         st_closed (DailyReport.created_by dr) (Some now)).

(** ** Balances *)

Module Summary.
Record t := mk {
  name : string;
  type : account_type;
  balance : Q;
  sales_income : Q;
  non_sales_income : Q;
  expenses : Q }.
End Summary.

(** The body of the loop of [get_account_balance] for one account. *)
Definition account_summary (db : database) (acc : Account.t) : Summary.t :=
  let acc_id := Account.id acc in
  match Account.account_type acc with
  | cash =>
      let balance :=
        Py.or0
          (Sql.SUM
             (List.map DailyReport.cash_actual
                (List.filter (fun dr => is_closed (DailyReport.status dr))
                             (daily_reports db)))) in
      Summary.mk (Account.name acc) (Account.account_type acc)
                 balance balance 0 0
  | bank =>
      let sales_income :=
        Py.or0
          (Sql.SUM
             (List.map (fun rp => Some (ReportPayment.net_amount rp))
                (List.filter (fun rp => ReportPayment.account_id rp =? acc_id)
                             (report_payments db)))) in
      let non_sales :=
        Py.or0
          (Sql.SUM
             (List.map (fun r => Some (Line.amount r))
                (List.filter (fun r => Line.account_id r =? acc_id)
                             (non_sales_income db)))) in
      let expenses :=
        Py.or0
          (Sql.SUM
             (List.map (fun r => Some (Line.amount r))
                (List.filter (fun r => Line.account_id r =? acc_id)
                             (report_expenses db)))) in
      let balance := (sales_income + non_sales - expenses)%Q in
      Summary.mk (Account.name acc) (Account.account_type acc)
                 balance sales_income non_sales expenses
  end.

(** [result = {}], then [result[acc_id] = {...}] for each account that
    [get_accounts()] lists. *)
Definition get_account_balance (db : database) : gmap Z Summary.t :=
  fold_left
    (fun result acc => <[Account.id acc := account_summary db acc]> result)
    (get_accounts db None) ∅.

(** ** History *)

Module HistoryRow.
Record t := mk {
  date : string;
  report_id : Z;
  amount : option Q;
  description : string;
  operation_type : string;
  location : option string }.
End HistoryRow.

(** [ORDER BY key DESC], and [sort(key=..., reverse=True)]. *)
Definition desc {A} (key : A -> string) (x y : A) : bool :=
  String.leb (key y) (key x).

Definition report_location (dr : DailyReport.t) (l : Location.t) : bool :=
  DailyReport.location_id dr =? Location.id l.

Definition location_name (l : option Location.t) : option string :=
  option_map Location.name l.

(** Closed reports, the first query of a cash account. *)
Definition cash_sales_rows (db : database) : list HistoryRow.t :=
  List.map
    (fun r : DailyReport.t * option Location.t =>
       let (dr, l) := r in
       HistoryRow.mk (DailyReport.report_date dr) (DailyReport.id dr)
         (DailyReport.cash_actual dr) "Продажи наличными" "+"
         (location_name l))
    (Sql.ORDER_BY (desc (fun r => DailyReport.report_date (fst r)))
       (List.filter (fun r => is_closed (DailyReport.status (fst r)))
          (Sql.LEFT_JOIN report_location (daily_reports db) (locations db)))).

(** Payments, the first query of any other account. *)
Definition payment_rows (db : database) (account_id : Z) : list HistoryRow.t :=
  List.map
    (fun r : ReportPayment.t * DailyReport.t * PaymentMethod.t
             * option Location.t =>
       let '(rp, dr, pm, l) := r in
       HistoryRow.mk (DailyReport.report_date dr) (ReportPayment.report_id rp)
         (Some (ReportPayment.net_amount rp)) (PaymentMethod.name pm) "+"
         (location_name l))
    (Sql.ORDER_BY
       (desc (fun r => DailyReport.report_date (snd (fst (fst r)))))
       (List.filter
          (fun r => ReportPayment.account_id (fst (fst (fst r))) =? account_id)
          (Sql.LEFT_JOIN (fun r l => report_location (snd (fst r)) l)
             (Sql.JOIN
                (fun r pm => ReportPayment.payment_method_id (fst r)
                             =? PaymentMethod.id pm)
                (Sql.JOIN
                   (fun rp dr => ReportPayment.report_id rp =? DailyReport.id dr)
                   (report_payments db) (daily_reports db))
                (payment_methods db))
             (locations db)))).

(** The query over [non_sales_income] or [report_expenses]. *)
Definition line_rows (db : database) (table : list Line.t)
  (operation_type : string) (account_id : Z) : list HistoryRow.t :=
  List.map
    (fun r : Line.t * DailyReport.t * option Location.t =>
       let '(ln, dr, l) := r in
       HistoryRow.mk (DailyReport.report_date dr) (Line.report_id ln)
         (Some (Line.amount ln)) (Line.description ln) operation_type
         (location_name l))
    (Sql.ORDER_BY (desc (fun r => DailyReport.report_date (snd (fst r))))
       (List.filter
          (fun r => Line.account_id (fst (fst r)) =? account_id)
          (Sql.LEFT_JOIN (fun r l => report_location (snd r) l)
             (Sql.JOIN (fun ln dr => Line.report_id ln =? DailyReport.id dr)
                       table (daily_reports db))
             (locations db)))).

Definition get_account_history (db : database) (account_id : Z)
  : list HistoryRow.t :=
  match head (List.filter (fun a => Account.id a =? account_id) (accounts db))
  with
  | None => []
  | Some account =>
      let history :=
        match Account.account_type account with
        | cash => cash_sales_rows db
        | bank => payment_rows db account_id
        end
        ++ line_rows db (non_sales_income db) "+" account_id
        ++ line_rows db (report_expenses db) "-" account_id in
      Sql.ORDER_BY (desc HistoryRow.date) history
  end.

(** ** [api_server.py]: the report endpoint *)

Module PaymentEntry.
Record t := mk {
  method_id : Z;
  amount : Q }.
End PaymentEntry.

(** [ExpenseEntry] and [IncomeEntry] have the same fields. *)
Module LineEntry.
Record t := mk {
  category_id : option Z;
  amount : Q;
  description : string }.
End LineEntry.

(** [report_date] is the outcome of
    [datetime.strptime(request.report_date, '%Y-%m-%d').date()] as its
    [isoformat()] text, [None] when [strptime] raises [ValueError].
    The fields declared [Optional] accept a JSON null, which is [None]. *)
Module CreateReportRequest.
Record t := mk {
  report_date : option string;
  location_id : Z;
  total_sales : Q;
  payments : list PaymentEntry.t;
  expenses : option (list LineEntry.t);
  incomes : option (list LineEntry.t);
  cash_actual : option Q;
  created_by : option string }.
End CreateReportRequest.

Inductive response :=
| Created (report_id : Z)
| HTTPException (status_code : Z) (cause : option Py.exn).

(** [HTTPException(status_code=400, detail="Отчёт за ... уже существует")]. *)
Definition DuplicateReportError : response := HTTPException 400 None.

(** [HTTPException(status_code=500, detail=f"Ошибка: {str(e)}")]. *)
Definition server_error (e : Py.exn) : response := HTTPException 500 (Some e).

(** Body of [for payment in request.payments]. *)
Definition post_payment (report_id : Z) (db : database)
  (payment : PaymentEntry.t) : database :=
  if Py.gt0 (PaymentEntry.amount payment) then
    let methods := get_payment_methods db None in
    let method :=
      Py.next
        (fun m => PaymentMethod.id (fst m) =? PaymentEntry.method_id payment)
        methods in
    match method with
    | Some m =>
        fst (add_report_payment db report_id (PaymentEntry.method_id payment)
               (PaymentMethod.default_account_id (fst m))
               (PaymentEntry.amount payment))
    | None => db
    end
  else db.

(** Body of [for expense in request.expenses]. *)
Definition post_expense (report_id : Z) (db : database)
  (expense : LineEntry.t) : database :=
  if Py.gt0 (LineEntry.amount expense) then
    fst (add_report_expense db report_id 1 (LineEntry.amount expense)
           (LineEntry.category_id expense) (LineEntry.description expense))
  else db.

(** Body of [for income in request.incomes]. *)
Definition post_income (report_id : Z) (db : database)
  (income : LineEntry.t) : database :=
  if Py.gt0 (LineEntry.amount income) then
    fst (add_non_sales_income db report_id 1 (LineEntry.amount income)
           (LineEntry.category_id income) (LineEntry.description income))
  else db.

(** [UPDATE daily_reports SET cash_actual = ?, status = 'closed' WHERE id = ?]
    of the endpoint. *)
Definition set_cash_actual_closed (db : database) (cash_actual : Q)
  (report_id : Z) : database :=
  update_report_row db report_id
    (fun dr =>
       DailyReport.mk (DailyReport.id dr) (DailyReport.report_date dr)
         (DailyReport.location_id dr) (DailyReport.total_sales dr)
         (DailyReport.cash_expected dr) (Some cash_actual)
         (DailyReport.cash_difference dr) (DailyReport.cash_breakdown dr)
         st_closed (DailyReport.created_by dr) (DailyReport.closed_at dr)).

(** [create_report]. Every store method commits on its own, so what was
    written before an exception stays written. The answer is that of the
    endpoint for a request whose integers bind ([request_binds], below). *)
Definition create_report (db : database) (request : CreateReportRequest.t)
  : database * response :=
  match CreateReportRequest.report_date request with
  | None => (db, server_error Py.ValueError)
  | Some report_date =>
  match get_daily_report db report_date
          (CreateReportRequest.location_id request) with
  | Some existing => (db, DuplicateReportError)
  | None =>
  match create_daily_report db report_date
          (CreateReportRequest.location_id request)
          (CreateReportRequest.total_sales request)
          (CreateReportRequest.created_by request) with
  | (db0, Py.Raise e) => (db0, server_error e)
  | (db0, Py.Ok report_id) =>
  let db1 :=
    fold_left (post_payment report_id)
              (CreateReportRequest.payments request) db0 in
  match CreateReportRequest.expenses request with
  | None => (db1, server_error Py.TypeError)
  | Some expenses =>
  let db2 := fold_left (post_expense report_id) expenses db1 in
  match CreateReportRequest.incomes request with
  | None => (db2, server_error Py.TypeError)
  | Some incomes =>
  let db3 := fold_left (post_income report_id) incomes db2 in
  match CreateReportRequest.cash_actual request with
  | None => (db3, server_error Py.TypeError)
  | Some cash_actual =>
  let db4 :=
    if Py.gt0 cash_actual
    then set_cash_actual_closed db3 cash_actual report_id
    else db3 in
  (db4, Created report_id)
  end end end end end end.

(** An SQLite [INTEGER] has 64 bits; [execute] raises [OverflowError] for a
    parameter that is a Python [int] outside them. *)
Definition sqlite_integer (z : Z) : bool :=
  (- 2 ^ 63 <=? z) && (z <? 2 ^ 63).

(** The category id of an expense or income entry reaches a query only when
    the entry is posted, and a JSON null binds as NULL. *)
Definition category_binds (entry : LineEntry.t) : bool :=
  negb (Py.gt0 (LineEntry.amount entry))
  || match LineEntry.category_id entry with
     | Some category_id => sqlite_integer category_id
     | None => true
     end.

(** The integers of a request that [create_report] passes to a query: the
    location id, and the category ids of the entries it posts. A method id
    is only compared with the ids of the listed methods. *)
Definition request_binds (request : CreateReportRequest.t) : bool :=
  sqlite_integer (CreateReportRequest.location_id request)
  && forallb category_binds
       (match CreateReportRequest.expenses request with
        | Some expenses => expenses
        | None => []
        end)
  && forallb category_binds
       (match CreateReportRequest.incomes request with
        | Some incomes => incomes
        | None => []
        end).

(** ** Reachable stores *)

Inductive call :=
| Add_account (name : string) (ty : account_type)
| Update_account (account_id : Z) (name : string) (ty : account_type)
    (is_active : bool)
| Delete_account (account_id : Z)
| Add_payment_method (name : string) (ty : method_type) (commission : Q)
    (account_id : Z)
| Update_payment_method (method_id : Z) (name : string) (ty : method_type)
    (commission : Q) (account_id : Z) (is_active : bool)
| Delete_payment_method (method_id : Z)
| Toggle_payment_method_visibility (method_id : Z) (is_visible : bool)
| Update_payment_method_default_account (method_id account_id : Z)
| Update_payment_methods_order (ordered_ids : list Z)
| Add_location (name address : string)
| Update_location (location_id : Z) (name address : string) (is_active : bool)
| Delete_location (location_id : Z)
| Create_daily_report (report_date : string) (location_id : Z)
    (total_sales : Q) (created_by : option string)
| Add_report_payment (report_id payment_method_id account_id : Z) (amount : Q)
| Add_non_sales_income (report_id account_id : Z) (amount : Q)
    (category_id : option Z) (description : string)
| Add_report_expense (report_id account_id : Z) (amount : Q)
    (category_id : option Z) (description : string)
| Update_report_cash (report_id : Z) (cash_expected cash_actual : Q)
    (cash_breakdown : string)
| Close_report (now : string) (report_id : Z)
| Post_create_report (request : CreateReportRequest.t).

(** The store after a call, whatever the call returned or raised. *)
Definition run (db : database) (c : call) : database :=
  match c with
  | Add_account n ty => fst (add_account db n ty)
  | Update_account i n ty a => fst (update_account db i n ty a)
  | Delete_account i => delete_account db i
  | Add_payment_method n ty c a => fst (add_payment_method db n ty c a)
  | Update_payment_method i n ty c a act =>
      fst (update_payment_method db i n ty c a act)
  | Delete_payment_method i => delete_payment_method db i
  | Toggle_payment_method_visibility i v =>
      toggle_payment_method_visibility db i v
  | Update_payment_method_default_account i a =>
      update_payment_method_default_account db i a
  | Update_payment_methods_order ids => update_payment_methods_order db ids
  | Add_location n a => fst (add_location db n a)
  | Update_location i n a act => fst (update_location db i n a act)
  | Delete_location i => delete_location db i
  | Create_daily_report d l t by_ => fst (create_daily_report db d l t by_)
  | Add_report_payment r m a x => fst (add_report_payment db r m a x)
  | Add_non_sales_income r a x c d => fst (add_non_sales_income db r a x c d)
  | Add_report_expense r a x c d => fst (add_report_expense db r a x c d)
  | Update_report_cash r e a b => update_report_cash db r e a b
  | Close_report now r => close_report db now r
  | Post_create_report request => fst (create_report db request)
  end.

(** A store is reachable when a sequence of calls builds it from the empty
    one. *)
Inductive reachable : database -> Prop :=
| reachable_init : reachable init_database
| reachable_run db c : reachable db -> reachable (run db c).

(** ** Vocabulary of the statements *)

(** Plain sum of a list of amounts. *)
Fixpoint Qsum (l : list Q) : Q :=
  match l with
  | [] => 0%Q
  | x :: l' => (x + Qsum l')%Q
  end.

(** The values of a nullable column that are not NULL. *)
Definition non_null {A} (col : list (option A)) : list A :=
  flat_map (fun v => match v with Some x => [x] | None => [] end) col.

(** The cash counts of the closed reports. *)
Definition closed_cash_counts (db : database) : list Q :=
  non_null
    (List.map DailyReport.cash_actual
       (List.filter (fun dr => is_closed (DailyReport.status dr))
                    (daily_reports db))).

Definition payments_of (db : database) (account_id : Z) : list ReportPayment.t :=
  List.filter (fun rp => ReportPayment.account_id rp =? account_id)
              (report_payments db).

Definition incomes_of (db : database) (account_id : Z) : list Line.t :=
  List.filter (fun r => Line.account_id r =? account_id) (non_sales_income db).

Definition expenses_of (db : database) (account_id : Z) : list Line.t :=
  List.filter (fun r => Line.account_id r =? account_id) (report_expenses db).

(** The (date, location) key of a report. *)
Definition day_and_place (dr : DailyReport.t) : string * Z :=
  (DailyReport.report_date dr, DailyReport.location_id dr).

(** A list in descending order of a text key. *)
Definition sorted_desc {A} (key : A -> string) (l : list A) : Prop :=
  Sorted (fun x y => String.leb (key y) (key x) = true) l.

(** The store after a sequence of calls. *)
Definition run_all (calls : list call) (db : database) : database :=
  fold_left run calls db.

(** The value a [SUM] accumulator stands for. *)
Definition sum_value (acc : option Q) : Q :=
  match acc with None => 0%Q | Some s => s end.

(** The tables that posting lines leaves alone. *)
Definition same_masters (db db' : database) : Prop :=
  accounts db' = accounts db
  /\ payment_methods db' = payment_methods db
  /\ locations db' = locations db
  /\ daily_reports db' = daily_reports db.

(** The row that [create_daily_report] inserts. *)
Definition new_report (db : database) (report_date : string)
  (location_id : Z) (total_sales : Q) (created_by : option string)
  : DailyReport.t :=
  DailyReport.mk (Sql.next_id (List.map DailyReport.id (daily_reports db)))
    report_date location_id total_sales None None None None st_open
    created_by None.

(** The same row once the endpoint has stored the cash count. *)
Definition new_report_closed (db : database) (report_date : string)
  (location_id : Z) (total_sales : Q) (created_by : option string)
  (cash_actual : Q) : DailyReport.t :=
  DailyReport.mk (Sql.next_id (List.map DailyReport.id (daily_reports db)))
    report_date location_id total_sales None (Some cash_actual) None None
    st_closed created_by None.

(** What one call can do to the table of reports. *)
Inductive reports_step (db : database) : list DailyReport.t -> Prop :=
| reports_kept : reports_step db (daily_reports db)
| reports_new d loc total by_ :
    existsb (same_day_and_place d loc) (daily_reports db) = false ->
    reports_step db (daily_reports db ++ [new_report db d loc total by_])
| reports_new_closed d loc total by_ ca :
    existsb (same_day_and_place d loc) (daily_reports db) = false ->
    reports_step db
      (daily_reports db ++ [new_report_closed db d loc total by_ ca])
| reports_cash rid e a b :
    reports_step db (daily_reports (update_report_cash db rid e a b))
| reports_closed now rid :
    reports_step db (daily_reports (close_report db now rid)).

(** [cash_difference] agrees with the two cash amounts when both are set. *)
Definition difference_consistent (dr : DailyReport.t) : Prop :=
  forall a e,
    DailyReport.cash_actual dr = Some a ->
    DailyReport.cash_expected dr = Some e ->
    DailyReport.cash_difference dr = Some (a - e)%Q.

(** The payment method that the endpoint finds for a method id: the one
    with that id among those that [get_payment_methods()] lists. *)
Definition listed_method (db : database) (method_id : Z)
  : option PaymentMethod.t :=
  option_map fst
    (Py.next (fun m => PaymentMethod.id (fst m) =? method_id)
             (get_payment_methods db None)).

(** A payment entry that the endpoint posts. *)
Definition payable (db : database) (p : PaymentEntry.t) : bool :=
  Py.gt0 (PaymentEntry.amount p)
  && match listed_method db (PaymentEntry.method_id p) with
     | Some _ => true
     | None => false
     end.

(** A payment row as the endpoint posts it for an entry. *)
Definition payment_row_of (db : database) (report_id : Z)
  (p : PaymentEntry.t) (row : ReportPayment.t) : Prop :=
  ReportPayment.report_id row = report_id
  /\ ReportPayment.payment_method_id row = PaymentEntry.method_id p
  /\ ReportPayment.amount row = PaymentEntry.amount p
  /\ exists m, listed_method db (PaymentEntry.method_id p) = Some m
               /\ ReportPayment.account_id row
                  = PaymentMethod.default_account_id m.

(** An expense or income row as the endpoint posts it for an entry. *)
Definition line_row_of (report_id : Z) (e : LineEntry.t) (row : Line.t)
  : Prop :=
  Line.report_id row = report_id
  /\ Line.account_id row = 1
  /\ Line.amount row = LineEntry.amount e
  /\ Line.category_id row = LineEntry.category_id e
  /\ Line.description row = LineEntry.description e.

(** The entries with a positive amount. *)
Definition positive_lines (es : list LineEntry.t) : list LineEntry.t :=
  List.filter (fun e => Py.gt0 (LineEntry.amount e)) es.

(** The tables that decide which payment methods are listed. *)
Definition same_methods (db db' : database) : Prop :=
  accounts db' = accounts db /\ payment_methods db' = payment_methods db.

(** The primary keys of the tables that the history joins. *)
Definition primary_keys (db : database) : Prop :=
  List.NoDup (List.map Account.id (accounts db))
  /\ List.NoDup (List.map PaymentMethod.id (payment_methods db))
  /\ List.NoDup (List.map Location.id (locations db))
  /\ List.NoDup (List.map DailyReport.id (daily_reports db)).

(** [rows] and [out] match one for one, up to the order of the rows. *)
Definition one_for_each {A B} (R : A -> B -> Prop) (rows : list A)
  (out : list B) : Prop :=
  exists rows', Permutation rows' rows /\ Forall2 R rows' out.

Definition has_report (db : database) (report_id : Z) : bool :=
  existsb (fun dr => report_id =? DailyReport.id dr) (daily_reports db).

Definition has_method (db : database) (method_id : Z) : bool :=
  existsb (fun pm => method_id =? PaymentMethod.id pm) (payment_methods db).

(** The location name shown for a report: that of the location with the
    report's location id, NULL when there is none. *)
Definition located (db : database) (dr : DailyReport.t)
  (name : option string) : Prop :=
  match name with
  | Some n =>
      exists l, In l (locations db)
                /\ DailyReport.location_id dr = Location.id l
                /\ Location.name l = n
  | None =>
      forall l, In l (locations db) ->
                DailyReport.location_id dr <> Location.id l
  end.

(** The history entry of a non-sales-income or expense row. *)
Definition line_history_row (db : database) (operation_type : string)
  (ln : Line.t) (h : HistoryRow.t) : Prop :=
  exists dr,
    In dr (daily_reports db)
    /\ Line.report_id ln = DailyReport.id dr
    /\ HistoryRow.date h = DailyReport.report_date dr
    /\ HistoryRow.report_id h = Line.report_id ln
    /\ HistoryRow.amount h = Some (Line.amount ln)
    /\ HistoryRow.description h = Line.description ln
    /\ HistoryRow.operation_type h = operation_type
    /\ located db dr (HistoryRow.location h).

(** The history entry of a payment row. *)
Definition payment_history_row (db : database) (rp : ReportPayment.t)
  (h : HistoryRow.t) : Prop :=
  exists dr pm,
    In dr (daily_reports db)
    /\ ReportPayment.report_id rp = DailyReport.id dr
    /\ In pm (payment_methods db)
    /\ ReportPayment.payment_method_id rp = PaymentMethod.id pm
    /\ HistoryRow.date h = DailyReport.report_date dr
    /\ HistoryRow.report_id h = ReportPayment.report_id rp
    /\ HistoryRow.amount h = Some (ReportPayment.net_amount rp)
    /\ HistoryRow.description h = PaymentMethod.name pm
    /\ HistoryRow.operation_type h = "+"%string
    /\ located db dr (HistoryRow.location h).

(** The history entry of a closed report in the history of a cash account. *)
Definition cash_history_row (db : database) (dr : DailyReport.t)
  (h : HistoryRow.t) : Prop :=
  HistoryRow.date h = DailyReport.report_date dr
  /\ HistoryRow.report_id h = DailyReport.id dr
  /\ HistoryRow.amount h = DailyReport.cash_actual dr
  /\ HistoryRow.description h = "Продажи наличными"%string
  /\ HistoryRow.operation_type h = "+"%string
  /\ located db dr (HistoryRow.location h).

(** The net amount of a payment row is its amount less its commission, the
    expression that [add_report_payment] stores. *)
Definition payment_net (rp : ReportPayment.t) : Prop :=
  ReportPayment.net_amount rp
  = (ReportPayment.amount rp - ReportPayment.commission_amount rp)%Q.

(** ** Sample stores *)

(** The binary64 number nearest to 1.51, which is what Python reads from the
    text [1.51]. *)
Definition amount_1_51 : float := 0x1.828f5c28f5c29p+0%float.

Definition sample_request : CreateReportRequest.t :=
  CreateReportRequest.mk (Some "2024-05-01") 1 1000%Q
    [PaymentEntry.mk 1 600%Q; PaymentEntry.mk 1 0%Q]
    (Some [LineEntry.mk None 100%Q "supplies";
           LineEntry.mk None (-5)%Q "void"])
    (Some [LineEntry.mk None 50%Q "deposit refund"])
    (Some 400%Q) (Some "telegram_user").

(** A cash desk (1), a bank account (2), a safe (3), one location, a card
    terminal at 5% paid into the bank account, one report posted through the
    endpoint and one bank fee booked on it. *)
Definition sample_calls : list call :=
  [ Add_account "Cash desk" cash;
    Add_account "Bank" bank;
    Add_account "Safe" cash;
    Add_location "Shop 1" "";
    Add_payment_method "Terminal" terminal 5%Q 2;
    Post_create_report sample_request;
    Add_report_expense 1 2 100%Q None "bank fee" ].

Definition sample_store : database := run_all sample_calls init_database.

(** One account, soft-deleted. *)
Definition closed_account_store : database :=
  run_all [Add_account "Safe" cash; Delete_account 1] init_database.

(** A cash desk with one closed report counted at 400, soft-deleted
    afterwards. *)
Definition deleted_cash_store : database :=
  run_all
    [ Add_account "Cash desk" cash;
      Add_location "Shop 1" "";
      Post_create_report
        (CreateReportRequest.mk (Some "2024-05-01") 1 400%Q [] (Some [])
           (Some []) (Some 400%Q) None);
      Delete_account 1 ]
    init_database.

(** A bank account with one payment row of 100, soft-deleted afterwards. *)
Definition deleted_bank_store : database :=
  run_all
    [ Add_account "Bank" bank;
      Add_report_payment 1 1 1 100%Q;
      Delete_account 1 ]
    init_database.

(** Two cash accounts, the second one soft-deleted. *)
Definition two_cash_store : database :=
  run_all
    [ Add_account "Cash desk" cash;
      Add_account "Safe" cash;
      Delete_account 2 ]
    init_database.

(** A report posted for a location id that the table of locations does not
    hold. *)
Definition stray_request : CreateReportRequest.t :=
  CreateReportRequest.mk (Some "2024-05-01") 7 1000%Q [] (Some []) (Some [])
    (Some 0%Q) (Some "telegram_user").

Definition stray_store : database :=
  run_all [Post_create_report stray_request] init_database.

(** A second report for the sample store: a payment through the terminal, one
    through a method id that does not exist, one with a negative amount. *)
Definition next_day_request : CreateReportRequest.t :=
  CreateReportRequest.mk (Some "2024-05-02") 1 800%Q
    [PaymentEntry.mk 1 300%Q; PaymentEntry.mk 9 250%Q;
     PaymentEntry.mk 1 (-20)%Q]
    (Some [LineEntry.mk None 40%Q "tea"; LineEntry.mk None 0%Q "none"])
    (Some []) (Some 0%Q) None.

(** One location and one report created through the store, still open. *)
Definition open_report_store : database :=
  run_all [Add_location "Shop 1" "";
           Create_daily_report "2024-05-01" 1 1000%Q None] init_database.

(** A cash desk with a till that pays into it, and one report, left open,
    with one payment through the till. *)
Definition till_store : database :=
  run_all
    [ Add_account "Cash desk" cash;
      Add_location "Shop 1" "";
      Add_payment_method "Till" terminal 0%Q 1;
      Post_create_report
        (CreateReportRequest.mk (Some "2024-05-01") 1 600%Q
           [PaymentEntry.mk 1 600%Q] (Some []) (Some []) (Some 0%Q) None) ]
    init_database.

(** ** Vocabulary of the further properties *)


(** The line tables once the endpoint has stopped at a null list or a null
    cash count of the request: the payments are posted, the expenses when
    the list of expenses is there, the incomes when both lists are. *)
Definition lines_so_far (db db' : database) (request : CreateReportRequest.t)
  (report_id : Z) : Prop :=
  (exists rows,
      report_payments db' = report_payments db ++ rows
      /\ Forall2 (payment_row_of db report_id)
                 (List.filter (payable db)
                              (CreateReportRequest.payments request))
                 rows)
  /\ match CreateReportRequest.expenses request with
     | None =>
         report_expenses db' = report_expenses db
         /\ non_sales_income db' = non_sales_income db
     | Some expenses =>
         (exists rows,
             report_expenses db' = report_expenses db ++ rows
             /\ Forall2 (line_row_of report_id) (positive_lines expenses)
                        rows)
         /\ match CreateReportRequest.incomes request with
            | None => non_sales_income db' = non_sales_income db
            | Some incomes =>
                exists rows,
                  non_sales_income db' = non_sales_income db ++ rows
                  /\ Forall2 (line_row_of report_id)
                             (positive_lines incomes) rows
            end
     end.

(** A request whose list of expenses is a JSON null. *)
Definition null_expenses_request : CreateReportRequest.t :=
  CreateReportRequest.mk (Some "2024-05-03") 1 500%Q
    [PaymentEntry.mk 1 500%Q] None (Some []) (Some 0%Q) None.

(** The order of [ORDER BY account_type, name]. *)
Definition accounts_in_order (a b : Account.t) : Prop :=
  account_type_leb (Account.account_type a) (Account.account_type b) = true
  /\ (Account.account_type a = Account.account_type b ->
      String.leb (Account.name a) (Account.name b) = true).

(** The account that a listed payment method is joined with: the one whose
    id is its [default_account_id], NULL when there is none. *)
Definition default_account_of (db : database) (pm : PaymentMethod.t)
  (a : option Account.t) : Prop :=
  match a with
  | Some acc => In acc (accounts db)
                /\ PaymentMethod.default_account_id pm = Account.id acc
  | None => forall acc, In acc (accounts db) ->
                        PaymentMethod.default_account_id pm <> Account.id acc
  end.

(** The index, counted from [n], of the last occurrence of [i] in [ids]. *)
Fixpoint last_position (n : Z) (i : Z) (ids : list Z) : option Z :=
  match ids with
  | [] => None
  | j :: rest =>
      match last_position (n + 1) i rest with
      | Some k => Some k
      | None => if j =? i then Some n else None
      end
  end.

(** A payment method with another [display_order]. *)
Definition with_display_order (m : PaymentMethod.t) (order : Z)
  : PaymentMethod.t :=
  PaymentMethod.mk (PaymentMethod.id m) (PaymentMethod.name m)
    (PaymentMethod.method_type m) (PaymentMethod.default_account_id m)
    (PaymentMethod.commission_percent m) (PaymentMethod.is_visible m)
    (PaymentMethod.is_active m) order.

(** Three terminals, the second one soft-deleted. *)
Definition three_methods_store : database :=
  run_all
    [ Add_account "Bank" bank;
      Add_payment_method "Card" terminal 2%Q 1;
      Add_payment_method "Old card" terminal 3%Q 1;
      Add_payment_method "App" online 1%Q 1;
      Add_payment_method "Courier" delivery 0%Q 1;
      Delete_payment_method 2 ]
    init_database.

(** The calls that write only the payment methods or the locations. *)
Definition writes_methods_or_locations (c : call) : bool :=
  match c with
  | Add_payment_method _ _ _ _
  | Update_payment_method _ _ _ _ _ _
  | Delete_payment_method _
  | Toggle_payment_method_visibility _ _
  | Update_payment_method_default_account _ _
  | Update_payment_methods_order _
  | Add_location _ _
  | Update_location _ _ _ _
  | Delete_location _ => true
  | _ => false
  end.

(** The [UNIQUE] name columns. *)
Definition unique_names (db : database) : Prop :=
  List.NoDup (List.map Account.name (accounts db))
  /\ List.NoDup (List.map PaymentMethod.name (payment_methods db))
  /\ List.NoDup (List.map Location.name (locations db)).

(** The [UNIQUE] constraint on the names at work: an insert under a name
    that the table holds, and a rename of a row onto the name of another
    row, raise [IntegrityError] and leave the store as it was. *)
Definition names_guarded (db : database) : Prop :=
  (forall name ty,
      In name (List.map Account.name (accounts db)) ->
      add_account db name ty
      = (db, Py.Raise (unique_failed "accounts.name")))
  /\ (forall name ty commission account_id,
         In name (List.map PaymentMethod.name (payment_methods db)) ->
         add_payment_method db name ty commission account_id
         = (db, Py.Raise (unique_failed "payment_methods.name")))
  /\ (forall name address,
         In name (List.map Location.name (locations db)) ->
         add_location db name address
         = (db, Py.Raise (unique_failed "locations.name")))
  /\ (forall a b ty is_active,
         In a (accounts db) -> In b (accounts db) ->
         Account.id a <> Account.id b ->
         update_account db (Account.id a) (Account.name b) ty is_active
         = (db, Py.Raise (unique_failed "accounts.name")))
  /\ (forall a b ty commission account_id is_active,
         In a (payment_methods db) -> In b (payment_methods db) ->
         PaymentMethod.id a <> PaymentMethod.id b ->
         update_payment_method db (PaymentMethod.id a) (PaymentMethod.name b)
           ty commission account_id is_active
         = (db, Py.Raise (unique_failed "payment_methods.name")))
  /\ (forall a b address is_active,
         In a (locations db) -> In b (locations db) ->
         Location.id a <> Location.id b ->
         update_location db (Location.id a) (Location.name b) address
           is_active
         = (db, Py.Raise (unique_failed "locations.name"))).

(** ** [FinanceSystemV5]: the list of reports *)

(** The text that the column [status] holds. *)
Definition status_text (s : report_status) : string :=
  match s with
  | st_open => "open"
  | st_closed => "closed"
  | st_verified => "verified"
  end.

(** A row of [get_reports]: the selected columns, [location] being
    [l.name] of the [LEFT JOIN]. *)
Module ReportRow.
Record t := mk {
  id : Z;
  report_date : string;
  location : option string;
  total_sales : Q;
  cash_expected : option Q;
  cash_actual : option Q;
  cash_difference : option Q;
  status : report_status;
  created_by : option string }.
End ReportRow.

Definition report_row (r : DailyReport.t * option Location.t) : ReportRow.t :=
  let (dr, l) := r in
  ReportRow.mk (DailyReport.id dr) (DailyReport.report_date dr)
    (location_name l) (DailyReport.total_sales dr)
    (DailyReport.cash_expected dr) (DailyReport.cash_actual dr)
    (DailyReport.cash_difference dr) (DailyReport.status dr)
    (DailyReport.created_by dr).

(** [if location_id:] holds for an id other than [None] and [0]. *)
Definition location_condition (location_id : option Z) (dr : DailyReport.t)
  : bool :=
  match location_id with
  | Some l => if l =? 0 then true else DailyReport.location_id dr =? l
  | None => true
  end.

(** [if status:] holds for a text other than [None] and the empty one. *)
Definition status_condition (status : option string) (dr : DailyReport.t)
  : bool :=
  match status with
  | Some s =>
      if String.eqb s "" then true
      else String.eqb (status_text (DailyReport.status dr)) s
  | None => true
  end.

(** [ORDER BY dr.report_date DESC, dr.id DESC]. *)
Definition newest_first (x y : DailyReport.t) : bool :=
  Sql.lex (desc DailyReport.report_date)
    (fun a b => String.eqb (DailyReport.report_date a)
                           (DailyReport.report_date b))
    (fun a b => DailyReport.id b <=? DailyReport.id a) x y.

(** [LIMIT ?]: a negative limit is no limit. *)
Definition LIMIT {A} (limit : Z) (l : list A) : list A :=
  if limit <? 0 then l else firstn (Z.to_nat limit) l.

Definition get_reports (db : database) (limit : Z) (location_id : option Z)
  (status : option string) : list ReportRow.t :=
  List.map report_row
    (LIMIT limit
       (Sql.ORDER_BY (fun x y => newest_first (fst x) (fst y))
          (List.filter
             (fun r => location_condition location_id (fst r)
                       && status_condition status (fst r))
             (Sql.LEFT_JOIN report_location (daily_reports db)
                            (locations db))))).

(** A row of [get_reports] for a stored report. *)
Definition report_row_of (db : database) (dr : DailyReport.t)
  (row : ReportRow.t) : Prop :=
  ReportRow.id row = DailyReport.id dr
  /\ ReportRow.report_date row = DailyReport.report_date dr
  /\ ReportRow.total_sales row = DailyReport.total_sales dr
  /\ ReportRow.cash_expected row = DailyReport.cash_expected dr
  /\ ReportRow.cash_actual row = DailyReport.cash_actual dr
  /\ ReportRow.cash_difference row = DailyReport.cash_difference dr
  /\ ReportRow.status row = DailyReport.status dr
  /\ ReportRow.created_by row = DailyReport.created_by dr
  /\ located db dr (ReportRow.location row).

(** Newest date first, and the larger id first on one date. *)
Definition rows_newest_first (x y : ReportRow.t) : Prop :=
  String.leb (ReportRow.report_date y) (ReportRow.report_date x) = true
  /\ (ReportRow.report_date x = ReportRow.report_date y ->
      ReportRow.id y <= ReportRow.id x).

(** ** [FinanceSystemV5]: categories

    The table [categories] is carried on its own, beside the store: the
    methods that read or write it touch no other table, except
    [get_report_details], which takes it as an argument. No method updates
    or deletes a category. *)

Inductive category_type := expense | income.

Definition category_type_eqb (a b : category_type) : bool :=
  match a, b with
  | expense, expense | income, income => true
  | _, _ => false
  end.

Module Category.
Record t := mk {
  id : Z;
  name : string;
  parent_id : option Z;
  category_type : category_type;
  is_active : bool }.
End Category.

Definition add_category (categories : list Category.t) (name : string)
  (category_type : category_type) (parent_id : option Z)
  : list Category.t * Z :=
  let lastrowid := Sql.next_id (List.map Category.id categories) in
  (categories ++ [Category.mk lastrowid name parent_id category_type true],
   lastrowid).

(** [parent_id=?] holds for no row whose [parent_id] is NULL. *)
Definition parent_is (parent_id : option Z) (c : Category.t) : bool :=
  match parent_id, Category.parent_id c with
  | Some p, Some q => q =? p
  | Some _, None => false
  | None, None => true
  | None, Some _ => false
  end.

Definition category_name_leb (a b : Category.t) : bool :=
  String.leb (Category.name a) (Category.name b).

Definition get_categories (categories : list Category.t)
  (category_type : option category_type) (parent_id : option Z)
  : list Category.t :=
  Sql.ORDER_BY category_name_leb
    (List.filter
       (fun c =>
          Category.is_active c
          && match category_type with
             | Some ty => category_type_eqb (Category.category_type c) ty
             | None => true
             end
          && parent_is parent_id c)
       categories).

Definition get_subcategories (categories : list Category.t) (parent_id : Z)
  : list Category.t :=
  Sql.ORDER_BY category_name_leb
    (List.filter
       (fun c => match Category.parent_id c with
                 | Some q => q =? parent_id
                 | None => false
                 end
                 && Category.is_active c)
       categories).

(** The endpoint [/api/income_categories]: the data it answers with. *)
Definition get_income_categories (categories : list Category.t)
  : list Category.t :=
  get_categories categories (Some income) None.

(** ** [FinanceSystemV5]: the details of a report *)

(** [nsi.category_id = c.id] of the [LEFT JOIN]; NULL equals nothing. *)
Definition line_category (ln : Line.t) (c : Category.t) : bool :=
  match Line.category_id ln with
  | Some k => k =? Category.id c
  | None => false
  end.

(** The rows are kept with the rows they are joined with, which give
    [location_name], [payment_method_name], [category_name] and
    [account_name]. *)
Module ReportDetails.
Record t := mk {
  report : DailyReport.t * Location.t;
  payments : list (ReportPayment.t * PaymentMethod.t * Account.t);
  non_sales_income : list (Line.t * option Category.t * Account.t);
  expenses : list (Line.t * option Category.t * Account.t) }.
End ReportDetails.

Definition detail_payments (db : database) (report_id : Z)
  : list (ReportPayment.t * PaymentMethod.t * Account.t) :=
  List.filter
    (fun r => ReportPayment.report_id (fst (fst r)) =? report_id)
    (Sql.JOIN
       (fun r a => ReportPayment.account_id (fst r) =? Account.id a)
       (Sql.JOIN
          (fun rp pm => ReportPayment.payment_method_id rp
                        =? PaymentMethod.id pm)
          (report_payments db) (payment_methods db))
       (accounts db)).

Definition detail_lines (db : database) (categories : list Category.t)
  (table : list Line.t) (report_id : Z)
  : list (Line.t * option Category.t * Account.t) :=
  List.filter
    (fun r => Line.report_id (fst (fst r)) =? report_id)
    (Sql.JOIN
       (fun r a => Line.account_id (fst r) =? Account.id a)
       (Sql.LEFT_JOIN line_category table categories)
       (accounts db)).

(** [dict(cursor.fetchone())] raises [TypeError] when the first query has
    no row. *)
Definition get_report_details (db : database) (categories : list Category.t)
  (report_id : Z) : Py.result ReportDetails.t :=
  match head
          (List.filter (fun r => DailyReport.id (fst r) =? report_id)
             (Sql.JOIN report_location (daily_reports db) (locations db)))
  with
  | None => Py.Raise Py.TypeError
  | Some report =>
      Py.Ok
        (ReportDetails.mk report
           (detail_payments db report_id)
           (detail_lines db categories (non_sales_income db) report_id)
           (detail_lines db categories (report_expenses db) report_id))
  end.

Definition has_account (db : database) (account_id : Z) : bool :=
  existsb (fun a => account_id =? Account.id a) (accounts db).

(** A location and a report with one expense posted through the endpoint,
    in a store without accounts. *)
Definition no_account_store : database :=
  run_all
    [ Add_location "Shop 1" "";
      Post_create_report
        (CreateReportRequest.mk (Some "2024-05-01") 1 100%Q []
           (Some [LineEntry.mk None 30%Q "tea"]) (Some []) (Some 0%Q) None) ]
    init_database.

(** A payment row of [get_report_details] for a stored payment. *)
Definition detail_payment_of (db : database) (rp : ReportPayment.t)
  (row : ReportPayment.t * PaymentMethod.t * Account.t) : Prop :=
  fst (fst row) = rp
  /\ In (snd (fst row)) (payment_methods db)
  /\ ReportPayment.payment_method_id rp = PaymentMethod.id (snd (fst row))
  /\ In (snd row) (accounts db)
  /\ ReportPayment.account_id rp = Account.id (snd row).

(** An income or expense row of [get_report_details] for a stored line. *)
Definition detail_line_of (db : database) (categories : list Category.t)
  (ln : Line.t) (row : Line.t * option Category.t * Account.t) : Prop :=
  fst (fst row) = ln
  /\ match snd (fst row) with
     | Some c => In c categories /\ Line.category_id ln = Some (Category.id c)
     | None => forall c, In c categories ->
                         Line.category_id ln <> Some (Category.id c)
     end
  /\ In (snd row) (accounts db)
  /\ Line.account_id ln = Account.id (snd row).

(** ** [FinanceSystemV5]: expense categories

    The table [expense_categories], carried on its own like [categories]. *)

Module ExpenseCategory.
Record t := mk {
  id : Z;
  name : string;
  description : string;
  is_active : bool }.
End ExpenseCategory.

Definition add_expense_category (table : list ExpenseCategory.t)
  (name description : string) : list ExpenseCategory.t * Z :=
  let lastrowid := Sql.next_id (List.map ExpenseCategory.id table) in
  (table ++ [ExpenseCategory.mk lastrowid name description true], lastrowid).

Definition update_expense_category (table : list ExpenseCategory.t)
  (category_id : Z) (name description : string) (is_active : bool)
  : list ExpenseCategory.t :=
  List.map
    (fun c => if ExpenseCategory.id c =? category_id
              then ExpenseCategory.mk (ExpenseCategory.id c) name description
                                      is_active
              else c)
    table.

Definition delete_expense_category (table : list ExpenseCategory.t)
  (category_id : Z) : list ExpenseCategory.t :=
  List.map
    (fun c => if ExpenseCategory.id c =? category_id
              then ExpenseCategory.mk (ExpenseCategory.id c)
                     (ExpenseCategory.name c) (ExpenseCategory.description c)
                     false
              else c)
    table.

Definition get_expense_categories (table : list ExpenseCategory.t)
  : list ExpenseCategory.t :=
  Sql.ORDER_BY
    (fun a b => String.leb (ExpenseCategory.name a) (ExpenseCategory.name b))
    (List.filter ExpenseCategory.is_active table).

(** ** Sorting *)

Section Sorting.
Context {A : Type} (le : A -> A -> bool).

Lemma insert_perm (x : A) (l : list A) :
  Permutation (Sql.insert le x l) (x :: l).
Proof.
  induction l as [|y l IH]; simpl.
  - apply Permutation_refl.
  - destruct (le x y).
    + apply Permutation_refl.
    + eapply Permutation_trans; [apply perm_skip, IH | apply perm_swap].
Qed.

Lemma ORDER_BY_perm (l : list A) : Permutation (Sql.ORDER_BY le l) l.
Proof.
  induction l as [|x l IH]; simpl.
  - apply perm_nil.
  - eapply Permutation_trans; [apply insert_perm | apply perm_skip, IH].
Qed.

Lemma ORDER_BY_In (l : list A) (x : A) : In x (Sql.ORDER_BY le l) <-> In x l.
Proof.
  split; apply Permutation_in;
    [apply ORDER_BY_perm | apply Permutation_sym, ORDER_BY_perm].
Qed.

Hypothesis le_total : forall x y, le x y = true \/ le y x = true.

Lemma insert_sorted (x : A) (l : list A) :
  Sorted (fun a b => le a b = true) l ->
  Sorted (fun a b => le a b = true) (Sql.insert le x l).
Proof.
  induction 1 as [|y l Hs IH Hhd]; simpl.
  - repeat constructor.
  - destruct (le x y) eqn:Hxy.
    + repeat constructor; assumption.
    + constructor; [exact IH|].
      destruct (le_total x y) as [Hle|Hle]; [congruence|].
      destruct l as [|z l]; simpl.
      * constructor. exact Hle.
      * destruct (le x z); constructor; [exact Hle|].
        inversion Hhd; assumption.
Qed.

Lemma ORDER_BY_sorted (l : list A) :
  Sorted (fun a b => le a b = true) (Sql.ORDER_BY le l).
Proof.
  induction l as [|x l IH]; simpl.
  - constructor.
  - apply insert_sorted, IH.
Qed.

End Sorting.

Lemma ORDER_BY_desc_sorted {A} (key : A -> string) (l : list A) :
  sorted_desc key (Sql.ORDER_BY (desc key) l).
Proof.
  apply (ORDER_BY_sorted (desc key)).
  intros x y. unfold desc. apply String.leb_total.
Qed.

(** ** Sums *)

Lemma or0_value (x : option Q) : (Py.or0 x == sum_value x)%Q.
Proof.
  destruct x as [q|]; simpl; [|reflexivity].
  destruct (Qeq_bool q 0) eqn:E; [|reflexivity].
  apply Qeq_bool_iff in E. symmetry. exact E.
Qed.

Lemma non_null_cons {A} (v : option A) (col : list (option A)) :
  non_null (v :: col)
  = match v with Some x => x :: non_null col | None => non_null col end.
Proof. destruct v; reflexivity. Qed.

Lemma SUM_from (col : list (option Q)) (acc : option Q) :
  (sum_value
     (fold_left
        (fun acc v =>
           match v with
           | None => acc
           | Some q => Some (match acc with None => q | Some s => (s + q)%Q end)
           end)
        col acc)
   == sum_value acc + Qsum (non_null col))%Q.
Proof.
  revert acc. induction col as [|v col IH]; intros acc.
  - simpl. ring.
  - rewrite non_null_cons. simpl fold_left. rewrite IH.
    destruct v as [q|]; [|reflexivity].
    destruct acc as [s|]; simpl; ring.
Qed.

Lemma or0_SUM (col : list (option Q)) :
  (Py.or0 (Sql.SUM col) == Qsum (non_null col))%Q.
Proof.
  rewrite or0_value. unfold Sql.SUM. rewrite SUM_from. simpl. ring.
Qed.

Lemma non_null_map_Some {A B} (f : A -> B) (l : list A) :
  non_null (List.map (fun x => Some (f x)) l) = List.map f l.
Proof. induction l as [|x l IH]; simpl; [|rewrite <- IH]; reflexivity. Qed.

(** ** The result of [get_account_balance] *)

Lemma fold_insert_lookup {A V} (k : A -> Z) (f : A -> V) (l : list A)
  (m0 : gmap Z V) (i : Z) :
  fold_left (fun m a => <[k a := f a]> m) l m0 !! i
  = match List.find (fun a => k a =? i) (rev l) with
    | Some a => Some (f a)
    | None => m0 !! i
    end.
Proof.
  induction l as [|a l IH] using rev_ind; [reflexivity|].
  rewrite fold_left_app, rev_app_distr. simpl.
  destruct (k a =? i) eqn:E.
  - apply Z.eqb_eq in E. subst i. apply lookup_insert_eq.
  - apply Z.eqb_neq in E. rewrite lookup_insert_ne by exact E. exact IH.
Qed.

Lemma balance_lookup (db : database) (i : Z) :
  get_account_balance db !! i
  = option_map (account_summary db)
      (List.find (fun a => Account.id a =? i) (rev (get_accounts db None))).
Proof.
  unfold get_account_balance. rewrite fold_insert_lookup.
  destruct (List.find _ _); reflexivity.
Qed.

Lemma get_accounts_In (db : database) (acc : Account.t) :
  In acc (get_accounts db None)
  <-> In acc (accounts db) /\ Account.is_active acc = true.
Proof.
  unfold get_accounts. rewrite ORDER_BY_In. apply filter_In.
Qed.

Lemma balance_lookup_Some (db : database) (i : Z) (s : Summary.t) :
  get_account_balance db !! i = Some s ->
  exists acc, In acc (accounts db) /\ Account.is_active acc = true
              /\ Account.id acc = i /\ s = account_summary db acc.
Proof.
  rewrite balance_lookup.
  destruct (List.find _ _) as [acc|] eqn:F; [|discriminate].
  intros [= <-]. apply find_some in F. destruct F as [Hin Hid].
  apply in_rev, get_accounts_In in Hin. apply Z.eqb_eq in Hid.
  exists acc. tauto.
Qed.

Lemma summary_type (db : database) (acc : Account.t) :
  Summary.type (account_summary db acc) = Account.account_type acc.
Proof. unfold account_summary. destruct (Account.account_type acc); reflexivity. Qed.

Lemma find_is_Some {A} (p : A -> bool) (l : list A) :
  (exists x, In x l /\ p x = true) -> exists y, List.find p l = Some y.
Proof.
  intros (x & Hin & Hp). destruct (List.find p l) as [y|] eqn:F; [eauto|].
  apply (find_none _ _ F) in Hin. congruence.
Qed.

Lemma NoDup_map_inj {A K} (key : A -> K) (l : list A) (a b : A) :
  List.NoDup (List.map key l) -> In a l -> In b l -> key a = key b -> a = b.
Proof.
  induction l as [|x l IH]; simpl; [tauto|].
  intros H Ha Hb E. inversion H as [|? ? Hnotin Hnd]; subst.
  destruct Ha as [->|Ha], Hb as [->|Hb].
  - reflexivity.
  - exfalso. apply Hnotin. rewrite E. apply List.in_map. exact Hb.
  - exfalso. apply Hnotin. rewrite <- E. apply List.in_map. exact Ha.
  - apply IH; assumption.
Qed.

(* The entries of [get_account_balance] are the summaries of the active
   accounts. *)
Lemma balance_lookup_iff (db : database) (i : Z) (s : Summary.t) :
  List.NoDup (List.map Account.id (accounts db)) ->
  get_account_balance db !! i = Some s
  <-> exists acc, In acc (accounts db) /\ Account.id acc = i
                  /\ Account.is_active acc = true
                  /\ s = account_summary db acc.
Proof.
  intros K. split.
  - intros Hs.
    destruct (balance_lookup_Some _ _ _ Hs) as (acc & H1 & H2 & H3 & H4).
    exists acc. tauto.
  - intros (acc & Hin & Hid & Hact & ->). rewrite balance_lookup.
    destruct (find_is_Some (fun a => Account.id a =? i)
                (rev (get_accounts db None))) as [y Hy].
    { exists acc. split.
      - apply in_rev. rewrite rev_involutive. apply get_accounts_In. tauto.
      - apply Z.eqb_eq. exact Hid. }
    rewrite Hy. simpl. f_equal. f_equal.
    apply List.find_some in Hy. destruct Hy as [Hy Hyid].
    apply in_rev, get_accounts_In in Hy. apply Z.eqb_eq in Hyid.
    apply (NoDup_map_inj Account.id (accounts db)); [exact K|tauto|tauto|].
    congruence.
Qed.


Lemma reachable_run_all (calls : list call) (db : database) :
  reachable db -> reachable (run_all calls db).
Proof.
  revert db. induction calls as [|c calls IH]; intros db H; simpl.
  - exact H.
  - apply IH. constructor. exact H.
Qed.

(** ** Balances: statements *)

Lemma account_summary_cash (db : database) (acc : Account.t) :
  Account.account_type acc = cash ->
  account_summary db acc
  = let b := Py.or0
               (Sql.SUM
                  (List.map DailyReport.cash_actual
                     (List.filter (fun dr => is_closed (DailyReport.status dr))
                                  (daily_reports db)))) in
    Summary.mk (Account.name acc) cash b b 0%Q 0%Q.
Proof. intros H. unfold account_summary. rewrite H. reflexivity. Qed.






(** C1, as claimed, fails for a soft-deleted account: the cash desk of this
    store has a closed report counted at 400, and no entry in the result of
    [get_account_balance]. *)
Lemma C1_deleted_cash_account_has_no_balance :
  reachable deleted_cash_store
  /\ In (Account.mk 1 "Cash desk" cash false) (accounts deleted_cash_store)
  /\ closed_cash_counts deleted_cash_store = [400%Q]
  /\ get_account_balance deleted_cash_store !! 1 = None.
Proof.
  split; [apply reachable_run_all, reachable_init|].
  split; [vm_compute; auto|].
  split; vm_compute; reflexivity.
Qed.



(** C2, as claimed, fails for a soft-deleted account: the bank account of
    this store has a payment row of 100, and no entry in the result of
    [get_account_balance]. *)
Lemma C2_deleted_bank_account_has_no_balance :
  reachable deleted_bank_store
  /\ In (Account.mk 1 "Bank" bank false) (accounts deleted_bank_store)
  /\ (Qsum (List.map ReportPayment.net_amount
              (payments_of deleted_bank_store 1)) == 100)%Q
  /\ get_account_balance deleted_bank_store !! 1 = None.
Proof.
  split; [apply reachable_run_all, reachable_init|].
  split; [vm_compute; auto|].
  split; vm_compute; reflexivity.
Qed.



(** C10, as claimed, fails when one of the two cash accounts is
    soft-deleted: [get_account_balance] has an entry for the one and none
    for the other. *)
Lemma C10_deleted_cash_account_has_no_result :
  reachable two_cash_store
  /\ In (Account.mk 1 "Cash desk" cash true) (accounts two_cash_store)
  /\ In (Account.mk 2 "Safe" cash false) (accounts two_cash_store)
  /\ is_Some (get_account_balance two_cash_store !! 1)
  /\ get_account_balance two_cash_store !! 2 = None.
Proof.
  split; [apply reachable_run_all, reachable_init|].
  split; [vm_compute; auto|]. split; [vm_compute; auto|].
  split; [vm_compute; eexists; reflexivity|vm_compute; reflexivity].
Qed.

(** ** Inactive accounts *)


(** C9, as the store behaves: [get_account_balance] has an entry for an id
    exactly when an active account has that id, because it walks
    [get_accounts()], and [get_accounts] lists exactly the active accounts
    (of the requested type, when one is given). *)
Theorem C9_balance_of_active_accounts (db : database) :
  (forall i,
      is_Some (get_account_balance db !! i)
      <-> exists acc, In acc (accounts db) /\ Account.id acc = i
                      /\ Account.is_active acc = true)
  /\ (forall acc,
         In acc (get_accounts db None)
         <-> In acc (accounts db) /\ Account.is_active acc = true)
  /\ (forall ty acc,
         In acc (get_accounts db (Some ty))
         <-> In acc (accounts db) /\ Account.is_active acc = true
             /\ Account.account_type acc = ty).
Proof.
  split; [|split].
  - intros i. split.
    + intros [s Hs].
      destruct (balance_lookup_Some _ _ _ Hs) as (acc & Hin & Hact & Hid & _).
      exists acc. tauto.
    + intros (acc & Hin & Hid & Hact). rewrite balance_lookup.
      destruct (find_is_Some (fun a => Account.id a =? i)
                  (rev (get_accounts db None))) as [y Hy].
      { exists acc. split.
        - apply in_rev. rewrite rev_involutive.
          apply get_accounts_In. tauto.
        - apply Z.eqb_eq. exact Hid. }
      rewrite Hy. simpl. eauto.
  - apply get_accounts_In.
  - intros ty acc. unfold get_accounts. rewrite ORDER_BY_In, filter_In.
    rewrite andb_true_iff.
    assert (E : account_type_eqb (Account.account_type acc) ty = true
                <-> Account.account_type acc = ty).
    { destruct (Account.account_type acc), ty; simpl; split;
        congruence. }
    rewrite E. tauto.
Qed.

(** C9, as claimed, fails: a soft-deleted account of a reachable store has
    no entry in the result of [get_account_balance]. *)
Lemma C9_inactive_account_has_no_balance :
  reachable closed_account_store
  /\ In (Account.mk 1 "Safe" cash false) (accounts closed_account_store)
  /\ get_account_balance closed_account_store !! 1 = None.
Proof.
  split; [apply reachable_run_all, reachable_init|].
  split; [vm_compute; auto | vm_compute; reflexivity].
Qed.

(** ** Payment lines *)



(** C3, as claimed, fails on the numbers of the code: for 1.51 at 5 percent
    the commission and the net amount that [add_report_payment] computes add
    up to 1.5099999999999998, and the commission is not
    [amount * commission_percent / 100]. *)
Lemma C3_split_not_exact_in_binary64 :
  (Binary64.commission_amount amount_1_51 5
   + Binary64.net_amount amount_1_51 5 =? amount_1_51)%float = false
  /\ (Binary64.commission_amount amount_1_51 5
      =? amount_1_51 * 5 / 100)%float = false.
Proof. vm_compute. split; reflexivity. Qed.

(** ** Frames of the line loops *)

Lemma same_masters_refl (db : database) : same_masters db db.
Proof. repeat split. Qed.

Lemma same_masters_trans (a b c : database) :
  same_masters a b -> same_masters b c -> same_masters a c.
Proof.
  intros (A1 & A2 & A3 & A4) (B1 & B2 & B3 & B4).
  repeat split; congruence.
Qed.

Lemma post_payment_masters (rid : Z) (db : database) (p : PaymentEntry.t) :
  same_masters db (post_payment rid db p).
Proof.
  unfold post_payment. destruct (Py.gt0 _); [|apply same_masters_refl].
  destruct (Py.next _ _); [|apply same_masters_refl]. repeat split.
Qed.

Lemma post_expense_masters (rid : Z) (db : database) (e : LineEntry.t) :
  same_masters db (post_expense rid db e).
Proof.
  unfold post_expense. destruct (Py.gt0 _); [|apply same_masters_refl].
  repeat split.
Qed.

Lemma post_income_masters (rid : Z) (db : database) (e : LineEntry.t) :
  same_masters db (post_income rid db e).
Proof.
  unfold post_income. destruct (Py.gt0 _); [|apply same_masters_refl].
  repeat split.
Qed.

Lemma fold_masters {E} (step : database -> E -> database) (l : list E) :
  (forall db e, same_masters db (step db e)) ->
  forall db, same_masters db (fold_left step l db).
Proof.
  intros Hstep. induction l as [|e l IH]; intros db; simpl.
  - apply same_masters_refl.
  - eapply same_masters_trans; [apply Hstep | apply IH].
Qed.

(** ** Fresh ids *)

Lemma next_id_above (ids : list Z) (i : Z) : In i ids -> i < Sql.next_id ids.
Proof.
  unfold Sql.next_id. induction ids as [|j ids IH]; simpl; [tauto|].
  intros [->|H]; [lia|]. specialize (IH H). lia.
Qed.

Lemma update_fresh_id (f : DailyReport.t -> DailyReport.t)
  (l : list DailyReport.t) (rid : Z) :
  (forall dr, In dr l -> DailyReport.id dr <> rid) ->
  List.map (fun dr => if DailyReport.id dr =? rid then f dr else dr) l = l.
Proof.
  intros H. rewrite <- (map_id l) at 2. apply map_ext_in.
  intros dr Hin. apply H in Hin. apply Z.eqb_neq in Hin. rewrite Hin.
  reflexivity.
Qed.

Lemma update_new_report (f : DailyReport.t -> DailyReport.t)
  (l : list DailyReport.t) (new : DailyReport.t) :
  DailyReport.id new = Sql.next_id (List.map DailyReport.id l) ->
  List.map
    (fun dr => if DailyReport.id dr =? DailyReport.id new then f dr else dr)
    (l ++ [new])
  = l ++ [f new].
Proof.
  intros Hid. rewrite map_app. simpl. rewrite Z.eqb_refl. f_equal.
  apply update_fresh_id. intros dr Hin.
  assert (DailyReport.id dr < DailyReport.id new); [|lia].
  rewrite Hid. apply next_id_above, in_map, Hin.
Qed.

(** ** The report endpoint, case by case *)


Lemma lines_posted_masters (rid : Z) (request : CreateReportRequest.t)
  (es is_ : list LineEntry.t) (db0 : database) :
  same_masters db0
    (fold_left (post_income rid) is_
       (fold_left (post_expense rid) es
          (fold_left (post_payment rid)
             (CreateReportRequest.payments request) db0))).
Proof.
  eapply same_masters_trans;
    [exact (fold_masters (post_payment rid)
              (CreateReportRequest.payments request)
              (post_payment_masters rid) db0)|].
  eapply same_masters_trans;
    [exact (fold_masters (post_expense rid) es (post_expense_masters rid) _)|].
  exact (fold_masters (post_income rid) is_ (post_income_masters rid) _).
Qed.

Lemma set_cash_actual_closed_new (db db3 : database) (d : string)
  (location_id : Z) (total_sales : Q) (created_by : option string) (ca : Q) :
  daily_reports db3
  = daily_reports db ++ [new_report db d location_id total_sales created_by] ->
  daily_reports
    (set_cash_actual_closed db3 ca
       (Sql.next_id (List.map DailyReport.id (daily_reports db))))
  = daily_reports db
    ++ [new_report_closed db d location_id total_sales created_by ca].
Proof.
  intros E. unfold set_cash_actual_closed, update_report_row. simpl.
  rewrite E.
  change (Sql.next_id (List.map DailyReport.id (daily_reports db)))
    with (DailyReport.id (new_report db d location_id total_sales created_by)).
  rewrite update_new_report by reflexivity. reflexivity.
Qed.

Lemma create_report_daily_reports (db : database)
  (request : CreateReportRequest.t) :
  daily_reports (fst (create_report db request)) = daily_reports db
  \/ exists d,
       CreateReportRequest.report_date request = Some d
       /\ existsb
            (same_day_and_place d (CreateReportRequest.location_id request))
            (daily_reports db) = false
       /\ (daily_reports (fst (create_report db request))
           = daily_reports db
             ++ [new_report db d (CreateReportRequest.location_id request)
                   (CreateReportRequest.total_sales request)
                   (CreateReportRequest.created_by request)]
           \/ exists ca,
                CreateReportRequest.cash_actual request = Some ca
                /\ Py.gt0 ca = true
                /\ daily_reports (fst (create_report db request))
                   = daily_reports db
                     ++ [new_report_closed db d
                           (CreateReportRequest.location_id request)
                           (CreateReportRequest.total_sales request)
                           (CreateReportRequest.created_by request) ca]).
Proof.
  unfold create_report.
  destruct (CreateReportRequest.report_date request) as [d|];
    [|left; reflexivity].
  destruct (get_daily_report db d _); [left; reflexivity|].
  unfold create_daily_report.
  destruct (existsb _ (daily_reports db)) eqn:Hdup; [left; reflexivity|].
  right. exists d. split; [reflexivity|]. split; [exact Hdup|].
  set (rid := Sql.next_id (List.map DailyReport.id (daily_reports db))).
  set (db0 := with_daily_reports db _).
  set (db1 := fold_left (post_payment rid) _ db0).
  assert (M1 : same_masters db0 db1)
    by exact (fold_masters (post_payment rid) _ (post_payment_masters rid) db0).
  destruct (CreateReportRequest.expenses request) as [es|];
    [|left; simpl; apply M1].
  set (db2 := fold_left (post_expense rid) es db1).
  assert (M2 : same_masters db0 db2).
  { eapply same_masters_trans; [exact M1|].
    exact (fold_masters (post_expense rid) es (post_expense_masters rid) db1). }
  destruct (CreateReportRequest.incomes request) as [is_|];
    [|left; simpl; apply M2].
  set (db3 := fold_left (post_income rid) is_ db2).
  assert (M3 : same_masters db0 db3).
  { eapply same_masters_trans; [exact M2|].
    exact (fold_masters (post_income rid) is_ (post_income_masters rid) db2). }
  destruct (CreateReportRequest.cash_actual request) as [ca|];
    [|left; simpl; apply M3].
  destruct (Py.gt0 ca) eqn:Hca; [|left; simpl; apply M3].
  right. exists ca. split; [reflexivity|]. split; [exact Hca|].
  apply set_cash_actual_closed_new. apply M3.
Qed.

(** ** One call on the table of reports *)

Lemma fst_if {A B} (b : bool) (x y : A * B) :
  fst (if b then x else y) = if b then fst x else fst y.
Proof. destruct b; reflexivity. Qed.

Lemma update_methods_order_reports (ids : list Z) (n : Z) (db : database) :
  daily_reports (update_payment_methods_order_from n ids db)
  = daily_reports db.
Proof.
  revert n db. induction ids as [|i ids IH]; intros n db;
    cbn [update_payment_methods_order_from]; [reflexivity|].
  rewrite IH. reflexivity.
Qed.

Lemma run_reports_step (db : database) (c : call) :
  reports_step db (daily_reports (run db c)).
Proof.
  destruct c; cbn [run];
    try solve
      [ exact (reports_kept db)
      | unfold add_account, update_account, add_payment_method,
          update_payment_method, add_location, update_location;
        rewrite fst_if;
        match goal with |- context [if ?b then _ else _] => destruct b end;
        exact (reports_kept db) ].
  - unfold update_payment_methods_order.
    rewrite update_methods_order_reports. apply reports_kept.
  - unfold create_daily_report.
    destruct (existsb _ (daily_reports db)) eqn:E; simpl.
    + apply reports_kept.
    + apply reports_new. exact E.
  - apply reports_cash.
  - apply reports_closed.
  - destruct (create_report_daily_reports db request)
      as [->|(d & _ & Hdup & [->|(ca & _ & _ & ->)])].
    + apply reports_kept.
    + apply reports_new. exact Hdup.
    + apply reports_new_closed. exact Hdup.
Qed.

(** ** One report per day and place *)

Lemma existsb_same_day_false (l : list DailyReport.t) (d : string) (loc : Z) :
  existsb (same_day_and_place d loc) l = false ->
  ~ In (d, loc) (List.map day_and_place l).
Proof.
  intros E Hin. apply in_map_iff in Hin. destruct Hin as (dr & Hk & Hin).
  assert (T : existsb (same_day_and_place d loc) l = true); [|congruence].
  apply existsb_exists. exists dr. split; [exact Hin|].
  unfold day_and_place in Hk. injection Hk as Hd Hl.
  unfold same_day_and_place. rewrite Hd, Hl, String.eqb_refl, Z.eqb_refl.
  reflexivity.
Qed.

Lemma update_keeps_keys (f : DailyReport.t -> DailyReport.t) (rid : Z)
  (l : list DailyReport.t) :
  (forall dr, day_and_place (f dr) = day_and_place dr) ->
  List.map day_and_place
    (List.map (fun dr => if DailyReport.id dr =? rid then f dr else dr) l)
  = List.map day_and_place l.
Proof.
  intros Hf. rewrite map_map. apply map_ext. intros dr.
  destruct (DailyReport.id dr =? rid); [apply Hf|reflexivity].
Qed.

Lemma NoDup_snoc {A} (l : list A) (x : A) :
  List.NoDup l -> ~ In x l -> List.NoDup (l ++ [x]).
Proof.
  intros Hl Hx. apply List.NoDup_app.
  - exact Hl.
  - constructor; [intros []|constructor].
  - intros y Hy [<-|[]]. exact (Hx Hy).
Qed.

Lemma reports_step_keys (db : database) (l' : list DailyReport.t) :
  reports_step db l' ->
  List.NoDup (List.map day_and_place (daily_reports db)) ->
  List.NoDup (List.map day_and_place l').
Proof.
  intros S H. destruct S as [|d loc total by_ E|d loc total by_ ca E| |];
    try exact H.
  - rewrite map_app. simpl. apply NoDup_snoc; [exact H|].
    apply existsb_same_day_false, E.
  - rewrite map_app. simpl. apply NoDup_snoc; [exact H|].
    apply existsb_same_day_false, E.
  - unfold update_report_cash, update_report_row. simpl.
    rewrite update_keeps_keys; [exact H|reflexivity].
  - unfold close_report, update_report_row. simpl.
    rewrite update_keeps_keys; [exact H|reflexivity].
Qed.

Lemma reachable_one_report_per_day_and_place (db : database) :
  reachable db -> List.NoDup (List.map day_and_place (daily_reports db)).
Proof.
  induction 1 as [|db c _ IH].
  - constructor.
  - exact (reports_step_keys db _ (run_reports_step db c) IH).
Qed.

(** ** The cash difference *)

Lemma reports_step_difference (db : database) (l' : list DailyReport.t) :
  reports_step db l' ->
  Forall difference_consistent (daily_reports db) ->
  Forall difference_consistent l'.
Proof.
  intros S H. destruct S as [|d loc total by_ E|d loc total by_ ca E| |];
    try exact H.
  - apply List.Forall_app. split; [exact H|]. constructor; [|constructor].
    intros a e Ha. discriminate Ha.
  - apply List.Forall_app. split; [exact H|]. constructor; [|constructor].
    intros a e _ He. discriminate He.
  - unfold update_report_cash, update_report_row. simpl.
    apply List.Forall_map. eapply List.Forall_impl; [|exact H].
    intros dr Hdr. destruct (DailyReport.id dr =? rid); [|exact Hdr].
    intros a' e' [= <-] [= <-]. reflexivity.
  - unfold close_report, update_report_row. simpl.
    apply List.Forall_map. eapply List.Forall_impl; [|exact H].
    intros dr Hdr. destruct (DailyReport.id dr =? rid); exact Hdr.
Qed.

Lemma reachable_difference_consistent (db : database) :
  reachable db -> Forall difference_consistent (daily_reports db).
Proof.
  induction 1 as [|db c _ IH].
  - constructor.
  - exact (reports_step_difference db _ (run_reports_step db c) IH).
Qed.

(** ** Joins *)

Lemma JOIN_In {A B} (on : A -> B -> bool) (l : list A) (r : list B)
  (a : A) (b : B) :
  In (a, b) (Sql.JOIN on l r) <-> In a l /\ In b r /\ on a b = true.
Proof.
  unfold Sql.JOIN. rewrite List.in_flat_map. split.
  - intros (a' & Ha & Hin). apply List.in_map_iff in Hin.
    destruct Hin as (b' & [= <- <-] & Hb). apply List.filter_In in Hb. tauto.
  - intros (Ha & Hb & Hon). exists a. split; [exact Ha|].
    apply List.in_map. apply List.filter_In. tauto.
Qed.

Lemma head_filter_None {A} (p : A -> bool) (l : list A) :
  (forall x, In x l -> p x = false) -> head (List.filter p l) = None.
Proof.
  intros H. induction l as [|x l IH]; [reflexivity|]. simpl.
  rewrite (H x) by (left; reflexivity). apply IH.
  intros y Hy. apply H. right. exact Hy.
Qed.

Lemma head_filter_Some {A} (p : A -> bool) (l : list A) (x : A) :
  In x l -> p x = true -> exists y, head (List.filter p l) = Some y.
Proof.
  intros Hin Hp.
  assert (Hf : In x (List.filter p l)) by (apply List.filter_In; tauto).
  destruct (List.filter p l) as [|y f]; [destruct Hf|]. exists y. reflexivity.
Qed.

Lemma same_day_and_place_key (d : string) (loc : Z) (dr : DailyReport.t) :
  same_day_and_place d loc dr = true <-> day_and_place dr = (d, loc).
Proof.
  unfold same_day_and_place, day_and_place.
  rewrite andb_true_iff, String.eqb_eq, Z.eqb_eq. split.
  - intros [-> ->]. reflexivity.
  - intros [= -> ->]. tauto.
Qed.

Lemma get_daily_report_located (db : database) (d : string) (loc : Z) :
  In (d, loc) (List.map day_and_place (daily_reports db)) ->
  (exists l, In l (locations db) /\ Location.id l = loc) ->
  exists r, get_daily_report db d loc = Some r.
Proof.
  intros Hk (l & Hl & Hid). apply List.in_map_iff in Hk.
  destruct Hk as (dr & Hkey & Hdr). unfold get_daily_report.
  apply (head_filter_Some _ _ (dr, l)).
  - apply JOIN_In. split; [exact Hdr|]. split; [exact Hl|].
    apply Z.eqb_eq. injection Hkey as _ Hloc. congruence.
  - apply same_day_and_place_key. exact Hkey.
Qed.

Lemma get_daily_report_stray (db : database) (d : string) (loc : Z) :
  (forall l, In l (locations db) -> Location.id l <> loc) ->
  get_daily_report db d loc = None.
Proof.
  intros H. unfold get_daily_report. apply head_filter_None.
  intros [dr l] Hin. apply JOIN_In in Hin. destruct Hin as (_ & Hl & Hon).
  apply Z.eqb_eq in Hon. simpl.
  destruct (same_day_and_place d loc dr) eqn:E; [|reflexivity].
  apply same_day_and_place_key in E. injection E as _ Hloc.
  exfalso. apply (H l Hl). congruence.
Qed.

Lemma create_daily_report_taken (db : database) (d : string) (loc : Z)
  (total : Q) (by_ : option string) :
  In (d, loc) (List.map day_and_place (daily_reports db)) ->
  create_daily_report db d loc total by_
  = (db, Py.Raise
           (unique_failed
              "daily_reports.report_date, daily_reports.location_id")).
Proof.
  intros Hk. unfold create_daily_report.
  destruct (existsb _ (daily_reports db)) eqn:E; [reflexivity|].
  apply existsb_same_day_false in E. contradiction.
Qed.

(** X3. One report per date and location, and what a second request meets. In
    a reachable store no two reports share their date and location. When a
    report exists for the date and location of a request, the store's own
    [create_daily_report] raises the uniqueness error and the endpoint
    leaves the store as it is; it answers with the duplicate-report error
    when the location id is in the table of locations, and with the wrapped
    uniqueness error otherwise. *)
Theorem one_report_per_day_and_place (db : database) :
  reachable db ->
  List.NoDup (List.map day_and_place (daily_reports db))
  /\ forall request d,
       CreateReportRequest.report_date request = Some d ->
       In (d, CreateReportRequest.location_id request)
          (List.map day_and_place (daily_reports db)) ->
       fst (create_daily_report db d
              (CreateReportRequest.location_id request)
              (CreateReportRequest.total_sales request)
              (CreateReportRequest.created_by request)) = db
       /\ fst (create_report db request) = db
       /\ ((exists l, In l (locations db)
                      /\ Location.id l
                         = CreateReportRequest.location_id request) ->
           snd (create_report db request) = DuplicateReportError)
       /\ ((forall l, In l (locations db) ->
                      Location.id l
                      <> CreateReportRequest.location_id request) ->
           snd (create_report db request)
           = server_error
               (unique_failed
                  "daily_reports.report_date, daily_reports.location_id")).
Proof.
  intros R. split; [apply reachable_one_report_per_day_and_place, R|].
  intros request d Hd Hk.
  pose proof (create_daily_report_taken db d _
                (CreateReportRequest.total_sales request)
                (CreateReportRequest.created_by request) Hk) as Hc.
  split; [rewrite Hc; reflexivity|].
  unfold create_report. rewrite Hd.
  destruct (get_daily_report db d (CreateReportRequest.location_id request))
    as [r|] eqn:G.
  - split; [reflexivity|]. split; [reflexivity|].
    intros Hno. rewrite get_daily_report_stray in G by exact Hno.
    discriminate G.
  - rewrite Hc. split; [reflexivity|]. split; [|reflexivity].
    intros Hl. destruct (get_daily_report_located db d _ Hk Hl) as [r Hr].
    congruence.
Qed.

Lemma one_report_per_day_and_place_witness :
  reachable sample_store
  /\ In ("2024-05-01"%string, 1)
        (List.map day_and_place (daily_reports sample_store))
  /\ fst (create_report sample_store sample_request) = sample_store
  /\ snd (create_report sample_store sample_request) = DuplicateReportError.
Proof.
  assert (R : reachable sample_store)
    by apply reachable_run_all, reachable_init.
  assert (K : In ("2024-05-01"%string,
                  CreateReportRequest.location_id sample_request)
                 (List.map day_and_place (daily_reports sample_store)))
    by (vm_compute; auto).
  destruct (one_report_per_day_and_place sample_store R)
    as [_ H].
  destruct (H sample_request "2024-05-01"%string eq_refl K)
    as (_ & Hdb & Hdup & _).
  split; [exact R|]. split; [exact K|]. split; [exact Hdb|].
  apply Hdup. eexists. split; [vm_compute; left; reflexivity|reflexivity].
Defined.

(** C5 at a failing input. The store is reachable and holds a report for
    2024-05-01 at location 7, an id that the table of locations does not
    hold. A second request for the same date and location is refused, but
    the look-up of the endpoint joins the locations and finds nothing, so
    the refusal comes from the uniqueness constraint and is answered as a
    server error (status 500), not as the duplicate-report error
    (status 400). *)
Lemma C5_second_attempt_not_reported_as_duplicate :
  reachable stray_store
  /\ In ("2024-05-01"%string, 7)
        (List.map day_and_place (daily_reports stray_store))
  /\ snd (create_report stray_store stray_request)
     = HTTPException 500
         (Some (unique_failed
                  "daily_reports.report_date, daily_reports.location_id"))
  /\ snd (create_report stray_store stray_request) <> DuplicateReportError.
Proof.
  split; [apply reachable_run_all, reachable_init|].
  split; [vm_compute; auto|].
  assert (E : snd (create_report stray_store stray_request)
              = HTTPException 500
                  (Some (unique_failed
                     "daily_reports.report_date, daily_reports.location_id")))
    by (vm_compute; reflexivity).
  split; [exact E|]. rewrite E. discriminate.
Qed.

(** C8. In a reachable store every report whose [cash_actual] and
    [cash_expected] are both set has [cash_difference] equal to
    [cash_actual - cash_expected]; [update_report_cash] stores the two
    amounts it is given, their difference and the breakdown in the report
    with the given id. *)
Theorem C8_cash_difference (db : database) :
  reachable db ->
  (forall dr a e,
      In dr (daily_reports db) ->
      DailyReport.cash_actual dr = Some a ->
      DailyReport.cash_expected dr = Some e ->
      exists d, DailyReport.cash_difference dr = Some d /\ (d == a - e)%Q)
  /\ (forall rid e a b,
         Forall2
           (fun old new =>
              if DailyReport.id old =? rid
              then DailyReport.id new = rid
                   /\ DailyReport.cash_expected new = Some e
                   /\ DailyReport.cash_actual new = Some a
                   /\ DailyReport.cash_difference new = Some (a - e)%Q
                   /\ DailyReport.cash_breakdown new = Some b
              else new = old)
           (daily_reports db)
           (daily_reports (update_report_cash db rid e a b))).
Proof.
  intros R. split.
  - intros dr a e Hin Ha He.
    pose proof (reachable_difference_consistent db R) as F.
    rewrite List.Forall_forall in F. exists (a - e)%Q.
    split; [exact (F dr Hin a e Ha He)|reflexivity].
  - intros rid e a b. unfold update_report_cash, update_report_row. simpl.
    induction (daily_reports db) as [|dr l IH]; simpl; constructor.
    + destruct (DailyReport.id dr =? rid) eqn:E; [|reflexivity].
      apply Z.eqb_eq in E. simpl. tauto.
    + exact IH.
Qed.

Lemma C8_cash_difference_witness :
  reachable (update_report_cash sample_store 1 (450#1) (400#1) "{}")
  /\ exists dr,
       In dr (daily_reports
                (update_report_cash sample_store 1 (450#1) (400#1) "{}"))
       /\ DailyReport.cash_actual dr = Some (400#1)
       /\ DailyReport.cash_expected dr = Some (450#1)
       /\ exists d, DailyReport.cash_difference dr = Some d
                    /\ (d == -50)%Q.
Proof.
  assert (R : reachable
                (update_report_cash sample_store 1 (450#1) (400#1) "{}")).
  { apply (reachable_run sample_store
             (Update_report_cash 1 (450#1) (400#1) "{}")).
    apply reachable_run_all, reachable_init. }
  split; [exact R|].
  eexists. split; [vm_compute; left; reflexivity|].
  split; [reflexivity|]. split; [reflexivity|].
  destruct (proj1 (C8_cash_difference _ R) _ (400#1) (450#1)
              ltac:(vm_compute; left; reflexivity) eq_refl eq_refl)
    as (d & Hd & Hq).
  exists d. split; [exact Hd|]. rewrite Hq. reflexivity.
Defined.

(** ** Lines posted by the endpoint *)

Lemma gt0_spec (x : Q) : Py.gt0 x = true <-> (0 < x)%Q.
Proof.
  unfold Py.gt0. rewrite negb_true_iff. split.
  - intros H. apply Qnot_le_lt. intros Hle.
    apply Qle_bool_iff in Hle. congruence.
  - intros H. destruct (Qle_bool x 0) eqn:E; [|reflexivity].
    apply Qle_bool_iff in E. exfalso. exact (Qlt_not_le _ _ H E).
Qed.

Lemma listed_method_masters (db db' : database) (method_id : Z) :
  same_methods db db' -> listed_method db' method_id = listed_method db method_id.
Proof.
  intros (Ea & Em). unfold listed_method, get_payment_methods.
  rewrite Ea, Em. reflexivity.
Qed.

Lemma payable_masters (db db' : database) (p : PaymentEntry.t) :
  same_methods db db' -> payable db' p = payable db p.
Proof.
  intros M. unfold payable. rewrite (listed_method_masters db db' _ M).
  reflexivity.
Qed.

Lemma post_payment_listed (rid : Z) (db : database) (p : PaymentEntry.t) :
  post_payment rid db p
  = if payable db p
    then match listed_method db (PaymentEntry.method_id p) with
         | Some m =>
             fst (add_report_payment db rid (PaymentEntry.method_id p)
                    (PaymentMethod.default_account_id m)
                    (PaymentEntry.amount p))
         | None => db
         end
    else db.
Proof.
  unfold post_payment, payable, listed_method.
  destruct (Py.gt0 (PaymentEntry.amount p)); simpl; [|reflexivity].
  destruct (Py.next _ _); reflexivity.
Qed.

Lemma post_payment_rows (rid : Z) (db : database) (p : PaymentEntry.t) :
  non_sales_income (post_payment rid db p) = non_sales_income db
  /\ report_expenses (post_payment rid db p) = report_expenses db
  /\ exists rows,
       report_payments (post_payment rid db p) = report_payments db ++ rows
       /\ Forall2 (payment_row_of db rid)
                  (List.filter (payable db) [p]) rows.
Proof.
  rewrite post_payment_listed. simpl.
  destruct (payable db p) eqn:P.
  - destruct (listed_method db (PaymentEntry.method_id p)) as [m|] eqn:L.
    + split; [reflexivity|]. split; [reflexivity|].
      eexists. split; [reflexivity|]. constructor; [|constructor].
      unfold payment_row_of. simpl. repeat (split; [reflexivity|]).
      exists m. split; [exact L|reflexivity].
    + unfold payable in P. rewrite L, andb_false_r in P. discriminate P.
  - split; [reflexivity|]. split; [reflexivity|].
    exists []. rewrite app_nil_r. split; [reflexivity|constructor].
Qed.

Lemma Forall2_payment_row_masters (db db' : database) (rid : Z)
  (ps : list PaymentEntry.t) (rows : list ReportPayment.t) :
  same_methods db db' ->
  Forall2 (payment_row_of db' rid) (List.filter (payable db') ps) rows ->
  Forall2 (payment_row_of db rid) (List.filter (payable db) ps) rows.
Proof.
  intros M. rewrite (List.filter_ext _ _ (fun p => payable_masters db db' p M)).
  apply List.Forall2_impl. intros p row (H1 & H2 & H3 & m & Hm & H4).
  rewrite (listed_method_masters db db' _ M) in Hm.
  repeat (split; [assumption|]). exists m. tauto.
Qed.

Lemma post_payments_rows (rid : Z) (ps : list PaymentEntry.t) (db : database) :
  non_sales_income (fold_left (post_payment rid) ps db) = non_sales_income db
  /\ report_expenses (fold_left (post_payment rid) ps db) = report_expenses db
  /\ exists rows,
       report_payments (fold_left (post_payment rid) ps db)
       = report_payments db ++ rows
       /\ Forall2 (payment_row_of db rid) (List.filter (payable db) ps) rows.
Proof.
  revert db. induction ps as [|p ps IH]; intros db.
  - split; [reflexivity|]. split; [reflexivity|].
    exists []. rewrite app_nil_r. split; [reflexivity|constructor].
  - cbn [fold_left].
    destruct (IH (post_payment rid db p)) as (I1 & I2 & rows2 & I3 & I4).
    destruct (post_payment_rows rid db p) as (S1 & S2 & rows1 & S3 & S4).
    split; [congruence|]. split; [congruence|].
    exists (rows1 ++ rows2). split.
    + rewrite I3, S3, app_assoc. reflexivity.
    + change (p :: ps) with ([p] ++ ps). rewrite List.filter_app.
      apply List.Forall2_app; [exact S4|].
      apply (Forall2_payment_row_masters db (post_payment rid db p));
        [|exact I4].
      destruct (post_payment_masters rid db p) as (Ma & Mm & _).
      split; assumption.
Qed.

Lemma post_lines_rows (rid : Z)
  (post : Z -> database -> LineEntry.t -> database)
  (table : database -> list Line.t) (es : list LineEntry.t) :
  (forall db e,
      table (post rid db e)
      = table db
        ++ (if Py.gt0 (LineEntry.amount e)
            then [Line.mk (Sql.next_id (List.map Line.id (table db))) rid
                          (LineEntry.category_id e) 1 (LineEntry.amount e)
                          (LineEntry.description e)]
            else [])) ->
  forall db,
    exists rows,
      table (fold_left (post rid) es db) = table db ++ rows
      /\ Forall2 (line_row_of rid) (positive_lines es) rows.
Proof.
  intros Hpost. induction es as [|e es IH]; intros db.
  - exists []. rewrite app_nil_r. split; [reflexivity|constructor].
  - cbn [fold_left]. destruct (IH (post rid db e)) as (rows & I1 & I2).
    rewrite Hpost in I1. unfold positive_lines. simpl.
    destruct (Py.gt0 (LineEntry.amount e)).
    + eexists (_ :: rows). split.
      * rewrite I1, <- app_assoc. reflexivity.
      * constructor; [|exact I2]. repeat split.
    + exists rows. split; [|exact I2].
      rewrite I1, app_nil_r. reflexivity.
Qed.

Lemma post_expense_table (rid : Z) (db : database) (e : LineEntry.t) :
  report_expenses (post_expense rid db e)
  = report_expenses db
    ++ (if Py.gt0 (LineEntry.amount e)
        then [Line.mk (Sql.next_id (List.map Line.id (report_expenses db))) rid
                      (LineEntry.category_id e) 1 (LineEntry.amount e)
                      (LineEntry.description e)]
        else []).
Proof.
  unfold post_expense. destruct (Py.gt0 _); simpl;
    [reflexivity|rewrite app_nil_r; reflexivity].
Qed.

Lemma post_income_table (rid : Z) (db : database) (e : LineEntry.t) :
  non_sales_income (post_income rid db e)
  = non_sales_income db
    ++ (if Py.gt0 (LineEntry.amount e)
        then [Line.mk (Sql.next_id (List.map Line.id (non_sales_income db))) rid
                      (LineEntry.category_id e) 1 (LineEntry.amount e)
                      (LineEntry.description e)]
        else []).
Proof.
  unfold post_income. destruct (Py.gt0 _); simpl;
    [reflexivity|rewrite app_nil_r; reflexivity].
Qed.

Lemma fold_frame {E T} (step : database -> E -> database)
  (table : database -> T) (l : list E) :
  (forall db e, table (step db e) = table db) ->
  forall db, table (fold_left step l db) = table db.
Proof.
  intros H. induction l as [|e l IH]; intros db; simpl; [reflexivity|].
  rewrite IH. apply H.
Qed.

Lemma post_expense_frame (rid : Z) (db : database) (e : LineEntry.t) :
  report_payments (post_expense rid db e) = report_payments db
  /\ non_sales_income (post_expense rid db e) = non_sales_income db.
Proof. unfold post_expense. destruct (Py.gt0 _); split; reflexivity. Qed.

Lemma post_income_frame (rid : Z) (db : database) (e : LineEntry.t) :
  report_payments (post_income rid db e) = report_payments db
  /\ report_expenses (post_income rid db e) = report_expenses db.
Proof. unfold post_income. destruct (Py.gt0 _); split; reflexivity. Qed.

Lemma get_daily_report_free (db : database) (d : string) (loc : Z) :
  ~ In (d, loc) (List.map day_and_place (daily_reports db)) ->
  get_daily_report db d loc = None.
Proof.
  intros H. unfold get_daily_report. apply head_filter_None.
  intros [dr l] Hin. apply JOIN_In in Hin. destruct Hin as (Hdr & _ & _).
  simpl. destruct (same_day_and_place d loc dr) eqn:E; [|reflexivity].
  apply same_day_and_place_key in E. exfalso. apply H.
  rewrite <- E. apply List.in_map. exact Hdr.
Qed.

Lemma existsb_same_day_free (l : list DailyReport.t) (d : string) (loc : Z) :
  ~ In (d, loc) (List.map day_and_place l) ->
  existsb (same_day_and_place d loc) l = false.
Proof.
  intros H. destruct (existsb _ l) eqn:E; [|reflexivity].
  apply existsb_exists in E. destruct E as (dr & Hin & Hs).
  apply same_day_and_place_key in Hs. exfalso. apply H.
  rewrite <- Hs. apply List.in_map. exact Hin.
Qed.

(** The store in which the endpoint posts the lines of a new report. *)
Lemma create_report_created (db : database) (request : CreateReportRequest.t)
  (d : string) (es is_ : list LineEntry.t) (ca : Q) :
  CreateReportRequest.report_date request = Some d ->
  ~ In (d, CreateReportRequest.location_id request)
       (List.map day_and_place (daily_reports db)) ->
  CreateReportRequest.expenses request = Some es ->
  CreateReportRequest.incomes request = Some is_ ->
  CreateReportRequest.cash_actual request = Some ca ->
  let rid := Sql.next_id (List.map DailyReport.id (daily_reports db)) in
  let db0 :=
    with_daily_reports db
      (daily_reports db
       ++ [new_report db d (CreateReportRequest.location_id request)
             (CreateReportRequest.total_sales request)
             (CreateReportRequest.created_by request)]) in
  let db3 :=
    fold_left (post_income rid) is_
      (fold_left (post_expense rid) es
         (fold_left (post_payment rid)
            (CreateReportRequest.payments request) db0)) in
  create_report db request
  = (if Py.gt0 ca then set_cash_actual_closed db3 ca rid else db3,
     Created rid).
Proof.
  intros Hd Hfree He Hi Hc. unfold create_report.
  rewrite Hd, (get_daily_report_free _ _ _ Hfree). unfold create_daily_report.
  rewrite (existsb_same_day_free _ _ _ Hfree), He, Hi, Hc. reflexivity.
Qed.

Lemma filter_none {A} (p : A -> bool) (l : list A) :
  Forall (fun x => p x = false) l -> List.filter p l = [].
Proof.
  induction 1 as [|x l Hx _ IH]; simpl; [reflexivity|].
  rewrite Hx. exact IH.
Qed.

Lemma not_gt0 (x : Q) : (x <= 0)%Q -> Py.gt0 x = false.
Proof.
  intros H. destruct (Py.gt0 x) eqn:E; [|reflexivity].
  apply gt0_spec in E. exfalso. exact (Qlt_not_le _ _ E H).
Qed.


Lemma LEFT_JOIN_In {A B} (on : A -> B -> bool) (l : list A) (r : list B)
  (a : A) (ob : option B) :
  In (a, ob) (Sql.LEFT_JOIN on l r)
  <-> In a l
      /\ match ob with
         | Some b => In b r /\ on a b = true
         | None => forall b, In b r -> on a b = false
         end.
Proof.
  unfold Sql.LEFT_JOIN. rewrite List.in_flat_map. split.
  - intros (a' & Ha & Hin).
    destruct (List.filter (on a') r) as [|b0 bs] eqn:F.
    + destruct Hin as [[= <- <-]|[]]. split; [exact Ha|].
      intros b Hb. destruct (on a' b) eqn:E; [|reflexivity].
      assert (Hf : In b (List.filter (on a') r))
        by (apply List.filter_In; tauto).
      rewrite F in Hf. destruct Hf.
    + apply List.in_map_iff in Hin. destruct Hin as (b & [= <- <-] & Hb).
      rewrite <- F in Hb. apply List.filter_In in Hb. tauto.
  - intros (Ha & Hob). exists a. split; [exact Ha|].
    destruct ob as [b|].
    + assert (Hf : In b (List.filter (on a) r))
        by (apply List.filter_In; tauto).
      destruct (List.filter (on a) r) as [|b0 bs]; [destruct Hf|].
      apply (List.in_map (fun b => (a, Some b))). exact Hf.
    + rewrite filter_none; [left; reflexivity|].
      apply List.Forall_forall. exact Hob.
Qed.

Lemma LEFT_JOIN_In_fst {A B} (on : A -> B -> bool) (l : list A) (r : list B)
  (a : A) :
  In a l -> exists ob, In (a, ob) (Sql.LEFT_JOIN on l r).
Proof.
  intros Ha. destruct (List.filter (on a) r) as [|b bs] eqn:F.
  - exists None. apply LEFT_JOIN_In. split; [exact Ha|].
    intros b Hb. destruct (on a b) eqn:E; [|reflexivity].
    assert (Hf : In b (List.filter (on a) r))
      by (apply List.filter_In; tauto).
    rewrite F in Hf. destruct Hf.
  - exists (Some b). apply LEFT_JOIN_In. split; [exact Ha|].
    apply List.filter_In. rewrite F. left. reflexivity.
Qed.

Lemma get_payment_methods_In (db : database)
  (row : PaymentMethod.t * option Account.t) :
  In row (get_payment_methods db None) ->
  In (fst row) (payment_methods db) /\ PaymentMethod.is_active (fst row) = true.
Proof.
  unfold get_payment_methods. rewrite ORDER_BY_In, List.filter_In.
  destruct row as [m oa]. rewrite LEFT_JOIN_In. simpl. tauto.
Qed.

Lemma listed_method_Some (db : database) (method_id : Z) (m : PaymentMethod.t) :
  listed_method db method_id = Some m ->
  In m (payment_methods db) /\ PaymentMethod.is_active m = true
  /\ PaymentMethod.id m = method_id.
Proof.
  unfold listed_method, Py.next.
  destruct (List.find _ _) as [row|] eqn:F; [|discriminate].
  intros [= <-]. apply List.find_some in F. destruct F as [Hin Hid].
  apply get_payment_methods_In in Hin. apply Z.eqb_eq in Hid. tauto.
Qed.

Lemma listed_method_None (db : database) (method_id : Z) :
  listed_method db method_id = None ->
  forall m, In m (payment_methods db) -> PaymentMethod.id m = method_id ->
            PaymentMethod.is_active m = false.
Proof.
  unfold listed_method, Py.next.
  destruct (List.find _ _) as [row|] eqn:F; [discriminate|].
  intros _ m Hin Hid.
  destruct (PaymentMethod.is_active m) eqn:Hact; [|reflexivity].
  destruct (LEFT_JOIN_In_fst
              (fun pm a => PaymentMethod.default_account_id pm =? Account.id a)
              (payment_methods db) (accounts db) m Hin) as [oa Hj].
  assert (Hrow : In (m, oa) (get_payment_methods db None)).
  { unfold get_payment_methods. apply ORDER_BY_In, List.filter_In.
    split; [exact Hj|exact Hact]. }
  apply (List.find_none _ _ F) in Hrow. simpl in Hrow.
  apply Z.eqb_neq in Hrow. contradiction.
Qed.

(** What [payable] says in terms of the table of payment methods. *)
Lemma payable_spec (db : database) (p : PaymentEntry.t) :
  payable db p = true
  <-> (0 < PaymentEntry.amount p)%Q
      /\ exists m, In m (payment_methods db)
                   /\ PaymentMethod.id m = PaymentEntry.method_id p
                   /\ PaymentMethod.is_active m = true.
Proof.
  unfold payable. rewrite andb_true_iff, gt0_spec. split.
  - intros [Hpos Hm]. split; [exact Hpos|].
    destruct (listed_method db (PaymentEntry.method_id p)) as [m|] eqn:L;
      [|discriminate].
    exists m. apply listed_method_Some in L. tauto.
  - intros (Hpos & m & Hin & Hid & Hact). split; [exact Hpos|].
    destruct (listed_method db (PaymentEntry.method_id p)) eqn:L;
      [reflexivity|].
    rewrite (listed_method_None db _ L m Hin Hid) in Hact. discriminate.
Qed.
(** C6, as the endpoint behaves. For a request whose integers bind and that
    passes the checks before the loops (a date that parses, no report yet
    for the date and location, no null list or cash count), the endpoint
    answers with the new report id
    whatever the amounts are, and appends to the three line tables exactly
    one row of the new report for each expense entry with amount > 0, for
    each income entry with amount > 0, and for each payment entry with
    amount > 0 whose method id is that of a listed (active) payment method;
    every other entry is passed over. *)
Theorem C6_lines_posted (db : database) (request : CreateReportRequest.t)
  (d : string) (es is_ : list LineEntry.t) (ca : Q) :
  request_binds request = true ->
  CreateReportRequest.report_date request = Some d ->
  ~ In (d, CreateReportRequest.location_id request)
       (List.map day_and_place (daily_reports db)) ->
  CreateReportRequest.expenses request = Some es ->
  CreateReportRequest.incomes request = Some is_ ->
  CreateReportRequest.cash_actual request = Some ca ->
  let rid := Sql.next_id (List.map DailyReport.id (daily_reports db)) in
  let db' := fst (create_report db request) in
  snd (create_report db request) = Created rid
  /\ (forall p,
         payable db p = true
         <-> (0 < PaymentEntry.amount p)%Q
             /\ exists m, In m (payment_methods db)
                          /\ PaymentMethod.id m = PaymentEntry.method_id p
                          /\ PaymentMethod.is_active m = true)
  /\ (forall l e,
         In e (positive_lines l) <-> In e l /\ (0 < LineEntry.amount e)%Q)
  /\ (exists rows,
         report_payments db' = report_payments db ++ rows
         /\ Forall2 (payment_row_of db rid)
                    (List.filter (payable db)
                                 (CreateReportRequest.payments request))
                    rows)
  /\ (exists rows,
         report_expenses db' = report_expenses db ++ rows
         /\ Forall2 (line_row_of rid) (positive_lines es) rows)
  /\ (exists rows,
         non_sales_income db' = non_sales_income db ++ rows
         /\ Forall2 (line_row_of rid) (positive_lines is_) rows)
  /\ (Forall (fun p => (PaymentEntry.amount p <= 0)%Q)
             (CreateReportRequest.payments request) ->
      report_payments db' = report_payments db)
  /\ (Forall (fun e => (LineEntry.amount e <= 0)%Q) es ->
      report_expenses db' = report_expenses db)
  /\ (Forall (fun e => (LineEntry.amount e <= 0)%Q) is_ ->
      non_sales_income db' = non_sales_income db).
Proof.
  intros _ Hd Hfree He Hi Hc rid db'.
  pose proof (create_report_created db request d es is_ ca Hd Hfree He Hi Hc)
    as E.
  cbv zeta in E. fold rid in E. subst db'. rewrite E. cbn [fst snd].
  set (db0 := with_daily_reports db _).
  set (db1 := fold_left (post_payment rid) _ db0).
  set (db2 := fold_left (post_expense rid) es db1).
  set (db3 := fold_left (post_income rid) is_ db2).
  destruct (post_payments_rows rid (CreateReportRequest.payments request) db0)
    as (P1 & P2 & prow & P3 & P4).
  fold db1 in P1, P2, P3.
  destruct (post_lines_rows rid post_expense report_expenses es
              (post_expense_table rid) db1) as (erow & E1 & E2).
  fold db2 in E1.
  destruct (post_lines_rows rid post_income non_sales_income is_
              (post_income_table rid) db2) as (irow & I1 & I2).
  fold db3 in I1.
  assert (F1 : report_payments db3 = report_payments db ++ prow).
  { unfold db3, db2.
    rewrite (fold_frame (post_income rid) report_payments is_
               (fun db e => proj1 (post_income_frame rid db e))).
    rewrite (fold_frame (post_expense rid) report_payments es
               (fun db e => proj1 (post_expense_frame rid db e))).
    exact P3. }
  assert (F2 : report_expenses db3 = report_expenses db ++ erow).
  { unfold db3.
    rewrite (fold_frame (post_income rid) report_expenses is_
               (fun db e => proj2 (post_income_frame rid db e))).
    rewrite E1, P2. reflexivity. }
  assert (F3 : non_sales_income db3 = non_sales_income db ++ irow).
  { rewrite I1. unfold db2.
    rewrite (fold_frame (post_expense rid) non_sales_income es
               (fun db e => proj2 (post_expense_frame rid db e))).
    rewrite P1. reflexivity. }
  assert (P4' : Forall2 (payment_row_of db rid)
                  (List.filter (payable db)
                               (CreateReportRequest.payments request)) prow).
  { apply (Forall2_payment_row_masters db db0); [split; reflexivity|exact P4]. }
  assert (T : forall {X} (table : database -> X),
             (forall x f, table (update_report_row x rid f) = table x) ->
             table (if Py.gt0 ca then set_cash_actual_closed db3 ca rid
                    else db3) = table db3).
  { intros X table H. destruct (Py.gt0 ca); [apply H|reflexivity]. }
  rewrite (T _ report_payments), (T _ report_expenses),
    (T _ non_sales_income) by reflexivity.
  split; [reflexivity|].
  split; [apply payable_spec|].
  split.
  { intros l e. unfold positive_lines. rewrite List.filter_In, gt0_spec.
    reflexivity. }
  split; [exists prow; tauto|].
  split; [exists erow; tauto|].
  split; [exists irow; tauto|].
  split; [|split].
  - intros Hall. rewrite filter_none in P4'.
    + inversion P4'. subst prow. rewrite F1, app_nil_r. reflexivity.
    + eapply List.Forall_impl; [|exact Hall]. intros p Hp.
      unfold payable. rewrite (not_gt0 _ Hp). reflexivity.
  - intros Hall. unfold positive_lines in E2. rewrite filter_none in E2.
    + inversion E2. subst erow. rewrite F2, app_nil_r. reflexivity.
    + eapply List.Forall_impl; [|exact Hall]. intros e. apply not_gt0.
  - intros Hall. unfold positive_lines in I2. rewrite filter_none in I2.
    + inversion I2. subst irow. rewrite F3, app_nil_r. reflexivity.
    + eapply List.Forall_impl; [|exact Hall]. intros e. apply not_gt0.
Qed.

Lemma C6_lines_posted_witness :
  request_binds next_day_request = true
  /\ snd (create_report sample_store next_day_request) = Created 2
  /\ exists rows,
       report_expenses (fst (create_report sample_store next_day_request))
       = report_expenses sample_store ++ rows
       /\ Forall2 (line_row_of 2)
                  (positive_lines
                     [LineEntry.mk None 40%Q "tea"; LineEntry.mk None 0%Q "none"])
                  rows.
Proof.
  assert (Hfree : ~ In ("2024-05-02"%string,
                        CreateReportRequest.location_id next_day_request)
                       (List.map day_and_place (daily_reports sample_store))).
  { vm_compute. intros [H|[]]. discriminate H. }
  destruct (C6_lines_posted sample_store next_day_request "2024-05-02"
              [LineEntry.mk None 40%Q "tea"; LineEntry.mk None 0%Q "none"]
              [] 0%Q eq_refl eq_refl Hfree eq_refl eq_refl eq_refl)
    as (Hresp & _ & _ & _ & Hexp & _).
  split; [reflexivity|]. split; [exact Hresp|exact Hexp].
Defined.

(** C6, as claimed, fails: a payment entry with amount > 0 whose method id
    is not that of a listed payment method is passed over like the entries
    with amount <= 0, and the request still succeeds. *)
Lemma C6_positive_payment_passed_over :
  In (PaymentEntry.mk 9 250%Q) (CreateReportRequest.payments next_day_request)
  /\ (0 < PaymentEntry.amount (PaymentEntry.mk 9 250%Q))%Q
  /\ snd (create_report sample_store next_day_request) = Created 2
  /\ List.map ReportPayment.amount
       (report_payments (fst (create_report sample_store next_day_request)))
     = List.map ReportPayment.amount (report_payments sample_store) ++ [300%Q].
Proof.
  split; [vm_compute; auto|]. split; [reflexivity|].
  split; vm_compute; reflexivity.
Qed.

(** ** Closing a report *)

Lemma create_report_Created_inv (db : database)
  (request : CreateReportRequest.t) (rid : Z) :
  snd (create_report db request) = Created rid ->
  exists d es is_ ca,
    CreateReportRequest.report_date request = Some d
    /\ CreateReportRequest.expenses request = Some es
    /\ CreateReportRequest.incomes request = Some is_
    /\ CreateReportRequest.cash_actual request = Some ca
    /\ rid = Sql.next_id (List.map DailyReport.id (daily_reports db))
    /\ exists db3,
         daily_reports db3
         = daily_reports db
           ++ [new_report db d (CreateReportRequest.location_id request)
                 (CreateReportRequest.total_sales request)
                 (CreateReportRequest.created_by request)]
         /\ fst (create_report db request)
            = if Py.gt0 ca then set_cash_actual_closed db3 ca rid else db3.
Proof.
  unfold create_report.
  destruct (CreateReportRequest.report_date request) as [d|];
    [|discriminate].
  destruct (get_daily_report db d _); [discriminate|].
  unfold create_daily_report.
  destruct (existsb _ (daily_reports db)); [discriminate|].
  destruct (CreateReportRequest.expenses request) as [es|]; [|discriminate].
  destruct (CreateReportRequest.incomes request) as [is_|]; [|discriminate].
  destruct (CreateReportRequest.cash_actual request) as [ca|];
    [|discriminate].
  cbn [fst snd]. intros [= <-]. exists d, es, is_, ca.
  repeat (split; [reflexivity|]).
  eexists. split; [|reflexivity].
  apply (lines_posted_masters _ request es is_).
Qed.

(** C7, as the code behaves. [close_report] takes no cash count: in the
    report with the given id it sets the status to closed and [closed_at] to
    the current time, and it keeps [cash_actual], [cash_expected] and
    [cash_difference]; the other reports stay as they are. The endpoint,
    when the request succeeds and carries a cash count > 0, leaves the new
    report with that [cash_actual], status closed, and [cash_expected] and
    [cash_difference] unset; with a cash count <= 0 the new report stays
    open. *)
Theorem C7_closing (db : database) :
  (forall now rid,
      Forall2
        (fun old new =>
           if DailyReport.id old =? rid
           then DailyReport.id new = rid
                /\ DailyReport.status new = st_closed
                /\ DailyReport.closed_at new = Some now
                /\ DailyReport.cash_actual new = DailyReport.cash_actual old
                /\ DailyReport.cash_expected new
                   = DailyReport.cash_expected old
                /\ DailyReport.cash_difference new
                   = DailyReport.cash_difference old
           else new = old)
        (daily_reports db) (daily_reports (close_report db now rid)))
  /\ (forall request rid ca,
         snd (create_report db request) = Created rid ->
         CreateReportRequest.cash_actual request = Some ca ->
         exists dr,
           daily_reports (fst (create_report db request))
           = daily_reports db ++ [dr]
           /\ DailyReport.id dr = rid
           /\ DailyReport.cash_expected dr = None
           /\ DailyReport.cash_difference dr = None
           /\ ((0 < ca)%Q ->
               DailyReport.cash_actual dr = Some ca
               /\ DailyReport.status dr = st_closed)
           /\ ((ca <= 0)%Q ->
               DailyReport.cash_actual dr = None
               /\ DailyReport.status dr = st_open)).
Proof.
  split.
  - intros now rid. unfold close_report, update_report_row. simpl.
    induction (daily_reports db) as [|dr l IH]; simpl; constructor.
    + destruct (DailyReport.id dr =? rid) eqn:E; [|reflexivity].
      apply Z.eqb_eq in E. simpl. tauto.
    + exact IH.
  - intros request rid ca Hresp Hca.
    destruct (create_report_Created_inv db request rid Hresp)
      as (d & es & is_ & ca' & _ & _ & _ & Hca' & Hrid & db3 & H3 & Hfst).
    rewrite Hca in Hca'. injection Hca' as <-. rewrite Hfst.
    destruct (Py.gt0 ca) eqn:G.
    + eexists. split.
      * rewrite Hrid. apply set_cash_actual_closed_new. exact H3.
      * simpl. repeat (split; [congruence|]). split; [tauto|].
        intros Hle. rewrite (not_gt0 _ Hle) in G. discriminate G.
    + eexists. split; [exact H3|].
      simpl. repeat (split; [congruence|]). split; [|tauto].
      intros Hpos. apply gt0_spec in Hpos. congruence.
Qed.

Lemma C7_closing_witness :
  snd (create_report (run_all (firstn 5 sample_calls) init_database)
         sample_request) = Created 1
  /\ exists dr,
       daily_reports
         (fst (create_report (run_all (firstn 5 sample_calls) init_database)
                 sample_request)) = [dr]
       /\ DailyReport.cash_actual dr = Some 400%Q
       /\ DailyReport.status dr = st_closed
       /\ DailyReport.cash_expected dr = None.
Proof.
  assert (H : snd (create_report
                     (run_all (firstn 5 sample_calls) init_database)
                     sample_request) = Created 1)
    by (vm_compute; reflexivity).
  split; [exact H|].
  destruct (proj2 (C7_closing _) sample_request 1 400%Q H eq_refl)
    as (dr & Hdr & _ & Hexp & _ & Hpos & _).
  exists dr. split; [exact Hdr|].
  destruct (Hpos eq_refl) as [Ha Hs]. tauto.
Defined.

(** C7, as claimed, fails on both ways of closing: [close_report] closes
    the report and records [closed_at] but stores no cash count, and the
    endpoint stores the cash count and closes the report but records no
    [closed_at]. *)
Lemma C7_no_path_sets_all :
  daily_reports (close_report open_report_store "2024-05-01 21:00:00" 1)
  = [DailyReport.mk 1 "2024-05-01" 1 1000%Q None None None None st_closed
       None (Some "2024-05-01 21:00:00"%string)]
  /\ daily_reports
       (fst (create_report (run_all (firstn 5 sample_calls) init_database)
               sample_request))
     = [DailyReport.mk 1 "2024-05-01" 1 1000%Q None (Some 400%Q) None None
          st_closed (Some "telegram_user"%string) None].
Proof. split; vm_compute; reflexivity. Qed.

(** ** Joins on a primary key *)

Lemma filter_key_at_most_one {B} (key : B -> Z) (k : Z) (r : list B) :
  List.NoDup (List.map key r) ->
  (length (List.filter (fun b => (k =? key b)%Z) r) <= 1)%nat.
Proof.
  induction r as [|b r IH]; simpl; [lia|].
  intros H. inversion H as [|? ? Hnotin Hnd]; subst.
  destruct (k =? key b) eqn:E; [|apply IH, Hnd].
  apply Z.eqb_eq in E. subst k. simpl.
  rewrite filter_none; [simpl; lia|].
  apply List.Forall_forall. intros b' Hb'.
  apply Z.eqb_neq. intros Heq. apply Hnotin. rewrite Heq.
  apply List.in_map. exact Hb'.
Qed.

Lemma JOIN_fst {A B} (on : A -> B -> bool) (l : list A) (r : list B) :
  (forall a, In a l -> (length (List.filter (on a) r) <= 1)%nat) ->
  List.map fst (Sql.JOIN on l r) = List.filter (fun a => existsb (on a) r) l.
Proof.
  unfold Sql.JOIN. induction l as [|a l IH]; intros H; [reflexivity|].
  simpl. rewrite List.map_app, IH by (intros; apply H; right; assumption).
  specialize (H a (or_introl eq_refl)).
  assert (E : existsb (on a) r
              = match List.filter (on a) r with [] => false | _ => true end).
  { clear. induction r as [|b r IH]; simpl; [reflexivity|].
    destruct (on a b); simpl; [reflexivity|exact IH]. }
  rewrite E. destruct (List.filter (on a) r) as [|b [|b' bs]]; simpl in *;
    [reflexivity|reflexivity|lia].
Qed.

Lemma LEFT_JOIN_fst {A B} (on : A -> B -> bool) (l : list A) (r : list B) :
  (forall a, In a l -> (length (List.filter (on a) r) <= 1)%nat) ->
  List.map fst (Sql.LEFT_JOIN on l r) = l.
Proof.
  unfold Sql.LEFT_JOIN. induction l as [|a l IH]; intros H; [reflexivity|].
  cbn [flat_map].
  rewrite List.map_app, IH by (intros; apply H; right; assumption).
  specialize (H a (or_introl eq_refl)).
  destruct (List.filter (on a) r) as [|b [|b' bs]]; simpl in *;
    [reflexivity|reflexivity|lia].
Qed.

Lemma map_filter_comm {A B} (f : A -> B) (p : B -> bool) (l : list A) :
  List.map f (List.filter (fun x => p (f x)) l) = List.filter p (List.map f l).
Proof.
  induction l as [|x l IH]; simpl; [reflexivity|].
  destruct (p (f x)); simpl; rewrite IH; reflexivity.
Qed.

Lemma Forall2_map_same {A B C} (R : B -> C -> Prop) (f : A -> B) (g : A -> C)
  (l : list A) :
  Forall (fun x => R (f x) (g x)) l -> Forall2 R (List.map f l) (List.map g l).
Proof. induction 1; simpl; constructor; assumption. Qed.

(** ** History: one entry for each joined row *)

Lemma filter_filter_comm {A} (p q : A -> bool) (l : list A) :
  List.filter p (List.filter q l) = List.filter q (List.filter p l).
Proof.
  induction l as [|x l IH]; simpl; [reflexivity|].
  destruct (p x) eqn:P, (q x) eqn:Q; simpl; rewrite ?P, ?Q, IH; reflexivity.
Qed.

Lemma located_of_join (db : database) (dr : DailyReport.t)
  (ol : option Location.t) :
  match ol with
  | Some l => In l (locations db) /\ report_location dr l = true
  | None => forall l, In l (locations db) -> report_location dr l = false
  end ->
  located db dr (location_name ol).
Proof.
  unfold located, report_location. destruct ol as [l|]; simpl.
  - intros [Hin Hon]. apply Z.eqb_eq in Hon. exists l. tauto.
  - intros H l Hin. apply Z.eqb_neq. apply H. exact Hin.
Qed.

Lemma location_at_most_one (db : database) (dr : DailyReport.t) :
  List.NoDup (List.map Location.id (locations db)) ->
  (length (List.filter (report_location dr) (locations db)) <= 1)%nat.
Proof.
  apply (filter_key_at_most_one Location.id (DailyReport.location_id dr)).
Qed.

Lemma line_rows_one_for_each (db : database) (table : list Line.t)
  (operation_type : string) (account_id : Z) :
  primary_keys db ->
  one_for_each (line_history_row db operation_type)
    (List.filter (fun ln => has_report db (Line.report_id ln))
       (List.filter (fun ln => Line.account_id ln =? account_id) table))
    (line_rows db table operation_type account_id).
Proof.
  intros (_ & _ & Kl & Kr). unfold line_rows.
  set (J := Sql.LEFT_JOIN _ _ (locations db)).
  set (S := Sql.ORDER_BY _ (List.filter _ J)).
  exists (List.map (fun r => fst (fst r)) S). split.
  - unfold S. rewrite (Permutation_map _ (ORDER_BY_perm _ _)).
    rewrite (map_filter_comm (fun r : Line.t * DailyReport.t
                                      * option Location.t => fst (fst r))
               (fun ln => Line.account_id ln =? account_id)).
    rewrite <- (List.map_map fst fst). unfold J.
    rewrite LEFT_JOIN_fst
      by (intros [ln dr] _; apply (location_at_most_one db dr Kl)).
    rewrite JOIN_fst
      by (intros ln _;
          apply (filter_key_at_most_one DailyReport.id (Line.report_id ln)),
                Kr).
    rewrite filter_filter_comm. reflexivity.
  - apply Forall2_map_same. apply List.Forall_forall.
    intros [[ln dr] ol] Hin. unfold S in Hin.
    apply ORDER_BY_In, List.filter_In in Hin. destruct Hin as [Hj _].
    unfold J in Hj. apply LEFT_JOIN_In in Hj. destruct Hj as [Hj Hloc].
    apply JOIN_In in Hj. destruct Hj as (_ & Hdr & Hon).
    apply Z.eqb_eq in Hon. exists dr. simpl.
    repeat (split; [first [assumption|reflexivity]|]).
    apply located_of_join. exact Hloc.
Qed.

Lemma JOIN_fst_as {A B} (on : A -> B -> bool) (p : A -> bool) (l : list A)
  (r : list B) :
  (forall a, existsb (on a) r = p a) ->
  (forall a, In a l -> (length (List.filter (on a) r) <= 1)%nat) ->
  List.map fst (Sql.JOIN on l r) = List.filter p l.
Proof.
  intros E H. rewrite JOIN_fst by exact H. apply List.filter_ext. exact E.
Qed.

Lemma payment_rows_one_for_each (db : database) (account_id : Z) :
  primary_keys db ->
  one_for_each (payment_history_row db)
    (List.filter
       (fun rp => has_report db (ReportPayment.report_id rp)
                  && has_method db (ReportPayment.payment_method_id rp))
       (payments_of db account_id))
    (payment_rows db account_id).
Proof.
  intros (_ & Km & Kl & Kr). unfold payment_rows.
  set (J1 := Sql.JOIN _ (report_payments db) (daily_reports db)).
  set (J2 := Sql.JOIN _ J1 (payment_methods db)).
  set (J := Sql.LEFT_JOIN _ J2 (locations db)).
  set (S := Sql.ORDER_BY _ (List.filter _ J)).
  exists (List.map (fun r => fst (fst (fst r))) S). split.
  - unfold S. rewrite (Permutation_map _ (ORDER_BY_perm _ _)).
    rewrite (map_filter_comm
               (fun r : ReportPayment.t * DailyReport.t * PaymentMethod.t
                        * option Location.t => fst (fst (fst r)))
               (fun rp => ReportPayment.account_id rp =? account_id)).
    rewrite <- (List.map_map fst (fun r => fst (fst r))).
    rewrite <- (List.map_map fst fst). unfold J.
    rewrite LEFT_JOIN_fst
      by (intros [[rp dr] pm] _; apply (location_at_most_one db dr Kl)).
    unfold J2.
    rewrite (JOIN_fst_as _
               (fun r : ReportPayment.t * DailyReport.t =>
                  has_method db (ReportPayment.payment_method_id (fst r))))
      by (first
            [ intros [rp dr] _;
              apply (filter_key_at_most_one PaymentMethod.id
                       (ReportPayment.payment_method_id rp)), Km
            | intros; reflexivity ]).
    rewrite (map_filter_comm fst
               (fun rp => has_method db (ReportPayment.payment_method_id rp))).
    unfold J1.
    rewrite (JOIN_fst_as _
               (fun rp => has_report db (ReportPayment.report_id rp)))
      by (first
            [ intros rp _;
              apply (filter_key_at_most_one DailyReport.id
                       (ReportPayment.report_id rp)), Kr
            | intros; reflexivity ]).
    rewrite (filter_filter_comm
               (fun rp => ReportPayment.account_id rp =? account_id)).
    rewrite (filter_filter_comm
               (fun rp => ReportPayment.account_id rp =? account_id)).
    fold (payments_of db account_id).
    apply Permutation_refl'.
    induction (payments_of db account_id) as [|rp l IH]; simpl;
      [reflexivity|].
    destruct (has_report db (ReportPayment.report_id rp)); simpl.
    + destruct (has_method db _); rewrite IH; reflexivity.
    + exact IH.
  - apply Forall2_map_same. apply List.Forall_forall.
    intros [[[rp dr] pm] ol] Hin. unfold S in Hin.
    apply ORDER_BY_In, List.filter_In in Hin. destruct Hin as [Hj _].
    unfold J in Hj. apply LEFT_JOIN_In in Hj. destruct Hj as [Hj Hloc].
    unfold J2 in Hj. apply JOIN_In in Hj. destruct Hj as (Hj & Hpm & Hon2).
    unfold J1 in Hj. apply JOIN_In in Hj. destruct Hj as (_ & Hdr & Hon1).
    apply Z.eqb_eq in Hon1, Hon2. exists dr, pm. simpl in *.
    repeat (split; [first [assumption|reflexivity]|]).
    apply located_of_join. exact Hloc.
Qed.

Lemma cash_sales_rows_one_for_each (db : database) :
  primary_keys db ->
  one_for_each (cash_history_row db)
    (List.filter (fun dr => is_closed (DailyReport.status dr))
                 (daily_reports db))
    (cash_sales_rows db).
Proof.
  intros (_ & _ & Kl & _). unfold cash_sales_rows.
  set (J := Sql.LEFT_JOIN _ (daily_reports db) (locations db)).
  set (S := Sql.ORDER_BY _ (List.filter _ J)).
  exists (List.map fst S). split.
  - unfold S. rewrite (Permutation_map _ (ORDER_BY_perm _ _)).
    rewrite (map_filter_comm fst
               (fun dr => is_closed (DailyReport.status dr))).
    unfold J.
    rewrite LEFT_JOIN_fst
      by (intros dr _; apply (location_at_most_one db dr Kl)).
    reflexivity.
  - apply Forall2_map_same. apply List.Forall_forall.
    intros [dr ol] Hin. unfold S in Hin.
    apply ORDER_BY_In, List.filter_In in Hin. destruct Hin as [Hj _].
    unfold J in Hj. apply LEFT_JOIN_In in Hj. destruct Hj as [_ Hloc].
    unfold cash_history_row. simpl.
    repeat (split; [reflexivity|]).
    apply located_of_join. exact Hloc.
Qed.

(** ** Primary keys of reachable stores *)

Lemma NoDup_next_id (ids : list Z) :
  List.NoDup ids -> List.NoDup (ids ++ [Sql.next_id ids]).
Proof.
  intros H. apply NoDup_snoc; [exact H|].
  intros Hin. apply next_id_above in Hin. lia.
Qed.

Lemma map_update_key {A} (key : A -> Z) (k : Z) (f : A -> A) (l : list A) :
  (forall x, key (f x) = key x) ->
  List.map key (List.map (fun x => if key x =? k then f x else x) l)
  = List.map key l.
Proof.
  intros Hf. rewrite List.map_map. apply List.map_ext. intros x.
  destruct (key x =? k); [apply Hf|reflexivity].
Qed.

Lemma update_methods_order_keys (ids : list Z) (n : Z) (db : database) :
  accounts (update_payment_methods_order_from n ids db) = accounts db
  /\ locations (update_payment_methods_order_from n ids db) = locations db
  /\ List.map PaymentMethod.id
       (payment_methods (update_payment_methods_order_from n ids db))
     = List.map PaymentMethod.id (payment_methods db).
Proof.
  revert n db. induction ids as [|i ids IH]; intros n db;
    cbn [update_payment_methods_order_from]; [repeat split|].
  destruct (IH (n + 1) (update_method_row db i
                          (fun m => PaymentMethod.mk (PaymentMethod.id m)
                             (PaymentMethod.name m)
                             (PaymentMethod.method_type m)
                             (PaymentMethod.default_account_id m)
                             (PaymentMethod.commission_percent m)
                             (PaymentMethod.is_visible m)
                             (PaymentMethod.is_active m) n)))
    as (Ha & Hl & Hm).
  rewrite Ha, Hl, Hm. split; [reflexivity|]. split; [reflexivity|].
  unfold update_method_row. simpl.
  apply (map_update_key PaymentMethod.id). reflexivity.
Qed.

Lemma create_report_masters (db : database) (request : CreateReportRequest.t) :
  accounts (fst (create_report db request)) = accounts db
  /\ payment_methods (fst (create_report db request)) = payment_methods db
  /\ locations (fst (create_report db request)) = locations db.
Proof.
  unfold create_report.
  destruct (CreateReportRequest.report_date request) as [d|];
    [|repeat split].
  destruct (get_daily_report db d _); [repeat split|].
  unfold create_daily_report.
  destruct (existsb _ (daily_reports db)); [repeat split|].
  set (rid := Sql.next_id (List.map DailyReport.id (daily_reports db))).
  set (db0 := with_daily_reports db _).
  set (db1 := fold_left (post_payment rid) _ db0).
  assert (M1 : same_masters db0 db1)
    by exact (fold_masters (post_payment rid) _ (post_payment_masters rid) db0).
  destruct (CreateReportRequest.expenses request) as [es|];
    [|destruct M1 as (A & B & C & _); cbn [fst]; rewrite A, B, C;
      repeat split].
  set (db2 := fold_left (post_expense rid) es db1).
  assert (M2 : same_masters db0 db2).
  { eapply same_masters_trans; [exact M1|].
    exact (fold_masters (post_expense rid) es (post_expense_masters rid) db1). }
  destruct (CreateReportRequest.incomes request) as [is_|];
    [|destruct M2 as (A & B & C & _); cbn [fst]; rewrite A, B, C;
      repeat split].
  set (db3 := fold_left (post_income rid) is_ db2).
  assert (M3 : same_masters db0 db3).
  { eapply same_masters_trans; [exact M2|].
    exact (fold_masters (post_income rid) is_ (post_income_masters rid) db2). }
  destruct M3 as (A & B & C & _).
  destruct (CreateReportRequest.cash_actual request) as [ca|];
    [|cbn [fst]; rewrite A, B, C; repeat split].
  destruct (Py.gt0 ca); cbn [fst];
    [change (accounts (set_cash_actual_closed db3 ca rid)) with (accounts db3);
     change (payment_methods (set_cash_actual_closed db3 ca rid))
       with (payment_methods db3);
     change (locations (set_cash_actual_closed db3 ca rid))
       with (locations db3)|];
    rewrite A, B, C; repeat split.
Qed.

Lemma reports_step_ids (db : database) (l' : list DailyReport.t) :
  reports_step db l' ->
  List.NoDup (List.map DailyReport.id (daily_reports db)) ->
  List.NoDup (List.map DailyReport.id l').
Proof.
  intros S H. destruct S as [|d loc total by_ E|d loc total by_ ca E| |];
    try exact H.
  - rewrite List.map_app. apply NoDup_next_id, H.
  - rewrite List.map_app. apply NoDup_next_id, H.
  - unfold update_report_cash, update_report_row. simpl.
    rewrite (map_update_key DailyReport.id); [exact H|reflexivity].
  - unfold close_report, update_report_row. simpl.
    rewrite (map_update_key DailyReport.id); [exact H|reflexivity].
Qed.

Lemma run_primary_keys (db : database) (c : call) :
  primary_keys db -> primary_keys (run db c).
Proof.
  intros (Ka & Km & Kl & Kr).
  split; [|split; [|split]];
    [| | |exact (reports_step_ids db _ (run_reports_step db c) Kr)].
  - destruct c; cbn [run]; try exact Ka.
    + unfold add_account. rewrite fst_if.
      destruct (existsb _ _); [exact Ka|]. simpl.
      rewrite List.map_app. apply NoDup_next_id, Ka.
    + unfold update_account. rewrite fst_if.
      destruct (_ && _); [exact Ka|]. simpl.
      rewrite (map_update_key Account.id); [exact Ka|reflexivity].
    + unfold delete_account. simpl.
      rewrite (map_update_key Account.id); [exact Ka|reflexivity].
    + unfold add_payment_method. rewrite fst_if.
      destruct (existsb _ _); exact Ka.
    + unfold update_payment_method. rewrite fst_if.
      destruct (_ && _); exact Ka.
    + unfold update_payment_methods_order.
      rewrite (proj1 (update_methods_order_keys _ _ _)). exact Ka.
    + unfold add_location. rewrite fst_if. destruct (existsb _ _); exact Ka.
    + unfold update_location. rewrite fst_if. destruct (_ && _); exact Ka.
    + unfold create_daily_report. rewrite fst_if.
      destruct (existsb _ _); exact Ka.
    + rewrite (proj1 (create_report_masters db request)). exact Ka.
  - destruct c; cbn [run]; try exact Km.
    + unfold add_account. rewrite fst_if. destruct (existsb _ _); exact Km.
    + unfold update_account. rewrite fst_if. destruct (_ && _); exact Km.
    + unfold add_payment_method. rewrite fst_if.
      destruct (existsb _ _); [exact Km|]. simpl.
      rewrite List.map_app. apply NoDup_next_id, Km.
    + unfold update_payment_method. rewrite fst_if.
      destruct (_ && _); [exact Km|]. unfold update_method_row. simpl.
      rewrite (map_update_key PaymentMethod.id); [exact Km|reflexivity].
    + unfold delete_payment_method, update_method_row. simpl.
      rewrite (map_update_key PaymentMethod.id); [exact Km|reflexivity].
    + unfold toggle_payment_method_visibility, update_method_row. simpl.
      rewrite (map_update_key PaymentMethod.id); [exact Km|reflexivity].
    + unfold update_payment_method_default_account, update_method_row. simpl.
      rewrite (map_update_key PaymentMethod.id); [exact Km|reflexivity].
    + unfold update_payment_methods_order.
      rewrite (proj2 (proj2 (update_methods_order_keys _ _ _))). exact Km.
    + unfold add_location. rewrite fst_if. destruct (existsb _ _); exact Km.
    + unfold update_location. rewrite fst_if. destruct (_ && _); exact Km.
    + unfold create_daily_report. rewrite fst_if.
      destruct (existsb _ _); exact Km.
    + rewrite (proj1 (proj2 (create_report_masters db request))). exact Km.
  - destruct c; cbn [run]; try exact Kl.
    + unfold add_account. rewrite fst_if. destruct (existsb _ _); exact Kl.
    + unfold update_account. rewrite fst_if. destruct (_ && _); exact Kl.
    + unfold add_payment_method. rewrite fst_if.
      destruct (existsb _ _); exact Kl.
    + unfold update_payment_method. rewrite fst_if.
      destruct (_ && _); exact Kl.
    + unfold update_payment_methods_order.
      rewrite (proj1 (proj2 (update_methods_order_keys _ _ _))). exact Kl.
    + unfold add_location. rewrite fst_if.
      destruct (existsb _ _); [exact Kl|]. simpl.
      rewrite List.map_app. apply NoDup_next_id, Kl.
    + unfold update_location. rewrite fst_if.
      destruct (_ && _); [exact Kl|]. simpl.
      rewrite (map_update_key Location.id); [exact Kl|reflexivity].
    + unfold delete_location. simpl.
      rewrite (map_update_key Location.id); [exact Kl|reflexivity].
    + unfold create_daily_report. rewrite fst_if.
      destruct (existsb _ _); exact Kl.
    + rewrite (proj2 (proj2 (create_report_masters db request))). exact Kl.
Qed.

Lemma reachable_primary_keys (db : database) :
  reachable db -> primary_keys db.
Proof.
  induction 1 as [|db c _ IH].
  - repeat split; constructor.
  - apply run_primary_keys, IH.
Qed.

(** ** History: statements *)

Lemma head_filter_key {A} (key : A -> Z) (l : list A) (x : A) :
  List.NoDup (List.map key l) -> In x l ->
  head (List.filter (fun a => key a =? key x) l) = Some x.
Proof.
  induction l as [|y l IH]; simpl; [tauto|].
  intros H Hin. inversion H as [|? ? Hnotin Hnd]; subst.
  destruct Hin as [->|Hin].
  - rewrite Z.eqb_refl. reflexivity.
  - destruct (key y =? key x) eqn:E; [|apply IH; assumption].
    apply Z.eqb_eq in E. exfalso. apply Hnotin. rewrite E.
    apply List.in_map. exact Hin.
Qed.

(** C4, as the store behaves. For an account of a store with primary keys
    the history is in descending order of date and consists of three
    streams: one entry with '+' for each non-sales-income row of the account
    whose report exists, one entry with '-' for each expense row of the
    account whose report exists, both for cash and for bank accounts, and a
    first stream that for a bank account has one entry for each payment row
    of the account whose report and payment method exist, and for a cash
    account one entry for each closed report (payment rows of a cash
    account give no entry). *)
Theorem C4_history (db : database) (acc : Account.t) :
  primary_keys db ->
  In acc (accounts db) ->
  sorted_desc HistoryRow.date (get_account_history db (Account.id acc))
  /\ exists first incomes expenses,
       Permutation (get_account_history db (Account.id acc))
                   (first ++ incomes ++ expenses)
       /\ one_for_each (line_history_row db "+")
            (List.filter (fun ln => has_report db (Line.report_id ln))
                         (incomes_of db (Account.id acc)))
            incomes
       /\ one_for_each (line_history_row db "-")
            (List.filter (fun ln => has_report db (Line.report_id ln))
                         (expenses_of db (Account.id acc)))
            expenses
       /\ match Account.account_type acc with
          | cash =>
              one_for_each (cash_history_row db)
                (List.filter (fun dr => is_closed (DailyReport.status dr))
                             (daily_reports db))
                first
          | bank =>
              one_for_each (payment_history_row db)
                (List.filter
                   (fun rp =>
                      has_report db (ReportPayment.report_id rp)
                      && has_method db (ReportPayment.payment_method_id rp))
                   (payments_of db (Account.id acc)))
                first
          end.
Proof.
  intros K Hin. unfold get_account_history.
  rewrite (head_filter_key Account.id _ acc (proj1 K) Hin).
  split; [apply ORDER_BY_desc_sorted|].
  exists (match Account.account_type acc with
          | cash => cash_sales_rows db
          | bank => payment_rows db (Account.id acc)
          end),
    (line_rows db (non_sales_income db) "+" (Account.id acc)),
    (line_rows db (report_expenses db) "-" (Account.id acc)).
  split; [apply ORDER_BY_perm|].
  split; [apply line_rows_one_for_each, K|].
  split; [apply line_rows_one_for_each, K|].
  destruct (Account.account_type acc).
  - apply payment_rows_one_for_each, K.
  - apply cash_sales_rows_one_for_each, K.
Qed.

Lemma C4_history_witness :
  primary_keys sample_store
  /\ In (Account.mk 1 "Cash desk" cash true) (accounts sample_store)
  /\ sorted_desc HistoryRow.date (get_account_history sample_store 1)
  /\ List.map HistoryRow.operation_type (get_account_history sample_store 1)
     = ["+"; "+"; "-"]%string.
Proof.
  assert (K : primary_keys sample_store).
  { apply reachable_primary_keys, reachable_run_all, reachable_init. }
  assert (Hin : In (Account.mk 1 "Cash desk" cash true)
                   (accounts sample_store)) by (vm_compute; auto).
  split; [exact K|]. split; [exact Hin|].
  split; [exact (proj1 (C4_history sample_store _ K Hin))|].
  vm_compute. reflexivity.
Defined.

(** C4, as claimed, fails: in a reachable store a payment row booked on a
    cash account is a line-item row of that account, and the history of the
    account does not show it. *)
Lemma C4_cash_payment_row_missing :
  reachable till_store
  /\ In (Account.mk 1 "Cash desk" cash true) (accounts till_store)
  /\ List.map ReportPayment.amount (payments_of till_store 1) = [600%Q]
  /\ get_account_history till_store 1 = [].
Proof.
  split; [apply reachable_run_all, reachable_init|].
  split; [vm_compute; auto|].
  split; vm_compute; reflexivity.
Qed.

(** ** Every stored payment row is split *)

Lemma create_report_preserves (I : database -> Prop) (db : database)
  (request : CreateReportRequest.t) :
  (forall db l, I db -> I (with_daily_reports db l)) ->
  (forall rid db p, I db -> I (post_payment rid db p)) ->
  (forall rid db e, I db -> I (post_expense rid db e)) ->
  (forall rid db e, I db -> I (post_income rid db e)) ->
  I db -> I (fst (create_report db request)).
Proof.
  intros Hr Hp He Hi H.
  assert (F : forall {E} (step : database -> E -> database) (l : list E),
             (forall db e, I db -> I (step db e)) ->
             forall db, I db -> I (fold_left step l db)).
  { intros E step l Hstep. induction l as [|e l IH]; intros x Hx; simpl;
      [exact Hx|]. apply IH, Hstep, Hx. }
  unfold create_report.
  destruct (CreateReportRequest.report_date request) as [d|]; [|exact H].
  destruct (get_daily_report db d _); [exact H|].
  unfold create_daily_report.
  destruct (existsb _ (daily_reports db)); [exact H|].
  set (rid := Sql.next_id (List.map DailyReport.id (daily_reports db))).
  set (db0 := with_daily_reports db _).
  assert (H0 : I db0) by apply Hr, H.
  set (db1 := fold_left (post_payment rid) _ db0).
  assert (H1 : I db1) by (apply F; [apply Hp|exact H0]).
  destruct (CreateReportRequest.expenses request) as [es|]; [|exact H1].
  set (db2 := fold_left (post_expense rid) es db1).
  assert (H2 : I db2) by (apply F; [apply He|exact H1]).
  destruct (CreateReportRequest.incomes request) as [is_|]; [|exact H2].
  set (db3 := fold_left (post_income rid) is_ db2).
  assert (H3 : I db3) by (apply F; [apply Hi|exact H2]).
  destruct (CreateReportRequest.cash_actual request) as [ca|]; [|exact H3].
  cbn [fst]. destruct (Py.gt0 ca); [|exact H3].
  apply (Hr db3). exact H3.
Qed.

Lemma add_report_payment_net (db : database) (rid mid aid : Z) (amount : Q) :
  Forall payment_net (report_payments db) ->
  Forall payment_net
    (report_payments (fst (add_report_payment db rid mid aid amount))).
Proof.
  intros H. unfold add_report_payment. simpl. apply List.Forall_app.
  split; [exact H|]. constructor; [|constructor].
  reflexivity.
Qed.

Lemma run_payment_net (db : database) (c : call) :
  Forall payment_net (report_payments db) ->
  Forall payment_net (report_payments (run db c)).
Proof.
  intros H. destruct c; cbn [run]; try exact H;
    try (unfold add_account, update_account, add_payment_method,
           update_payment_method, add_location, update_location,
           create_daily_report;
         rewrite fst_if;
         match goal with |- context [if ?b then _ else _] => destruct b end;
         exact H).
  - unfold update_payment_methods_order. revert db H.
    generalize 0. induction ordered_ids as [|i ids IH]; intros n db H;
      cbn [update_payment_methods_order_from]; [exact H|].
    apply IH. exact H.
  - apply add_report_payment_net, H.
  - apply (create_report_preserves
             (fun x => Forall payment_net (report_payments x)));
      [ intros x l Hx; exact Hx
      | intros rid x p Hx; rewrite post_payment_listed;
        destruct (payable x p); [|exact Hx];
        destruct (listed_method x _); [|exact Hx];
        apply add_report_payment_net, Hx
      | intros rid x e Hx;
        rewrite (proj1 (post_expense_frame rid x e)); exact Hx
      | intros rid x e Hx;
        rewrite (proj1 (post_income_frame rid x e)); exact Hx
      | exact H ].
Qed.

(** X2. In a reachable store the net amount of every payment row is its amount
    less its commission: [add_report_payment] stores the row so, directly or
    through the endpoint, and no method rewrites a payment row. *)
Lemma reachable_payment_net (db : database) :
  reachable db -> Forall payment_net (report_payments db).
Proof.
  induction 1 as [|db c _ IH].
  - constructor.
  - apply run_payment_net, IH.
Qed.

(** * Further properties of the store and the endpoint *)

(** ** Balance entries under primary keys *)

Lemma option_eq_by_Some {A} (o1 o2 : option A) :
  (forall x, o1 = Some x <-> o2 = Some x) -> o1 = o2.
Proof.
  intros H. destruct o1 as [x|], o2 as [y|]; try reflexivity.
  - symmetry. apply (H x). reflexivity.
  - pose proof (proj1 (H x) eq_refl) as E. discriminate E.
  - pose proof (proj2 (H y) eq_refl) as E. discriminate E.
Qed.

(** X6. With unique account ids, the entry of an id in the result of
    [get_account_balance] is the summary of the active account with that
    id, and an id has no entry exactly when every account with that id is
    soft-deleted (among them: when there is no such account). *)
Theorem balance_entry (db : database) (i : Z) :
  List.NoDup (List.map Account.id (accounts db)) ->
  (forall s : Summary.t,
      get_account_balance db !! i = Some s
      <-> exists acc, In acc (accounts db) /\ Account.id acc = i
                      /\ Account.is_active acc = true
                      /\ s = account_summary db acc)
  /\ (get_account_balance db !! i = None
      <-> forall acc, In acc (accounts db) -> Account.id acc = i ->
                      Account.is_active acc = false).
Proof.
  intros K. split; [intros s; apply balance_lookup_iff, K|]. split.
  - intros HN acc Hin Hid.
    destruct (Account.is_active acc) eqn:Hact; [|reflexivity].
    assert (E : get_account_balance db !! i
                = Some (account_summary db acc)).
    { apply balance_lookup_iff; [exact K|]. exists acc. tauto. }
    rewrite HN in E. discriminate E.
  - intros H. destruct (get_account_balance db !! i) as [s|] eqn:E;
      [|reflexivity].
    apply balance_lookup_iff in E; [|exact K].
    destruct E as (acc & Hin & Hid & Hact & _).
    rewrite (H acc Hin Hid) in Hact. discriminate Hact.
Qed.

Lemma balance_entry_witness :
  List.NoDup (List.map Account.id (accounts sample_store))
  /\ get_account_balance sample_store !! 3
     = Some (account_summary sample_store (Account.mk 3 "Safe" cash true)).
Proof.
  assert (K : List.NoDup (List.map Account.id (accounts sample_store))).
  { apply reachable_primary_keys, reachable_run_all, reachable_init. }
  split; [exact K|].
  apply (proj1 (balance_entry sample_store 3 K)).
  exists (Account.mk 3 "Safe" cash true).
  split; [vm_compute; auto|]. repeat split.
Defined.

(** ** Soft-deleting an account *)

Lemma delete_account_In (db : database) (i : Z) (acc : Account.t) :
  In acc (accounts (delete_account db i))
  <-> exists old, In old (accounts db)
                  /\ acc = if Account.id old =? i
                           then Account.mk (Account.id old) (Account.name old)
                                  (Account.account_type old) false
                           else old.
Proof.
  unfold delete_account. simpl. rewrite List.in_map_iff. split.
  - intros (old & E & Hin). exists old. split; [exact Hin|]. symmetry. exact E.
  - intros (old & Hin & E). exists old. split; [symmetry; exact E|exact Hin].
Qed.

(** X7. With unique account ids, [delete_account] takes the entry of the
    account out of the result of [get_account_balance] and leaves every
    other entry as it was. *)
Theorem delete_account_balance (db : database) (i : Z) :
  List.NoDup (List.map Account.id (accounts db)) ->
  get_account_balance (delete_account db i)
  = delete i (get_account_balance db).
Proof.
  intros K.
  assert (K' : List.NoDup
                 (List.map Account.id (accounts (delete_account db i)))).
  { unfold delete_account. simpl.
    rewrite (map_update_key Account.id); [exact K|reflexivity]. }
  apply map_eq. intros j. apply option_eq_by_Some. intros s.
  rewrite (balance_lookup_iff _ j s K'). destruct (Z.eq_dec i j) as [<-|Hne].
  - rewrite lookup_delete_eq. split; [|discriminate].
    intros (acc & Hin & Hid & Hact & _). apply delete_account_In in Hin.
    destruct Hin as (old & _ & ->).
    destruct (Account.id old =? i) eqn:E; [discriminate Hact|].
    apply Z.eqb_neq in E. contradiction.
  - rewrite lookup_delete_ne by exact Hne. rewrite (balance_lookup_iff _ j s K).
    split.
    + intros (acc & Hin & Hid & Hact & ->). apply delete_account_In in Hin.
      destruct Hin as (old & Hold & ->).
      destruct (Account.id old =? i) eqn:E; [discriminate Hact|].
      exists old. repeat split; assumption.
    + intros (acc & Hin & Hid & Hact & ->). exists acc.
      split; [|repeat split; assumption].
      apply delete_account_In. exists acc. split; [exact Hin|].
      assert (E : (Account.id acc =? i) = false)
        by (apply Z.eqb_neq; congruence).
      rewrite E. reflexivity.
Qed.

Lemma delete_account_balance_witness :
  List.NoDup (List.map Account.id (accounts sample_store))
  /\ get_account_balance (delete_account sample_store 3) !! 3 = None
  /\ get_account_balance (delete_account sample_store 3) !! 2
     = get_account_balance sample_store !! 2.
Proof.
  assert (K : List.NoDup (List.map Account.id (accounts sample_store))).
  { apply reachable_primary_keys, reachable_run_all, reachable_init. }
  split; [exact K|].
  rewrite (delete_account_balance sample_store 3 K).
  split; [apply lookup_delete_eq|apply lookup_delete_ne; discriminate].
Defined.

Lemma head_filter_map {A} (p : A -> bool) (f : A -> A) (l : list A) :
  (forall x, p (f x) = p x) ->
  head (List.filter p (List.map f l)) = option_map f (head (List.filter p l)).
Proof.
  intros H. induction l as [|x l IH]; simpl; [reflexivity|].
  rewrite H. destruct (p x); [reflexivity|exact IH].
Qed.

(** X8. [get_account_history] does not look at [is_active]: soft-deleting an
    account changes the history of no account, the deleted one included. *)
Theorem delete_account_keeps_history (db : database) (i j : Z) :
  get_account_history (delete_account db i) j = get_account_history db j.
Proof.
  unfold get_account_history.
  change (accounts (delete_account db i))
    with (List.map
            (fun a => if Account.id a =? i
                      then Account.mk (Account.id a) (Account.name a)
                             (Account.account_type a) false
                      else a)
            (accounts db)).
  rewrite head_filter_map
    by (intros a; destruct (Account.id a =? i); reflexivity).
  destruct (head (List.filter _ (accounts db))) as [acc|]; [|reflexivity].
  simpl. destruct (Account.id acc =? i); reflexivity.
Qed.

(** ** What a new line does to the balances *)

Lemma Qsum_app (l1 l2 : list Q) : (Qsum (l1 ++ l2) == Qsum l1 + Qsum l2)%Q.
Proof.
  induction l1 as [|x l1 IH]; simpl; [ring|]. rewrite IH. ring.
Qed.


(** The entry of an id after a change that keeps the accounts. *)
Lemma balance_lookup_same_accounts (db db' : database) (i : Z) :
  accounts db' = accounts db ->
  get_account_balance db' !! i
  = option_map (account_summary db')
      (List.find (fun a => Account.id a =? i) (rev (get_accounts db None))).
Proof.
  intros E. rewrite balance_lookup. unfold get_accounts. rewrite E.
  reflexivity.
Qed.







(** ** What closing a report does to the cash balance *)



Lemma cash_entry_balance (db : database) (i : Z) (s : Summary.t) :
  get_account_balance db !! i = Some s ->
  Summary.type s = cash ->
  (Summary.balance s == Qsum (closed_cash_counts db))%Q
  /\ forall db',
       accounts db' = accounts db ->
       exists s',
         get_account_balance db' !! i = Some s'
         /\ Summary.type s' = cash
         /\ (Summary.balance s' == Qsum (closed_cash_counts db'))%Q.
Proof.
  intros Hs Hty.
  rewrite balance_lookup in Hs.
  destruct (List.find _ _) as [acc|] eqn:F; [|discriminate].
  simpl in Hs. injection Hs as <-. rewrite summary_type in Hty.
  split.
  - rewrite (account_summary_cash db acc Hty). apply or0_SUM.
  - intros db' E. rewrite (balance_lookup_same_accounts db db' i E), F.
    simpl. eexists. split; [reflexivity|].
    rewrite (account_summary_cash db' acc Hty). simpl.
    split; [reflexivity|apply or0_SUM].
Qed.



(** X13. A request that the endpoint accepts changes the balance of every cash
    account by its cash count when that is > 0, and not at all otherwise,
    whatever lines it carries. *)
Theorem create_report_cash_balance (db : database)
  (request : CreateReportRequest.t) (rid : Z) (ca : Q) (i : Z)
  (s : Summary.t) :
  snd (create_report db request) = Created rid ->
  CreateReportRequest.cash_actual request = Some ca ->
  get_account_balance db !! i = Some s ->
  Summary.type s = cash ->
  exists s',
    get_account_balance (fst (create_report db request)) !! i = Some s'
    /\ (Summary.balance s'
        == Summary.balance s + (if Py.gt0 ca then ca else 0))%Q.
Proof.
  intros Hresp Hca Hs Hty.
  destruct (cash_entry_balance db i s Hs Hty) as [Hb Hafter].
  destruct (Hafter (fst (create_report db request))
              (proj1 (create_report_masters db request)))
    as (s' & Hs' & _ & Hb').
  exists s'. split; [exact Hs'|]. rewrite Hb', Hb.
  destruct (create_report_Created_inv db request rid Hresp)
    as (d & es & is_ & ca' & _ & _ & _ & Hca' & Hrid & db3 & H3 & Hfst).
  rewrite Hca in Hca'. injection Hca' as <-.
  unfold closed_cash_counts. rewrite Hfst.
  destruct (Py.gt0 ca).
  - rewrite Hrid, (set_cash_actual_closed_new db db3 d _ _ _ ca H3).
    rewrite List.filter_app, List.map_app. unfold non_null.
    rewrite List.flat_map_app, Qsum_app. simpl. ring.
  - rewrite H3. rewrite List.filter_app, List.map_app. unfold non_null.
    rewrite List.flat_map_app, Qsum_app. simpl. ring.
Qed.

Lemma create_report_cash_balance_witness :
  snd (create_report (run_all (firstn 5 sample_calls) init_database)
         sample_request) = Created 1
  /\ exists s',
       get_account_balance
         (fst (create_report (run_all (firstn 5 sample_calls) init_database)
                 sample_request)) !! 1 = Some s'
       /\ (Summary.balance s' == 400)%Q.
Proof.
  assert (H : snd (create_report
                     (run_all (firstn 5 sample_calls) init_database)
                     sample_request) = Created 1)
    by (vm_compute; reflexivity).
  split; [exact H|].
  destruct (create_report_cash_balance _ sample_request 1 400%Q 1
              (Summary.mk "Cash desk" cash 0%Q 0%Q 0%Q 0%Q) H eq_refl
              ltac:(vm_compute; reflexivity) eq_refl)
    as (s' & Hs' & Hb).
  exists s'. split; [exact Hs'|]. rewrite Hb. vm_compute. reflexivity.
Defined.

(** ** Cash update and closing, composed *)

Lemma update_report_row_twice (db : database) (r1 r2 : Z)
  (f g h : DailyReport.t -> DailyReport.t) :
  (forall x, DailyReport.id (f x) = DailyReport.id x) ->
  (forall x,
      (if DailyReport.id x =? r2
       then g (if DailyReport.id x =? r1 then f x else x)
       else if DailyReport.id x =? r1 then f x else x) = h x) ->
  update_report_row (update_report_row db r1 f) r2 g
  = with_daily_reports db (List.map h (daily_reports db)).
Proof.
  intros Hf Hh. unfold update_report_row, with_daily_reports. simpl.
  f_equal. rewrite List.map_map. apply List.map_ext. intros x.
  rewrite <- Hh. destruct (DailyReport.id x =? r1); [rewrite Hf|];
    reflexivity.
Qed.

(** X14. [update_report_cash] and [close_report] can be called in either order,
    on the same or on different reports; a second [update_report_cash] on a
    report replaces what the first one stored, and closing a report again
    replaces its [closed_at]. *)
Theorem cash_update_and_close_compose (db : database) (r1 r2 : Z)
  (e a e' a' : Q) (b b' now now' : string) :
  close_report (update_report_cash db r1 e a b) now r2
  = update_report_cash (close_report db now r2) r1 e a b
  /\ update_report_cash (update_report_cash db r1 e a b) r1 e' a' b'
     = update_report_cash db r1 e' a' b'
  /\ close_report (close_report db now r2) now' r2 = close_report db now' r2.
Proof.
  unfold close_report, update_report_cash. split; [|split].
  - erewrite !update_report_row_twice; [reflexivity| | | |];
      try (intros x; reflexivity).
    intros x. simpl.
    destruct (DailyReport.id x =? r1), (DailyReport.id x =? r2); reflexivity.
  - erewrite update_report_row_twice; [reflexivity| |];
      try (intros x; reflexivity).
    intros x. simpl. destruct (DailyReport.id x =? r1); reflexivity.
  - erewrite update_report_row_twice; [reflexivity| |];
      try (intros x; reflexivity).
    intros x. simpl. destruct (DailyReport.id x =? r2); reflexivity.
Qed.

(** ** What the endpoint leaves behind *)

Lemma create_report_duplicate_again (db db' : database)
  (request : CreateReportRequest.t) (d : string) :
  CreateReportRequest.report_date request = Some d ->
  locations db' = locations db ->
  In (d, CreateReportRequest.location_id request)
     (List.map day_and_place (daily_reports db')) ->
  (exists l, In l (locations db)
             /\ Location.id l = CreateReportRequest.location_id request) ->
  snd (create_report db' request) = DuplicateReportError.
Proof.
  intros Hd El Hk Hl. rewrite <- El in Hl.
  destruct (get_daily_report_located db' d _ Hk Hl) as [r Hr].
  unfold create_report. rewrite Hd, Hr. reflexivity.
Qed.

Lemma create_report_shape (db : database) (request : CreateReportRequest.t) :
  (fst (create_report db request) = db
   /\ (snd (create_report db request) = DuplicateReportError
       \/ snd (create_report db request) = server_error Py.ValueError
       \/ exists msg, snd (create_report db request)
                      = server_error (Py.IntegrityError msg)))
  \/ (exists d,
         CreateReportRequest.report_date request = Some d
         /\ daily_reports (fst (create_report db request))
            = daily_reports db
              ++ [new_report db d (CreateReportRequest.location_id request)
                    (CreateReportRequest.total_sales request)
                    (CreateReportRequest.created_by request)]
         /\ snd (create_report db request) = server_error Py.TypeError
         /\ (CreateReportRequest.expenses request = None
             \/ CreateReportRequest.incomes request = None
             \/ CreateReportRequest.cash_actual request = None)
         /\ lines_so_far db (fst (create_report db request)) request
              (Sql.next_id (List.map DailyReport.id (daily_reports db))))
  \/ (exists rid, snd (create_report db request) = Created rid).
Proof.
  unfold create_report, lines_so_far.
  destruct (CreateReportRequest.report_date request) as [d|] eqn:Hd;
    [|left; split; [reflexivity|tauto]].
  destruct (get_daily_report db d _); [left; split; [reflexivity|tauto]|].
  unfold create_daily_report.
  destruct (existsb _ (daily_reports db)).
  { left. split; [reflexivity|]. right. right. eexists. reflexivity. }
  set (rid := Sql.next_id (List.map DailyReport.id (daily_reports db))).
  set (db0 := with_daily_reports db _).
  set (db1 := fold_left (post_payment rid) _ db0).
  assert (M1 : same_masters db0 db1)
    by exact (fold_masters (post_payment rid) _ (post_payment_masters rid) db0).
  destruct (post_payments_rows rid (CreateReportRequest.payments request) db0)
    as (P1 & P2 & prow & P3 & P4).
  fold db1 in P1, P2, P3.
  assert (P4' : Forall2 (payment_row_of db rid)
                  (List.filter (payable db)
                               (CreateReportRequest.payments request)) prow).
  { apply (Forall2_payment_row_masters db db0); [split; reflexivity|exact P4]. }
  destruct (CreateReportRequest.expenses request) as [es|].
  2:{ right. left. exists d. split; [reflexivity|]. split; [apply M1|].
      split; [reflexivity|]. split; [tauto|]. cbn [fst].
      split; [exists prow; split; [exact P3|exact P4']|].
      split; [exact P2|exact P1]. }
  set (db2 := fold_left (post_expense rid) es db1).
  assert (M2 : same_masters db0 db2).
  { eapply same_masters_trans; [exact M1|].
    exact (fold_masters (post_expense rid) es (post_expense_masters rid) db1). }
  destruct (post_lines_rows rid post_expense report_expenses es
              (post_expense_table rid) db1) as (erow & E1 & E2).
  fold db2 in E1.
  assert (E3 : report_payments db2 = report_payments db ++ prow).
  { unfold db2.
    rewrite (fold_frame (post_expense rid) report_payments es
               (fun db e => proj1 (post_expense_frame rid db e))).
    exact P3. }
  assert (E4 : non_sales_income db2 = non_sales_income db).
  { unfold db2.
    rewrite (fold_frame (post_expense rid) non_sales_income es
               (fun db e => proj2 (post_expense_frame rid db e))).
    exact P1. }
  assert (E5 : report_expenses db2 = report_expenses db ++ erow).
  { rewrite E1, P2. reflexivity. }
  destruct (CreateReportRequest.incomes request) as [is_|].
  2:{ right. left. exists d. split; [reflexivity|]. split; [apply M2|].
      split; [reflexivity|]. split; [tauto|]. cbn [fst].
      split; [exists prow; split; [exact E3|exact P4']|].
      split; [exists erow; split; [exact E5|exact E2]|exact E4]. }
  set (db3 := fold_left (post_income rid) is_ db2).
  assert (M3 : same_masters db0 db3).
  { eapply same_masters_trans; [exact M2|].
    exact (fold_masters (post_income rid) is_ (post_income_masters rid) db2). }
  destruct (post_lines_rows rid post_income non_sales_income is_
              (post_income_table rid) db2) as (irow & I1 & I2).
  fold db3 in I1.
  destruct (CreateReportRequest.cash_actual request) as [ca|].
  2:{ right. left. exists d. split; [reflexivity|]. split; [apply M3|].
      split; [reflexivity|]. split; [tauto|]. cbn [fst].
      split.
      - exists prow. split; [|exact P4']. unfold db3.
        rewrite (fold_frame (post_income rid) report_payments is_
                   (fun db e => proj1 (post_income_frame rid db e))).
        exact E3.
      - split.
        + exists erow. split; [|exact E2]. unfold db3.
          rewrite (fold_frame (post_income rid) report_expenses is_
                     (fun db e => proj2 (post_income_frame rid db e))).
          exact E5.
        + exists irow. split; [|exact I2]. rewrite I1, E4. reflexivity. }
  right. right. exists rid. reflexivity.
Qed.

(** X15. The endpoint by its answer, for a request whose integers bind. When
    it answers with the duplicate error, or with a server error for a date
    that does not parse or for the uniqueness constraint, the store is as
    before. When it answers with a server error for a null list of expenses
    or incomes or a null cash count, the new report is in the store all the
    same, open and without a cash count, together with the lines posted
    before the null value was met: the payments, the expenses when their
    list is there, the incomes when both lists are; and sending the request
    again is answered with the duplicate error when the location exists. *)
Theorem create_report_outcomes (db : database)
  (request : CreateReportRequest.t) :
  request_binds request = true ->
  (snd (create_report db request) = DuplicateReportError
   \/ snd (create_report db request) = server_error Py.ValueError
   \/ (exists msg, snd (create_report db request)
                  = server_error (Py.IntegrityError msg)) ->
   fst (create_report db request) = db)
  /\ (snd (create_report db request) = server_error Py.TypeError ->
      exists d,
        CreateReportRequest.report_date request = Some d
        /\ daily_reports (fst (create_report db request))
           = daily_reports db
             ++ [new_report db d (CreateReportRequest.location_id request)
                   (CreateReportRequest.total_sales request)
                   (CreateReportRequest.created_by request)]
        /\ (CreateReportRequest.expenses request = None
            \/ CreateReportRequest.incomes request = None
            \/ CreateReportRequest.cash_actual request = None)
        /\ lines_so_far db (fst (create_report db request)) request
             (Sql.next_id (List.map DailyReport.id (daily_reports db)))
        /\ accounts (fst (create_report db request)) = accounts db
        /\ payment_methods (fst (create_report db request))
           = payment_methods db
        /\ locations (fst (create_report db request)) = locations db
        /\ ((exists l, In l (locations db)
                       /\ Location.id l
                          = CreateReportRequest.location_id request) ->
            snd (create_report (fst (create_report db request)) request)
            = DuplicateReportError)).
Proof.
  intros _.
  pose proof (create_report_masters db request) as (Hacc & Hmeth & Hloc).
  destruct (create_report_shape db request)
    as [[Hfst Hresp]|[(d & Hd & Hr & Hresp & Hnull & Hlines)|[rid Hresp]]].
  - split; [intros _; exact Hfst|].
    intros H. destruct Hresp as [E|[E|[msg E]]]; rewrite E in H;
      discriminate H.
  - split.
    + intros [H|[H|[msg H]]]; rewrite Hresp in H; discriminate H.
    + intros _. exists d. split; [exact Hd|]. split; [exact Hr|].
      split; [exact Hnull|]. split; [exact Hlines|].
      split; [exact Hacc|]. split; [exact Hmeth|]. split; [exact Hloc|].
      apply (create_report_duplicate_again db _ request d Hd Hloc).
      rewrite Hr, List.map_app. apply List.in_or_app. right. left.
      reflexivity.
  - split.
    + intros [H|[H|[msg H]]]; rewrite Hresp in H; discriminate H.
    + intros H. rewrite Hresp in H. discriminate H.
Qed.

Lemma create_report_outcomes_witness :
  request_binds null_expenses_request = true
  /\ snd (create_report sample_store null_expenses_request)
     = server_error Py.TypeError
  /\ List.map DailyReport.id
       (daily_reports (fst (create_report sample_store null_expenses_request)))
     = [1; 2]
  /\ lines_so_far sample_store
       (fst (create_report sample_store null_expenses_request))
       null_expenses_request 2
  /\ snd (create_report
            (fst (create_report sample_store null_expenses_request))
            null_expenses_request)
     = DuplicateReportError.
Proof.
  assert (H : snd (create_report sample_store null_expenses_request)
              = server_error Py.TypeError) by (vm_compute; reflexivity).
  split; [reflexivity|]. split; [exact H|].
  destruct (proj2 (create_report_outcomes sample_store null_expenses_request
                     eq_refl) H)
    as (d & _ & Hr & _ & Hlines & _ & _ & _ & Hagain).
  split; [rewrite Hr; vm_compute; reflexivity|].
  split; [exact Hlines|].
  apply Hagain. eexists. split; [vm_compute; left; reflexivity|reflexivity].
Defined.

(** ** Looking a report up *)

(* In a reachable store the row that [get_daily_report] returns is the
   report of that day and place, joined with its location. *)
Lemma get_daily_report_iff (db : database) (d : string) (loc : Z)
  (dr : DailyReport.t) (l : Location.t) :
  reachable db ->
  get_daily_report db d loc = Some (dr, l)
  <-> In dr (daily_reports db) /\ day_and_place dr = (d, loc)
      /\ In l (locations db) /\ Location.id l = loc.
Proof.
  intros R. unfold get_daily_report. split.
  - intros H.
    assert (Hin : In (dr, l)
                    (List.filter
                       (fun r => same_day_and_place d loc (fst r))
                       (Sql.JOIN
                          (fun dr l => DailyReport.location_id dr
                                       =? Location.id l)
                          (daily_reports db) (locations db)))).
    { destruct (List.filter _ _); [discriminate H|].
      injection H as ->. left. reflexivity. }
    apply List.filter_In in Hin. destruct Hin as [Hj Hs].
    apply JOIN_In in Hj. destruct Hj as (Hdr & Hl & Hon).
    apply same_day_and_place_key in Hs. apply Z.eqb_eq in Hon.
    simpl in Hs. injection Hs as Hd Hloc.
    repeat split; try assumption; [unfold day_and_place|]; congruence.
  - intros (Hdr & Hkey & Hl & Hid).
    destruct (head_filter_Some
                (fun r : DailyReport.t * Location.t =>
                   same_day_and_place d loc (fst r))
                (Sql.JOIN
                   (fun dr l => DailyReport.location_id dr =? Location.id l)
                   (daily_reports db) (locations db)) (dr, l))
      as [[dr' l'] Hy].
    + apply JOIN_In. split; [exact Hdr|]. split; [exact Hl|].
      apply Z.eqb_eq. injection Hkey as _ Hloc. congruence.
    + apply same_day_and_place_key. exact Hkey.
    + rewrite Hy. f_equal.
      assert (Hin : In (dr', l')
                      (List.filter
                         (fun r => same_day_and_place d loc (fst r))
                         (Sql.JOIN
                            (fun dr l => DailyReport.location_id dr
                                         =? Location.id l)
                            (daily_reports db) (locations db)))).
      { destruct (List.filter _ _); [discriminate Hy|].
        injection Hy as ->. left. reflexivity. }
      apply List.filter_In in Hin. destruct Hin as [Hj Hs].
      apply JOIN_In in Hj. destruct Hj as (Hdr' & Hl' & Hon).
      apply same_day_and_place_key in Hs. apply Z.eqb_eq in Hon.
      simpl in Hs.
      assert (dr' = dr).
      { apply (NoDup_map_inj day_and_place (daily_reports db));
          [apply reachable_one_report_per_day_and_place, R| | |congruence];
          assumption. }
      subst dr'.
      assert (l' = l).
      { apply (NoDup_map_inj Location.id (locations db));
          [apply (reachable_primary_keys db R)| | |]; try assumption.
        injection Hkey as _ Hloc. congruence. }
      subst l'. reflexivity.
Qed.

(** X4. In a reachable store [get_daily_report] returns a report with the
    location it joins exactly when the report has the given date and
    location id and the location has that id; it returns nothing exactly
    when no report of that day and place has its location in the table of
    locations. *)
Theorem get_daily_report_found (db : database) (d : string) (loc : Z) :
  reachable db ->
  (forall (dr : DailyReport.t) (l : Location.t),
      get_daily_report db d loc = Some (dr, l)
      <-> In dr (daily_reports db) /\ day_and_place dr = (d, loc)
          /\ In l (locations db) /\ Location.id l = loc)
  /\ (get_daily_report db d loc = None
      <-> forall (dr : DailyReport.t) (l : Location.t),
            In dr (daily_reports db) -> day_and_place dr = (d, loc) ->
            In l (locations db) -> Location.id l <> loc).
Proof.
  intros R. split; [intros dr l; apply get_daily_report_iff, R|]. split.
  - intros HN dr l Hdr Hkey Hl Hid.
    assert (E : get_daily_report db d loc = Some (dr, l))
      by (apply get_daily_report_iff; tauto).
    rewrite HN in E. discriminate E.
  - intros H. destruct (get_daily_report db d loc) as [[dr l]|] eqn:E;
      [|reflexivity].
    apply get_daily_report_iff in E; [|exact R].
    destruct E as (Hdr & Hkey & Hl & Hid).
    destruct (H dr l Hdr Hkey Hl Hid).
Qed.

Lemma get_daily_report_found_witness :
  reachable sample_store
  /\ get_daily_report sample_store "2024-05-01" 1
     = Some (DailyReport.mk 1 "2024-05-01" 1 1000%Q None (Some 400%Q) None
               None st_closed (Some "telegram_user"%string) None,
             Location.mk 1 "Shop 1" "" true).
Proof.
  assert (R : reachable sample_store)
    by apply reachable_run_all, reachable_init.
  split; [exact R|].
  apply (proj1 (get_daily_report_found sample_store _ _ R)).
  split; [vm_compute; auto|]. split; [reflexivity|].
  split; [vm_compute; auto|reflexivity].
Defined.

(** X5. A report that [create_daily_report] has stored is the one that
    [get_daily_report] returns for its date and location, provided the
    location id is in the table of locations; otherwise the look-up
    returns nothing although the report is stored. *)
Theorem create_then_get_daily_report (db : database) (d : string) (loc : Z)
  (total : Q) (by_ : option string) (db' : database) (rid : Z) :
  reachable db ->
  create_daily_report db d loc total by_ = (db', Py.Ok rid) ->
  In (new_report db d loc total by_) (daily_reports db')
  /\ DailyReport.id (new_report db d loc total by_) = rid
  /\ (forall l, In l (locations db) -> Location.id l = loc ->
                get_daily_report db' d loc
                = Some (new_report db d loc total by_, l))
  /\ ((forall l, In l (locations db) -> Location.id l <> loc) ->
      get_daily_report db' d loc = None).
Proof.
  intros R Hc.
  assert (R' : reachable db').
  { change db' with (fst (db', Py.Ok rid : Py.result Z)). rewrite <- Hc.
    apply (reachable_run db (Create_daily_report d loc total by_)), R. }
  unfold create_daily_report in Hc.
  destruct (existsb _ (daily_reports db)); [discriminate Hc|].
  injection Hc as <- <-.
  assert (Hin : In (new_report db d loc total by_)
                   (daily_reports
                      (with_daily_reports db
                         (daily_reports db
                          ++ [new_report db d loc total by_])))).
  { simpl. apply List.in_or_app. right. left. reflexivity. }
  split; [exact Hin|]. split; [reflexivity|]. split.
  - intros l Hl Hid. apply (get_daily_report_iff _ _ _ _ _ R').
    repeat split; assumption.
  - intros Hno. apply get_daily_report_stray. exact Hno.
Qed.

Lemma create_then_get_daily_report_witness :
  reachable sample_store
  /\ exists db',
       create_daily_report sample_store "2024-06-01" 1 10%Q None
       = (db', Py.Ok 2)
       /\ get_daily_report db' "2024-06-01" 1
          = Some (new_report sample_store "2024-06-01" 1 10%Q None,
                  Location.mk 1 "Shop 1" "" true).
Proof.
  assert (R : reachable sample_store)
    by apply reachable_run_all, reachable_init.
  split; [exact R|].
  eexists. split; [vm_compute; reflexivity|].
  refine (proj1 (proj2 (proj2
            (create_then_get_daily_report sample_store "2024-06-01" 1 10%Q
               None _ 2 R _))) _ _ _).
  - vm_compute. reflexivity.
  - vm_compute. auto.
  - reflexivity.
Defined.

(** ** Listings *)

Lemma lex_total {A} (le1 eq1 le2 : A -> A -> bool) :
  (forall x y, eq1 x y = eq1 y x) ->
  (forall x y, le1 x y = true \/ le1 y x = true) ->
  (forall x y, le2 x y = true \/ le2 y x = true) ->
  forall x y, Sql.lex le1 eq1 le2 x y = true \/ Sql.lex le1 eq1 le2 y x = true.
Proof.
  intros Hsym H1 H2 x y. unfold Sql.lex. rewrite (Hsym y x).
  destruct (eq1 x y); [apply H2|apply H1].
Qed.

Lemma Sorted_weaken {A} (R R' : A -> A -> Prop) (l : list A) :
  (forall a b, R a b -> R' a b) -> Sorted R l -> Sorted R' l.
Proof.
  intros H. induction 1 as [|x l _ IH Hhd]; constructor; [exact IH|].
  destruct Hhd; constructor. apply H. assumption.
Qed.

Lemma account_type_eqb_eq (a b : account_type) :
  account_type_eqb a b = true <-> a = b.
Proof. destruct a, b; simpl; split; congruence. Qed.

(** X16. [get_accounts()] lists the active accounts, each row once, by account
    type ('bank' before 'cash') and then by name; [get_accounts(type)] lists
    the active accounts of that type by name; [get_locations()] lists the
    active locations by name. *)
Theorem active_listings (db : database) :
  (Permutation (get_accounts db None)
               (List.filter Account.is_active (accounts db))
   /\ Sorted accounts_in_order (get_accounts db None))
  /\ (forall ty,
         Permutation (get_accounts db (Some ty))
           (List.filter
              (fun a => Account.is_active a
                        && account_type_eqb (Account.account_type a) ty)
              (accounts db))
         /\ Sorted (fun a b => String.leb (Account.name a) (Account.name b)
                               = true)
                   (get_accounts db (Some ty)))
  /\ (Permutation (get_locations db)
                  (List.filter Location.is_active (locations db))
      /\ Sorted (fun a b => String.leb (Location.name a) (Location.name b)
                            = true)
                (get_locations db)).
Proof.
  split; [split|split].
  - apply ORDER_BY_perm.
  - unfold get_accounts.
    eapply Sorted_weaken; [|apply ORDER_BY_sorted].
    + intros a b. unfold Sql.lex, accounts_in_order.
      destruct (account_type_eqb _ _) eqn:E.
      * apply account_type_eqb_eq in E. intros H. rewrite E.
        split; [destruct (Account.account_type b); reflexivity|].
        intros _. exact H.
      * intros H. split; [exact H|]. intros Heq.
        apply account_type_eqb_eq in Heq. congruence.
    + apply lex_total.
      * intros x y.
        destruct (Account.account_type x), (Account.account_type y);
          reflexivity.
      * intros x y.
        destruct (Account.account_type x), (Account.account_type y);
          simpl; tauto.
      * intros x y. apply String.leb_total.
  - intros ty. split; [apply ORDER_BY_perm|].
    apply (ORDER_BY_sorted account_name_leb).
    intros x y. apply String.leb_total.
  - split; [apply ORDER_BY_perm|].
    apply (ORDER_BY_sorted
             (fun a b => String.leb (Location.name a) (Location.name b))).
    intros x y. apply String.leb_total.
Qed.

Lemma method_type_eqb_eq (a b : method_type) :
  method_type_eqb a b = true <-> a = b.
Proof. destruct a, b; simpl; split; congruence. Qed.

Lemma method_order_total (x y : PaymentMethod.t * option Account.t)
  (le2 : PaymentMethod.t -> PaymentMethod.t -> bool) :
  (forall a b, le2 a b = true \/ le2 b a = true) ->
  Sql.lex method_order_leb method_order_eqb le2 (fst x) (fst y) = true
  \/ Sql.lex method_order_leb method_order_eqb le2 (fst y) (fst x) = true.
Proof.
  intros H2. apply lex_total.
  - intros a b. unfold method_order_eqb. apply Z.eqb_sym.
  - intros a b. unfold method_order_leb. rewrite !Z.leb_le. lia.
  - exact H2.
Qed.

Lemma method_order_le (le2 : PaymentMethod.t -> PaymentMethod.t -> bool)
  (a b : PaymentMethod.t) :
  Sql.lex method_order_leb method_order_eqb le2 a b = true ->
  PaymentMethod.display_order a <= PaymentMethod.display_order b.
Proof.
  unfold Sql.lex, method_order_eqb, method_order_leb.
  destruct (_ =? _) eqn:E.
  - apply Z.eqb_eq in E. lia.
  - intros H. apply Z.leb_le in H. exact H.
Qed.

Lemma Sorted_le_strong {A} (f : A -> Z) (l : list A) :
  Sorted (fun x y => f x <= f y) l -> StronglySorted (fun x y => f x <= f y) l.
Proof.
  apply Sorted_StronglySorted. intros x y z. lia.
Qed.

Lemma get_payment_methods_perm (db : database) (ty : option method_type) :
  List.NoDup (List.map Account.id (accounts db)) ->
  Permutation (List.map fst (get_payment_methods db ty))
    (List.filter
       (fun m => PaymentMethod.is_active m
                 && match ty with
                    | Some t => method_type_eqb (PaymentMethod.method_type m) t
                    | None => true
                    end)
       (payment_methods db)).
Proof.
  intros K.
  assert (J : List.map fst
                (Sql.LEFT_JOIN
                   (fun pm a => PaymentMethod.default_account_id pm
                                =? Account.id a)
                   (payment_methods db) (accounts db))
              = payment_methods db).
  { apply LEFT_JOIN_fst. intros pm _.
    apply (filter_key_at_most_one Account.id
             (PaymentMethod.default_account_id pm)), K. }
  unfold get_payment_methods. destruct ty as [t|].
  - rewrite (Permutation_map _ (ORDER_BY_perm _ _)).
    rewrite (map_filter_comm fst
               (fun m => PaymentMethod.is_active m
                         && method_type_eqb (PaymentMethod.method_type m) t)).
    rewrite J. reflexivity.
  - rewrite (Permutation_map _ (ORDER_BY_perm _ _)).
    rewrite (map_filter_comm fst PaymentMethod.is_active).
    rewrite J. apply Permutation_refl'. apply List.filter_ext.
    intros m. rewrite andb_true_r. reflexivity.
Qed.

Lemma get_payment_methods_sorted (db : database) (ty : option method_type) :
  StronglySorted
    (fun x y => PaymentMethod.display_order (fst x)
                <= PaymentMethod.display_order (fst y))
    (get_payment_methods db ty).
Proof.
  unfold get_payment_methods. destruct ty as [t|].
  - apply (Sorted_le_strong
             (fun x : PaymentMethod.t * option Account.t =>
                PaymentMethod.display_order (fst x))).
    eapply Sorted_weaken; [|apply ORDER_BY_sorted].
    + intros a b. apply method_order_le.
    + intros x y. apply method_order_total.
      intros a b. apply String.leb_total.
  - apply (Sorted_le_strong
             (fun x : PaymentMethod.t * option Account.t =>
                PaymentMethod.display_order (fst x))).
    eapply Sorted_weaken; [|apply ORDER_BY_sorted].
    + intros a b. apply method_order_le.
    + intros x y. apply method_order_total. apply lex_total.
      * intros a b.
        destruct (PaymentMethod.method_type a),
          (PaymentMethod.method_type b); reflexivity.
      * intros a b.
        destruct (PaymentMethod.method_type a),
          (PaymentMethod.method_type b); simpl; tauto.
      * intros a b. apply String.leb_total.
Qed.

(** X17. With unique account ids, [get_payment_methods] lists the active
    payment methods (of the requested type, when one is given), each row
    once, in ascending [display_order], and joins each with the account that
    its [default_account_id] names, or with NULL when there is no such
    account. *)
Theorem payment_methods_listing (db : database) (ty : option method_type) :
  List.NoDup (List.map Account.id (accounts db)) ->
  Permutation (List.map fst (get_payment_methods db ty))
    (List.filter
       (fun m => PaymentMethod.is_active m
                 && match ty with
                    | Some t => method_type_eqb (PaymentMethod.method_type m) t
                    | None => true
                    end)
       (payment_methods db))
  /\ StronglySorted
       (fun x y => PaymentMethod.display_order (fst x)
                   <= PaymentMethod.display_order (fst y))
       (get_payment_methods db ty)
  /\ Forall (fun row => default_account_of db (fst row) (snd row))
            (get_payment_methods db ty).
Proof.
  intros K.
  split; [apply get_payment_methods_perm, K|].
  split; [apply get_payment_methods_sorted|].
  assert (D : forall row,
             In row (Sql.LEFT_JOIN
                       (fun pm a => PaymentMethod.default_account_id pm
                                    =? Account.id a)
                       (payment_methods db) (accounts db)) ->
             default_account_of db (fst row) (snd row)).
  { intros [pm oa] Hin. apply LEFT_JOIN_In in Hin. destruct Hin as [_ H].
    unfold default_account_of. simpl. destruct oa as [acc|].
    - destruct H as [Hin Hon]. apply Z.eqb_eq in Hon. tauto.
    - intros acc Hacc. apply Z.eqb_neq. apply H. exact Hacc. }
  apply List.Forall_forall. intros row Hin.
  unfold get_payment_methods in Hin. destruct ty as [t|];
    apply ORDER_BY_In, List.filter_In in Hin; apply D, Hin.
Qed.

Lemma payment_methods_listing_witness :
  List.NoDup (List.map Account.id (accounts sample_store))
  /\ Permutation
       (List.map fst (get_payment_methods sample_store None))
       (List.filter
          (fun m => PaymentMethod.is_active m && true)
          (payment_methods sample_store)).
Proof.
  assert (K : List.NoDup (List.map Account.id (accounts sample_store))).
  { apply reachable_primary_keys, reachable_run_all, reachable_init. }
  split; [exact K|].
  exact (proj1 (payment_methods_listing sample_store None K)).
Defined.

(** ** Reordering the payment methods *)

Lemma update_order_from_methods (ids : list Z) (n : Z) (db : database) :
  payment_methods (update_payment_methods_order_from n ids db)
  = List.map
      (fun m => match last_position n (PaymentMethod.id m) ids with
                | Some k => with_display_order m k
                | None => m
                end)
      (payment_methods db).
Proof.
  revert n db. induction ids as [|j rest IH]; intros n db;
    cbn [update_payment_methods_order_from last_position].
  - symmetry. apply List.map_id.
  - rewrite IH. unfold update_method_row. cbn [payment_methods
      with_payment_methods]. rewrite List.map_map. apply List.map_ext.
    intros m. destruct (PaymentMethod.id m =? j) eqn:E.
    + cbn [PaymentMethod.id]. rewrite (Z.eqb_sym j), E.
      destruct (last_position (n + 1) (PaymentMethod.id m) rest);
        reflexivity.
    + rewrite (Z.eqb_sym j), E.
      destruct (last_position (n + 1) (PaymentMethod.id m) rest);
        reflexivity.
Qed.

(* The loop of [update_payment_methods_order] as one pass over the table. *)
Lemma update_payment_methods_order_store (db : database)
  (ordered_ids : list Z) :
  update_payment_methods_order db ordered_ids
  = with_payment_methods db
      (List.map
         (fun m => match last_position 0 (PaymentMethod.id m) ordered_ids with
                   | Some k => with_display_order m k
                   | None => m
                   end)
         (payment_methods db)).
Proof.
  unfold update_payment_methods_order.
  rewrite <- update_order_from_methods.
  generalize 0. revert db.
  induction ordered_ids as [|j rest IH]; intros db n;
    cbn [update_payment_methods_order_from].
  - destruct db. reflexivity.
  - rewrite IH. unfold with_payment_methods, update_method_row. simpl.
    reflexivity.
Qed.

Lemma last_position_range (ids : list Z) (n i k : Z) :
  last_position n i ids = Some k ->
  n <= k < n + Z.of_nat (length ids) /\ In i ids.
Proof.
  revert n. induction ids as [|j rest IH]; intros n; simpl; [discriminate|].
  destruct (last_position (n + 1) i rest) as [k'|] eqn:E.
  - intros [= <-]. apply IH in E. split; [lia|tauto].
  - destruct (j =? i) eqn:Ej; [|discriminate]. intros [= <-].
    apply Z.eqb_eq in Ej. split; [lia|tauto].
Qed.

Lemma last_position_In (ids : list Z) (n i : Z) :
  In i ids -> exists k, last_position n i ids = Some k.
Proof.
  revert n. induction ids as [|j rest IH]; intros n; simpl; [tauto|].
  intros H. destruct (last_position (n + 1) i rest) as [k'|] eqn:E;
    [eauto|].
  destruct H as [->|H].
  - rewrite Z.eqb_refl. eauto.
  - destruct (IH (n + 1) H) as [k Hk]. congruence.
Qed.

Lemma last_position_nth (ids : list Z) (n i : Z) (k : nat) :
  List.NoDup ids -> nth_error ids k = Some i ->
  last_position n i ids = Some (n + Z.of_nat k).
Proof.
  intros ND. revert n k.
  induction ND as [|j rest Hnotin ND IH]; intros n k Hk.
  - destruct k; discriminate Hk.
  - destruct k as [|k]; simpl in Hk; cbn [last_position].
    + injection Hk as ->.
      destruct (last_position (n + 1) i rest) as [k'|] eqn:E.
      * apply last_position_range in E. tauto.
      * rewrite Z.eqb_refl. f_equal. lia.
    + rewrite (IH (n + 1) k Hk). f_equal. lia.
Qed.

(** X18. [update_payment_methods_order] gives each payment method whose id
    is in the list the index of the last place of its id in the list as
    [display_order], changes nothing else of it, and leaves the payment
    methods whose id is not in the list, and all other tables, as they are.
    When the list has no id twice, the method whose id stands at index [k]
    of the list gets [display_order] [k]. *)
Theorem update_payment_methods_order_effect (db : database)
  (ordered_ids : list Z) :
  update_payment_methods_order db ordered_ids
  = with_payment_methods db
      (List.map
         (fun m => match last_position 0 (PaymentMethod.id m) ordered_ids with
                   | Some k => with_display_order m k
                   | None => m
                   end)
         (payment_methods db))
  /\ (List.NoDup ordered_ids ->
      forall (k : nat) (m : PaymentMethod.t),
        nth_error ordered_ids k = Some (PaymentMethod.id m) ->
        In m (payment_methods db) ->
        In (with_display_order m (Z.of_nat k))
           (payment_methods (update_payment_methods_order db ordered_ids))).
Proof.
  split; [apply update_payment_methods_order_store|].
  intros ND k m Hk Hin. rewrite update_payment_methods_order_store.
  unfold with_payment_methods. cbn [payment_methods].
  apply List.in_map_iff. exists m. split; [|exact Hin].
  rewrite (last_position_nth ordered_ids 0 _ k ND Hk). reflexivity.
Qed.

Lemma update_payment_methods_order_effect_witness :
  List.NoDup [3; 1; 4]
  /\ forall m : PaymentMethod.t,
       In m (payment_methods three_methods_store) ->
       PaymentMethod.id m = 1 ->
       In (with_display_order m 1)
          (payment_methods
             (update_payment_methods_order three_methods_store [3; 1; 4])).
Proof.
  assert (ND : List.NoDup [3; 1; 4]).
  { repeat constructor; simpl; intuition lia. }
  split; [exact ND|]. intros m Hin Hid.
  apply (proj2 (update_payment_methods_order_effect three_methods_store
                  [3; 1; 4]) ND 1%nat m);
    [simpl; rewrite Hid; reflexivity|exact Hin].
Defined.

Lemma sorted_by_position (B : Type) (key pos : B -> Z) (ids : list Z) :
  List.NoDup ids ->
  forall (n : Z) (l : list B),
    Permutation (List.map key l) ids ->
    (forall x, In x l -> last_position n (key x) ids = Some (pos x)) ->
    StronglySorted (fun x y => pos x <= pos y) l ->
    List.map key l = ids.
Proof.
  induction 1 as [|j rest Hnotin Hnd IH]; intros n l Hperm Hpos Hsort.
  - apply Permutation_sym, Permutation_nil in Hperm. exact Hperm.
  - destruct l as [|x l].
    { apply Permutation_nil in Hperm. discriminate Hperm. }
    assert (Hrest : forall i, In i rest ->
                      exists k, last_position (n + 1) i rest = Some k
                                /\ n + 1 <= k).
    { intros i Hi. destruct (last_position_In rest (n + 1) i Hi) as [k Hk].
      exists k. split; [exact Hk|].
      apply last_position_range in Hk. lia. }
    assert (Hj : last_position n j (j :: rest) = Some n).
    { simpl. destruct (last_position (n + 1) j rest) as [k|] eqn:E.
      - apply last_position_range in E. tauto.
      - rewrite Z.eqb_refl. reflexivity. }
    assert (Hx : key x = j).
    { destruct (Z.eq_dec (key x) j) as [E|Hne]; [exact E|]. exfalso.
      assert (Hjin : In j (List.map key (x :: l))).
      { apply (Permutation_in _ (Permutation_sym Hperm)). left.
        reflexivity. }
      destruct Hjin as [E|Hjin]; [congruence|].
      apply List.in_map_iff in Hjin. destruct Hjin as (y & Hy & Hyin).
      pose proof (proj2 (StronglySorted_inv Hsort)) as Hall.
      rewrite List.Forall_forall in Hall. specialize (Hall y Hyin).
      pose proof (Hpos y (or_intror Hyin)) as Py. rewrite Hy, Hj in Py.
      injection Py as Py.
      pose proof (Hpos x (or_introl eq_refl)) as Px.
      assert (Hxin : In (key x) rest).
      { assert (H : In (key x) (j :: rest)).
        { apply (Permutation_in _ Hperm). left. reflexivity. }
        destruct H as [E|H]; [congruence|exact H]. }
      destruct (Hrest _ Hxin) as (k & Hk & Hge).
      simpl in Px. rewrite Hk in Px. injection Px as Px. lia. }
    simpl. rewrite Hx. f_equal.
    simpl in Hperm. rewrite Hx in Hperm.
    apply Permutation_cons_inv in Hperm.
    apply (IH (n + 1)).
    + exact Hperm.
    + intros y Hy. pose proof (Hpos y (or_intror Hy)) as Py.
      assert (Hyin : In (key y) rest).
      { apply (Permutation_in _ Hperm). apply List.in_map. exact Hy. }
      destruct (Hrest _ Hyin) as (k & Hk & _).
      simpl in Py. rewrite Hk in Py. congruence.
    + exact (proj1 (StronglySorted_inv Hsort)).
Qed.

(** X19. Reordering and listing. When the list given to
    [update_payment_methods_order] names every active payment method once
    and nothing else, [get_payment_methods()] then lists the methods in the
    order of that list. *)
Theorem reorder_then_list (db : database) (ordered_ids : list Z) :
  List.NoDup (List.map Account.id (accounts db)) ->
  Permutation ordered_ids
    (List.map PaymentMethod.id
       (List.filter PaymentMethod.is_active (payment_methods db))) ->
  List.NoDup ordered_ids ->
  List.map (fun row => PaymentMethod.id (fst row))
    (get_payment_methods (update_payment_methods_order db ordered_ids) None)
  = ordered_ids.
Proof.
  intros Ka Hperm Hnd.
  set (g := fun m => match last_position 0 (PaymentMethod.id m) ordered_ids
                     with
                     | Some k => with_display_order m k
                     | None => m
                     end).
  set (db' := update_payment_methods_order db ordered_ids).
  assert (Hdb' : db' = with_payment_methods db
                         (List.map g (payment_methods db)))
    by apply update_payment_methods_order_store.
  assert (Ka' : List.NoDup (List.map Account.id (accounts db')))
    by (rewrite Hdb'; exact Ka).
  pose proof (get_payment_methods_perm db' None Ka') as Hl.
  cbv beta iota in Hl.
  pose proof (get_payment_methods_sorted db' None) as Hs.
  assert (Hact : List.filter
                   (fun m => PaymentMethod.is_active m && true)
                   (payment_methods db')
                 = List.map g
                     (List.filter PaymentMethod.is_active
                                  (payment_methods db))).
  { rewrite Hdb'. cbn [payment_methods with_payment_methods].
    rewrite (List.filter_ext _ PaymentMethod.is_active)
      by (intros m; apply andb_true_r).
    rewrite <- (map_filter_comm g PaymentMethod.is_active).
    f_equal. apply List.filter_ext. intros m.
    unfold g. destruct (last_position _ _ _); reflexivity. }
  rewrite Hact in Hl.
  assert (Hgid : forall m, PaymentMethod.id (g m) = PaymentMethod.id m).
  { intros m. unfold g. destruct (last_position _ _ _); reflexivity. }
  apply (sorted_by_position _ (fun row => PaymentMethod.id (fst row))
           (fun row => PaymentMethod.display_order (fst row))
           ordered_ids Hnd 0).
  - rewrite <- (List.map_map fst PaymentMethod.id).
    rewrite (Permutation_map PaymentMethod.id Hl).
    rewrite List.map_map.
    rewrite (List.map_ext _ PaymentMethod.id Hgid).
    apply Permutation_sym. exact Hperm.
  - intros row Hrow.
    assert (Hin : In (fst row)
                     (List.map g (List.filter PaymentMethod.is_active
                                    (payment_methods db)))).
    { apply (Permutation_in _ Hl). apply List.in_map. exact Hrow. }
    apply List.in_map_iff in Hin. destruct Hin as (m & Hm & Hmin).
    rewrite <- Hm. rewrite Hgid.
    assert (Hid : In (PaymentMethod.id m) ordered_ids).
    { apply (Permutation_in _ (Permutation_sym Hperm)).
      apply List.in_map. exact Hmin. }
    destruct (last_position_In ordered_ids 0 _ Hid) as [k Hk].
    unfold g. rewrite Hk. reflexivity.
  - exact Hs.
Qed.

Lemma reorder_then_list_witness :
  List.NoDup (List.map Account.id (accounts three_methods_store))
  /\ Permutation [4; 1; 3]
       (List.map PaymentMethod.id
          (List.filter PaymentMethod.is_active
                       (payment_methods three_methods_store)))
  /\ List.map (fun row => PaymentMethod.id (fst row))
       (get_payment_methods
          (update_payment_methods_order three_methods_store [4; 1; 3]) None)
     = [4; 1; 3].
Proof.
  assert (K : List.NoDup (List.map Account.id (accounts three_methods_store))).
  { apply reachable_primary_keys, reachable_run_all, reachable_init. }
  assert (P : Permutation [4; 1; 3]
                (List.map PaymentMethod.id
                   (List.filter PaymentMethod.is_active
                                (payment_methods three_methods_store)))).
  { vm_compute. apply Permutation_sym.
    apply (perm_trans (perm_swap 3 1 [4])).
    apply (perm_trans (perm_skip 3 (perm_swap 4 1 []))).
    apply (perm_trans (perm_swap 4 3 [1])).
    apply perm_skip, perm_swap. }
  split; [exact K|]. split; [exact P|].
  apply (reorder_then_list three_methods_store [4; 1; 3] K P).
  repeat constructor; simpl; intuition discriminate.
Defined.

(** ** Hiding and soft-deleting a payment method *)

Lemma bool_eq_by_true (a b : bool) : (a = true <-> b = true) -> a = b.
Proof. destruct a, b; intros [H1 H2]; auto; symmetry; auto. Qed.

Lemma update_method_row_In (db : database) (i : Z)
  (f : PaymentMethod.t -> PaymentMethod.t) (m' : PaymentMethod.t) :
  In m' (payment_methods (update_method_row db i f))
  <-> exists m, In m (payment_methods db)
                /\ m' = if PaymentMethod.id m =? i then f m else m.
Proof.
  unfold update_method_row. simpl. rewrite List.in_map_iff. split.
  - intros (m & E & Hin). exists m. split; [exact Hin|]. symmetry. exact E.
  - intros (m & Hin & E). exists m. split; [symmetry; exact E|exact Hin].
Qed.

(** X20. [is_visible] is written and never read: hiding or showing a payment
    method does not change which payment entries the endpoint posts.
    Soft-deleting a payment method makes the endpoint pass over the entries
    with its id and changes nothing for the entries of other methods. *)
Theorem hidden_and_deleted_methods (db : database) (method_id : Z)
  (is_visible : bool) (p : PaymentEntry.t) :
  payable (toggle_payment_method_visibility db method_id is_visible) p
  = payable db p
  /\ payable (delete_payment_method db method_id) p
     = payable db p && negb (PaymentEntry.method_id p =? method_id).
Proof.
  split.
  - apply bool_eq_by_true. rewrite !payable_spec.
    unfold toggle_payment_method_visibility. split.
    + intros (Hpos & m' & Hin & Hid & Hact). split; [exact Hpos|].
      apply update_method_row_In in Hin. destruct Hin as (m & Hin & ->).
      exists m. split; [exact Hin|].
      destruct (PaymentMethod.id m =? method_id); simpl in *; tauto.
    + intros (Hpos & m & Hin & Hid & Hact). split; [exact Hpos|].
      eexists. split; [apply update_method_row_In; exists m; split;
                       [exact Hin|reflexivity]|].
      destruct (PaymentMethod.id m =? method_id); simpl; tauto.
  - apply bool_eq_by_true.
    rewrite andb_true_iff, negb_true_iff, Z.eqb_neq, !payable_spec.
    unfold delete_payment_method. split.
    + intros (Hpos & m' & Hin & Hid & Hact).
      apply update_method_row_In in Hin. destruct Hin as (m & Hin & ->).
      destruct (PaymentMethod.id m =? method_id) eqn:E;
        [discriminate Hact|].
      apply Z.eqb_neq in E. split; [|congruence].
      split; [exact Hpos|]. exists m. tauto.
    + intros [(Hpos & m & Hin & Hid & Hact) Hne]. split; [exact Hpos|].
      exists m. split; [|tauto].
      apply update_method_row_In. exists m. split; [exact Hin|].
      assert (E : (PaymentMethod.id m =? method_id) = false)
        by (apply Z.eqb_neq; congruence).
      rewrite E. reflexivity.
Qed.

(** ** Balances and the payment methods *)

Lemma balance_frame (db db' : database) :
  accounts db' = accounts db ->
  daily_reports db' = daily_reports db ->
  report_payments db' = report_payments db ->
  non_sales_income db' = non_sales_income db ->
  report_expenses db' = report_expenses db ->
  get_account_balance db' = get_account_balance db.
Proof.
  intros Ea Er Ep Ei Ee. unfold get_account_balance, get_accounts.
  rewrite Ea.
  assert (S : forall acc, account_summary db' acc = account_summary db acc).
  { intros acc. unfold account_summary. rewrite Er, Ep, Ei, Ee.
    reflexivity. }
  generalize (∅ : gmap Z Summary.t).
  induction (Sql.ORDER_BY _ _) as [|acc l IH]; intros m; simpl;
    [reflexivity|]. rewrite S. apply IH.
Qed.

(** X21. The balances are computed from the stored lines and reports only: no
    call that writes the payment methods or the locations (a new commission
    or default account, a soft delete, a new order) changes the result of
    [get_account_balance]. *)
Theorem balances_keep_under_method_calls (db : database) (c : call) :
  writes_methods_or_locations c = true ->
  get_account_balance (run db c) = get_account_balance db.
Proof.
  destruct c; simpl; try discriminate; intros _;
    try (apply balance_frame; reflexivity);
    try (unfold add_payment_method, update_payment_method, add_location,
           update_location;
         match goal with |- context [if ?b then _ else _] => destruct b end;
         apply balance_frame; reflexivity).
  change (get_account_balance (update_payment_methods_order db ordered_ids)
          = get_account_balance db).
  rewrite update_payment_methods_order_store.
  apply balance_frame; reflexivity.
Qed.

Lemma balances_keep_under_method_calls_witness :
  get_account_balance
    (run sample_store (Update_payment_method 1 "Terminal" terminal 50%Q 3 true))
  = get_account_balance sample_store.
Proof.
  apply (balances_keep_under_method_calls sample_store
           (Update_payment_method 1 "Terminal" terminal 50%Q 3 true)).
  reflexivity.
Defined.

(** ** Unique names *)

Lemma map_update_proj {A B} (key : A -> Z) (proj : A -> B) (k : Z)
  (f : A -> A) (l : list A) :
  (forall x, proj (f x) = proj x) ->
  List.map proj (List.map (fun x => if key x =? k then f x else x) l)
  = List.map proj l.
Proof.
  intros Hf. rewrite List.map_map. apply List.map_ext. intros x.
  destruct (key x =? k); [apply Hf|reflexivity].
Qed.

Lemma existsb_false_forall {A} (p : A -> bool) (l : list A) :
  existsb p l = false -> forall x, In x l -> p x = false.
Proof.
  intros H x Hin. destruct (p x) eqn:E; [|reflexivity].
  assert (existsb p l = true) by (apply existsb_exists; eauto). congruence.
Qed.

Lemma NoDup_names_snoc {A} (name : A -> string) (l : list A) (x : A) :
  existsb (fun a => String.eqb (name a) (name x)) l = false ->
  List.NoDup (List.map name l) ->
  List.NoDup (List.map name (l ++ [x])).
Proof.
  intros E H. rewrite List.map_app. apply NoDup_snoc; [exact H|].
  intros Hin. apply List.in_map_iff in Hin. destruct Hin as (a & Ha & Hin).
  apply (existsb_false_forall _ _ E) in Hin.
  rewrite Ha, String.eqb_refl in Hin. discriminate Hin.
Qed.

Lemma update_keeps_names {A} (key : A -> Z) (name : A -> string) (k : Z)
  (n : string) (f : A -> A) (l : list A) :
  (forall x, name (f x) = n) ->
  List.NoDup (List.map key l) ->
  List.NoDup (List.map name l) ->
  existsb (fun a => key a =? k) l
  && existsb (fun a => negb (key a =? k) && String.eqb (name a) n) l
  = false ->
  List.NoDup
    (List.map name (List.map (fun x => if key x =? k then f x else x) l)).
Proof.
  intros Hf Kk Kn Hc. apply andb_false_iff in Hc. destruct Hc as [Hc|Hc].
  - rewrite (List.map_ext_in _ (fun x => x)), List.map_id; [exact Kn|].
    intros x Hin. rewrite (existsb_false_forall _ _ Hc x Hin). reflexivity.
  - assert (Hother : forall z, In z l -> key z <> k -> name z <> n).
    { intros z Hz Hk Hname. apply (existsb_false_forall _ _ Hc) in Hz.
      apply Z.eqb_neq in Hk. rewrite Hk in Hz. simpl in Hz.
      rewrite Hname, String.eqb_refl in Hz. discriminate Hz. }
    clear Hc. induction l as [|y t IH]; simpl; [constructor|].
    inversion Kk as [|? ? Hknot Kk']; subst.
    inversion Kn as [|? ? Hnnot Kn']; subst.
    destruct (key y =? k) eqn:E.
    + apply Z.eqb_eq in E.
      rewrite (List.map_ext_in _ (fun x => x)), List.map_id.
      * constructor; [|exact Kn']. rewrite Hf. intros Hin.
        apply List.in_map_iff in Hin. destruct Hin as (z & Hz & Hzin).
        apply (Hother z (or_intror Hzin)); [|exact Hz].
        intros Hk. apply Hknot. rewrite E, <- Hk. apply List.in_map.
        exact Hzin.
      * intros x Hin.
        assert (Hx : (key x =? k) = false).
        { apply Z.eqb_neq. intros Hk. apply Hknot. rewrite E, <- Hk.
          apply List.in_map. exact Hin. }
        rewrite Hx. reflexivity.
    + apply Z.eqb_neq in E. constructor.
      * intros Hin. rewrite List.map_map in Hin.
        apply List.in_map_iff in Hin. destruct Hin as (z & Hz & Hzin).
        destruct (key z =? k).
        -- rewrite Hf in Hz.
           apply (Hother y (or_introl eq_refl) E). congruence.
        -- apply Hnnot. rewrite <- Hz. apply List.in_map. exact Hzin.
      * apply IH; try assumption.
        intros z Hz. apply Hother. right. exact Hz.
Qed.

Lemma run_unique_names (db : database) (c : call) :
  primary_keys db -> unique_names db -> unique_names (run db c).
Proof.
  intros (Ka & Km & Kl & _) (Na & Nm & Nl).
  split; [|split].
  - destruct c; cbn [run]; try exact Na.
    + unfold add_account. rewrite fst_if.
      destruct (existsb _ _) eqn:E; [exact Na|]. simpl.
      apply (NoDup_names_snoc Account.name _
               (Account.mk _ name ty true)); [exact E|exact Na].
    + unfold update_account. rewrite fst_if.
      destruct (_ && _) eqn:E; [exact Na|]. simpl.
      apply (update_keeps_names Account.id Account.name account_id name);
        [reflexivity|exact Ka|exact Na|exact E].
    + unfold delete_account. simpl.
      rewrite (map_update_proj Account.id Account.name); [exact Na|].
      reflexivity.
    + unfold add_payment_method. rewrite fst_if.
      destruct (existsb _ _); exact Na.
    + unfold update_payment_method. rewrite fst_if.
      destruct (_ && _); exact Na.
    + rewrite update_payment_methods_order_store. exact Na.
    + unfold add_location. rewrite fst_if. destruct (existsb _ _); exact Na.
    + unfold update_location. rewrite fst_if. destruct (_ && _); exact Na.
    + unfold create_daily_report. rewrite fst_if.
      destruct (existsb _ _); exact Na.
    + rewrite (proj1 (create_report_masters db request)). exact Na.
  - destruct c; cbn [run]; try exact Nm.
    + unfold add_account. rewrite fst_if. destruct (existsb _ _); exact Nm.
    + unfold update_account. rewrite fst_if. destruct (_ && _); exact Nm.
    + unfold add_payment_method. rewrite fst_if.
      destruct (existsb _ _) eqn:E; [exact Nm|]. simpl.
      apply (NoDup_names_snoc PaymentMethod.name _
               (PaymentMethod.mk _ name ty account_id commission true true 0));
        [exact E|exact Nm].
    + unfold update_payment_method. rewrite fst_if.
      destruct (_ && _) eqn:E; [exact Nm|]. unfold update_method_row. simpl.
      apply (update_keeps_names PaymentMethod.id PaymentMethod.name method_id
               name); [reflexivity|exact Km|exact Nm|exact E].
    + unfold delete_payment_method, update_method_row. simpl.
      rewrite (map_update_proj PaymentMethod.id PaymentMethod.name);
        [exact Nm|reflexivity].
    + unfold toggle_payment_method_visibility, update_method_row. simpl.
      rewrite (map_update_proj PaymentMethod.id PaymentMethod.name);
        [exact Nm|reflexivity].
    + unfold update_payment_method_default_account, update_method_row. simpl.
      rewrite (map_update_proj PaymentMethod.id PaymentMethod.name);
        [exact Nm|reflexivity].
    + rewrite update_payment_methods_order_store. simpl.
      rewrite List.map_map.
      rewrite (List.map_ext _ PaymentMethod.name); [exact Nm|].
      intros m. destruct (last_position _ _ _); reflexivity.
    + unfold add_location. rewrite fst_if. destruct (existsb _ _); exact Nm.
    + unfold update_location. rewrite fst_if. destruct (_ && _); exact Nm.
    + unfold create_daily_report. rewrite fst_if.
      destruct (existsb _ _); exact Nm.
    + rewrite (proj1 (proj2 (create_report_masters db request))). exact Nm.
  - destruct c; cbn [run]; try exact Nl.
    + unfold add_account. rewrite fst_if. destruct (existsb _ _); exact Nl.
    + unfold update_account. rewrite fst_if. destruct (_ && _); exact Nl.
    + unfold add_payment_method. rewrite fst_if.
      destruct (existsb _ _); exact Nl.
    + unfold update_payment_method. rewrite fst_if.
      destruct (_ && _); exact Nl.
    + rewrite update_payment_methods_order_store. exact Nl.
    + unfold add_location. rewrite fst_if.
      destruct (existsb _ _) eqn:E; [exact Nl|]. simpl.
      apply (NoDup_names_snoc Location.name _
               (Location.mk _ name address true)); [exact E|exact Nl].
    + unfold update_location. rewrite fst_if.
      destruct (_ && _) eqn:E; [exact Nl|]. simpl.
      apply (update_keeps_names Location.id Location.name location_id name);
        [reflexivity|exact Kl|exact Nl|exact E].
    + unfold delete_location. simpl.
      rewrite (map_update_proj Location.id Location.name); [exact Nl|].
      reflexivity.
    + unfold create_daily_report. rewrite fst_if.
      destruct (existsb _ _); exact Nl.
    + rewrite (proj2 (proj2 (create_report_masters db request))). exact Nl.
Qed.

Lemma existsb_name {A} (name : A -> string) (l : list A) (n : string) :
  In n (List.map name l) ->
  existsb (fun a => String.eqb (name a) n) l = true.
Proof.
  intros Hin. apply List.in_map_iff in Hin. destruct Hin as (a & Ha & Hin).
  apply existsb_exists. exists a. split; [exact Hin|].
  rewrite Ha. apply String.eqb_refl.
Qed.

Lemma existsb_rename {A} (key : A -> Z) (name : A -> string) (l : list A)
  (a b : A) :
  In a l -> In b l -> key a <> key b ->
  existsb (fun x => key x =? key a) l
  && existsb (fun x => negb (key x =? key a) && String.eqb (name x) (name b))
             l
  = true.
Proof.
  intros Ha Hb Hne. apply andb_true_iff. split; apply existsb_exists.
  - exists a. split; [exact Ha|]. apply Z.eqb_refl.
  - exists b. split; [exact Hb|].
    assert (E : (key b =? key a) = false)
      by (apply Z.eqb_neq; congruence).
    rewrite E, String.eqb_refl. reflexivity.
Qed.

Lemma names_are_guarded (db : database) : names_guarded db.
Proof.
  repeat split.
  - intros name ty Hin. unfold add_account.
    rewrite (existsb_name Account.name _ _ Hin). reflexivity.
  - intros name ty commission account_id Hin. unfold add_payment_method.
    rewrite (existsb_name PaymentMethod.name _ _ Hin). reflexivity.
  - intros name address Hin. unfold add_location.
    rewrite (existsb_name Location.name _ _ Hin). reflexivity.
  - intros a b ty is_active Ha Hb Hne. unfold update_account.
    rewrite (existsb_rename Account.id Account.name _ a b Ha Hb Hne).
    reflexivity.
  - intros a b ty commission account_id is_active Ha Hb Hne.
    unfold update_payment_method.
    rewrite (existsb_rename PaymentMethod.id PaymentMethod.name _ a b Ha Hb
               Hne).
    reflexivity.
  - intros a b address is_active Ha Hb Hne. unfold update_location.
    rewrite (existsb_rename Location.id Location.name _ a b Ha Hb Hne).
    reflexivity.
Qed.

(** X1. In a reachable store the ids of the accounts, of the payment methods,
    of the locations and of the reports are unique, and so are the names of
    the accounts, of the payment methods and of the locations: an insert
    through [add_account], [add_payment_method] or [add_location] under a
    name in use, and a rename through [update_account],
    [update_payment_method] or [update_location] onto the name of another
    row, raise and write nothing. *)
Theorem reachable_keys_and_names (db : database) :
  reachable db -> primary_keys db /\ unique_names db /\ names_guarded db.
Proof.
  intros R. split; [|split; [|apply names_are_guarded]].
  - induction R as [|db c R IHk]; [repeat split; constructor|].
    apply run_primary_keys, IHk.
  - assert (H : primary_keys db /\ unique_names db).
    { induction R as [|db c R [IHk IHn]].
      - split; repeat split; constructor.
      - split; [apply run_primary_keys, IHk
               |apply run_unique_names; assumption]. }
    apply H.
Qed.

Lemma reachable_keys_and_names_witness :
  reachable sample_store /\ primary_keys sample_store
  /\ unique_names sample_store
  /\ add_payment_method sample_store "Terminal" online 1%Q 2
     = (sample_store, Py.Raise (unique_failed "payment_methods.name")).
Proof.
  assert (R : reachable sample_store)
    by apply reachable_run_all, reachable_init.
  split; [exact R|].
  destruct (reachable_keys_and_names sample_store R)
    as (Hk & Hn & _ & Hm & _).
  split; [exact Hk|]. split; [exact Hn|].
  apply Hm. vm_compute. auto.
Defined.

(** ** The list of reports *)

Lemma Sorted_firstn {A} (R : A -> A -> Prop) (n : nat) (l : list A) :
  Sorted R l -> Sorted R (firstn n l).
Proof.
  revert l. induction n as [|n IH]; intros l H; simpl; [constructor|].
  destruct l as [|x l]; [constructor|].
  inversion H as [|? ? Hs Hhd]; subst. constructor; [apply IH, Hs|].
  destruct n; simpl; [constructor|].
  destruct Hhd; constructor. assumption.
Qed.

Lemma Sorted_map {A B} (R : B -> B -> Prop) (f : A -> B) (l : list A) :
  Sorted (fun x y => R (f x) (f y)) l -> Sorted R (List.map f l).
Proof.
  induction 1 as [|x l _ IH Hhd]; simpl; constructor; [exact IH|].
  destruct Hhd; constructor. assumption.
Qed.

Lemma LIMIT_incl {A} (limit : Z) (l : list A) (x : A) :
  In x (LIMIT limit l) -> In x l.
Proof.
  unfold LIMIT. destruct (limit <? 0); [tauto|].
  intros H. rewrite <- (List.firstn_skipn (Z.to_nat limit) l).
  apply List.in_or_app. left. exact H.
Qed.

(** X24. [get_reports] returns at most [limit] rows when [limit] is not
    negative; every row is that of a stored report which meets the location
    and status conditions, with the name of its location or NULL; the rows
    come newest date first and, on one date, larger id first. A
    [location_id] of 0 and an empty [status] are no condition. With a
    negative limit and unique location ids, each report that meets the
    conditions has exactly one row. *)
Theorem get_reports_listing (db : database) (limit : Z)
  (location_id : option Z) (status : option string) :
  (0 <= limit -> Z.of_nat (length (get_reports db limit location_id status))
                 <= limit)
  /\ Forall
       (fun row =>
          exists dr,
            In dr (daily_reports db) /\ report_row_of db dr row
            /\ (forall l, location_id = Some l -> l <> 0 ->
                          DailyReport.location_id dr = l)
            /\ (forall s, status = Some s -> s <> ""%string ->
                          status_text (DailyReport.status dr) = s))
       (get_reports db limit location_id status)
  /\ Sorted rows_newest_first (get_reports db limit location_id status)
  /\ get_reports db limit (Some 0) (Some ""%string)
     = get_reports db limit None None
  /\ (limit < 0 ->
      List.NoDup (List.map Location.id (locations db)) ->
      one_for_each (report_row_of db)
        (List.filter
           (fun dr => location_condition location_id dr
                      && status_condition status dr)
           (daily_reports db))
        (get_reports db limit location_id status)).
Proof.
  unfold get_reports.
  set (J := Sql.LEFT_JOIN report_location (daily_reports db) (locations db)).
  set (F := List.filter _ J).
  set (S := Sql.ORDER_BY _ F).
  assert (Hrow : forall r, In r S ->
            In (fst r) (daily_reports db)
            /\ report_row_of db (fst r) (report_row r)
            /\ location_condition location_id (fst r) = true
            /\ status_condition status (fst r) = true).
  { intros [dr ol] Hin. unfold S, F in Hin.
    apply ORDER_BY_In, List.filter_In in Hin. destruct Hin as [Hj Hc].
    apply andb_true_iff in Hc. unfold J in Hj.
    apply LEFT_JOIN_In in Hj. destruct Hj as [Hdr Hloc].
    split; [exact Hdr|]. split; [|exact Hc].
    unfold report_row_of. simpl. repeat (split; [reflexivity|]).
    apply located_of_join. exact Hloc. }
  split; [|split; [|split; [|split]]].
  - intros Hl. rewrite List.length_map. unfold LIMIT.
    assert (E : (limit <? 0) = false) by (apply Z.ltb_ge; exact Hl).
    rewrite E. pose proof (List.firstn_le_length (Z.to_nat limit) S). lia.
  - apply List.Forall_forall. intros row Hin.
    apply List.in_map_iff in Hin. destruct Hin as (r & <- & Hin).
    apply LIMIT_incl in Hin. destruct (Hrow r Hin) as (Hdr & Hr & Hlc & Hsc).
    exists (fst r). split; [exact Hdr|]. split; [exact Hr|]. split.
    + intros l -> Hne. unfold location_condition in Hlc.
      apply Z.eqb_neq in Hne. rewrite Hne in Hlc. apply Z.eqb_eq. exact Hlc.
    + intros s -> Hne. unfold status_condition in Hsc.
      apply String.eqb_neq in Hne. rewrite Hne in Hsc.
      apply String.eqb_eq. exact Hsc.
  - apply Sorted_map.
    assert (HS : Sorted
                   (fun x y : DailyReport.t * option Location.t =>
                      rows_newest_first (report_row x) (report_row y)) S).
    { eapply Sorted_weaken; [|apply ORDER_BY_sorted].
      - intros [x lx] [y ly]. unfold newest_first, Sql.lex, desc,
          rows_newest_first. simpl.
        destruct (String.eqb _ _) eqn:E.
        + apply String.eqb_eq in E. intros H. apply Z.leb_le in H.
          split; [|intros _; exact H]. rewrite E.
          destruct (String.leb_total (DailyReport.report_date y)
                      (DailyReport.report_date y)); assumption.
        + intros H. split; [exact H|]. intros Heq.
          apply String.eqb_neq in E. contradiction.
      - intros x y. unfold newest_first. apply lex_total.
        + intros a b. apply String.eqb_sym.
        + intros a b. unfold desc. apply String.leb_total.
        + intros a b. rewrite !Z.leb_le. lia. }
    unfold LIMIT. destruct (limit <? 0); [exact HS|].
    apply Sorted_firstn, HS.
  - reflexivity.
  - intros Hneg Kl. unfold LIMIT.
    assert (E : (limit <? 0) = true) by (apply Z.ltb_lt; exact Hneg).
    rewrite E. exists (List.map fst S). split.
    + unfold S. rewrite (Permutation_map _ (ORDER_BY_perm _ _)). unfold F.
      rewrite (map_filter_comm fst
                 (fun dr => location_condition location_id dr
                            && status_condition status dr)).
      unfold J. rewrite LEFT_JOIN_fst; [reflexivity|].
      intros dr _. apply (location_at_most_one db dr Kl).
    + apply Forall2_map_same. apply List.Forall_forall.
      intros r Hin. apply (Hrow r Hin).
Qed.

Lemma get_reports_listing_witness :
  Z.of_nat (length (get_reports sample_store 1 None (Some "closed"%string)))
  <= 1
  /\ List.map ReportRow.id
       (get_reports (fst (create_report sample_store next_day_request)) 50
          (Some 1) None)
     = [2; 1].
Proof.
  split.
  - apply (proj1 (get_reports_listing sample_store 1 None
                    (Some "closed"%string))). lia.
  - vm_compute. reflexivity.
Defined.

(** ** A new account *)

(** X22. [add_account] with a name in use raises the uniqueness error and writes
    nothing. With a new name it stores an active account under an id above
    all ids in use; in a reachable store that account is at once listed by
    [get_accounts] and has an entry in the result of [get_account_balance]:
    for type cash with the balance of every cash account, the sum of the
    cash counts of the closed reports, and for type bank with what the
    lines already booked on its id add up to, 0 if there are none. *)
Theorem add_account_outcome (db : database) (name : string)
  (ty : account_type) :
  ((exists a, In a (accounts db) /\ Account.name a = name) ->
   add_account db name ty
   = (db, Py.Raise (unique_failed "accounts.name")))
  /\ ((forall a, In a (accounts db) -> Account.name a <> name) ->
      reachable db ->
      exists i s,
        add_account db name ty
        = (with_accounts db (accounts db ++ [Account.mk i name ty true]),
           Py.Ok i)
        /\ (forall a, In a (accounts db) -> Account.id a < i)
        /\ In (Account.mk i name ty true)
              (get_accounts (fst (add_account db name ty)) None)
        /\ get_account_balance (fst (add_account db name ty)) !! i = Some s
        /\ Summary.name s = name /\ Summary.type s = ty
        /\ (ty = cash ->
            (Summary.balance s == Qsum (closed_cash_counts db))%Q)
        /\ (ty = bank ->
            (Summary.balance s
             == Qsum (List.map ReportPayment.net_amount (payments_of db i))
                + Qsum (List.map Line.amount (incomes_of db i))
                - Qsum (List.map Line.amount (expenses_of db i)))%Q)).
Proof.
  split.
  - intros (a & Hin & Hname). unfold add_account.
    assert (E : existsb (fun a => String.eqb (Account.name a) name)
                        (accounts db) = true).
    { apply existsb_exists. exists a. split; [exact Hin|].
      apply String.eqb_eq. exact Hname. }
    rewrite E. reflexivity.
  - intros Hfree R. unfold add_account.
    assert (E : existsb (fun a => String.eqb (Account.name a) name)
                        (accounts db) = false).
    { destruct (existsb _ _) eqn:E; [|reflexivity].
      apply existsb_exists in E. destruct E as (a & Hin & Hname).
      apply String.eqb_eq in Hname. exfalso. exact (Hfree a Hin Hname). }
    rewrite E. cbn [fst].
    set (i := Sql.next_id (List.map Account.id (accounts db))).
    set (acc := Account.mk i name ty true).
    set (db' := with_accounts db (accounts db ++ [acc])).
    assert (R' : reachable db').
    { pose proof (reachable_run db (Add_account name ty) R) as H.
      cbn [run] in H. unfold add_account in H. rewrite E in H. exact H. }
    assert (Hin : In acc (accounts db')).
    { unfold db'. simpl. apply List.in_or_app. right. left. reflexivity. }
    exists i, (account_summary db' acc).
    split; [reflexivity|]. split.
    { intros a Ha. apply next_id_above, List.in_map, Ha. }
    split; [apply get_accounts_In; split; [exact Hin|reflexivity]|].
    split.
    { apply balance_lookup_iff; [apply (reachable_primary_keys db' R')|].
      exists acc. repeat split. exact Hin. }
    unfold account_summary. cbn [Account.account_type acc Account.name
      Account.id]. destruct ty; simpl.
    + split; [reflexivity|]. split; [reflexivity|].
      split; [discriminate|]. intros _.
      fold (payments_of db i) (incomes_of db i) (expenses_of db i).
      rewrite !or0_SUM, !non_null_map_Some. reflexivity.
    + split; [reflexivity|]. split; [reflexivity|].
      split; [|discriminate]. intros _. apply or0_SUM.
Qed.

Lemma add_account_outcome_witness :
  reachable sample_store
  /\ exists i s,
       add_account sample_store "Vault" cash
       = (with_accounts sample_store
            (accounts sample_store ++ [Account.mk i "Vault" cash true]),
          Py.Ok i)
       /\ get_account_balance (fst (add_account sample_store "Vault" cash))
            !! i = Some s
       /\ (Summary.balance s == 400)%Q.
Proof.
  assert (R : reachable sample_store)
    by apply reachable_run_all, reachable_init.
  split; [exact R|].
  assert (Hfree : forall a, In a (accounts sample_store) ->
                            Account.name a <> "Vault"%string).
  { intros a Ha. vm_compute in Ha.
    destruct Ha as [<-|[<-|[<-|[]]]]; discriminate. }
  destruct (proj2 (add_account_outcome sample_store "Vault" cash) Hfree R)
    as (i & s & H1 & _ & _ & H2 & _ & _ & Hc & _).
  exists i, s. split; [exact H1|]. split; [exact H2|].
  rewrite (Hc eq_refl). vm_compute. reflexivity.
Defined.

(** ** The details of a report *)

Lemma category_at_most_one (categories : list Category.t) (ln : Line.t) :
  List.NoDup (List.map Category.id categories) ->
  (length (List.filter (line_category ln) categories) <= 1)%nat.
Proof.
  intros K. unfold line_category. destruct (Line.category_id ln) as [k|].
  - apply (filter_key_at_most_one Category.id k), K.
  - rewrite filter_none; [simpl; lia|].
    apply List.Forall_forall. intros c _. reflexivity.
Qed.

Lemma Forall2_map_left {A B} (R : B -> A -> Prop) (f : A -> B) (l : list A) :
  Forall (fun x => R (f x) x) l -> Forall2 R (List.map f l) l.
Proof. induction 1; simpl; constructor; assumption. Qed.

Lemma detail_lines_one_for_each (db : database)
  (categories : list Category.t) (table : list Line.t) (rid : Z) :
  List.NoDup (List.map Account.id (accounts db)) ->
  List.NoDup (List.map Category.id categories) ->
  one_for_each (detail_line_of db categories)
    (List.filter (fun ln => Line.report_id ln =? rid)
       (List.filter (fun ln => has_account db (Line.account_id ln)) table))
    (detail_lines db categories table rid).
Proof.
  intros Ka Kc. unfold detail_lines.
  set (J1 := Sql.LEFT_JOIN line_category table categories).
  set (J := Sql.JOIN _ J1 (accounts db)).
  exists (List.map (fun r => fst (fst r)) (List.filter
            (fun r : Line.t * option Category.t * Account.t =>
               Line.report_id (fst (fst r)) =? rid) J)).
  split.
  - apply Permutation_refl'.
    rewrite (map_filter_comm
               (fun r : Line.t * option Category.t * Account.t =>
                  fst (fst r))
               (fun ln => Line.report_id ln =? rid)).
    f_equal. rewrite <- (List.map_map fst fst). unfold J.
    rewrite (JOIN_fst_as _
               (fun r : Line.t * option Category.t =>
                  has_account db (Line.account_id (fst r))))
      by (first
            [ intros [ln oc] _;
              apply (filter_key_at_most_one Account.id (Line.account_id ln)),
                    Ka
            | intros; reflexivity ]).
    rewrite (map_filter_comm fst
               (fun ln => has_account db (Line.account_id ln))).
    unfold J1. rewrite LEFT_JOIN_fst; [reflexivity|].
    intros ln _. apply category_at_most_one, Kc.
  - apply (Forall2_map_left (detail_line_of db categories)
             (fun r => fst (fst r))).
    apply List.Forall_forall. intros [[ln oc] a] Hin.
    apply List.filter_In in Hin. destruct Hin as [Hj _].
    unfold J in Hj. apply JOIN_In in Hj. destruct Hj as (Hj & Ha & Hon).
    unfold J1 in Hj. apply LEFT_JOIN_In in Hj. destruct Hj as [_ Hc].
    apply Z.eqb_eq in Hon. unfold detail_line_of. simpl in *.
    split; [reflexivity|]. split; [|tauto].
    unfold line_category in Hc. destruct oc as [c|].
    + destruct Hc as [Hcin Hk]. split; [exact Hcin|].
      destruct (Line.category_id ln) as [k|]; [|discriminate Hk].
      apply Z.eqb_eq in Hk. congruence.
    + intros c Hcin E. specialize (Hc c Hcin). rewrite E in Hc.
      rewrite Z.eqb_refl in Hc. discriminate Hc.
Qed.

Lemma detail_payments_one_for_each (db : database) (rid : Z) :
  List.NoDup (List.map Account.id (accounts db)) ->
  List.NoDup (List.map PaymentMethod.id (payment_methods db)) ->
  one_for_each (detail_payment_of db)
    (List.filter (fun rp => ReportPayment.report_id rp =? rid)
       (List.filter (fun rp => has_account db (ReportPayment.account_id rp))
          (List.filter
             (fun rp => has_method db (ReportPayment.payment_method_id rp))
             (report_payments db))))
    (detail_payments db rid).
Proof.
  intros Ka Km. unfold detail_payments.
  set (J1 := Sql.JOIN _ (report_payments db) (payment_methods db)).
  set (J := Sql.JOIN _ J1 (accounts db)).
  exists (List.map (fun r => fst (fst r)) (List.filter
            (fun r : ReportPayment.t * PaymentMethod.t * Account.t =>
               ReportPayment.report_id (fst (fst r)) =? rid) J)).
  split.
  - apply Permutation_refl'.
    rewrite (map_filter_comm
               (fun r : ReportPayment.t * PaymentMethod.t * Account.t =>
                  fst (fst r))
               (fun rp => ReportPayment.report_id rp =? rid)).
    f_equal. rewrite <- (List.map_map fst fst). unfold J.
    rewrite (JOIN_fst_as _
               (fun r : ReportPayment.t * PaymentMethod.t =>
                  has_account db (ReportPayment.account_id (fst r))))
      by (first
            [ intros [rp pm] _;
              apply (filter_key_at_most_one Account.id
                       (ReportPayment.account_id rp)), Ka
            | intros; reflexivity ]).
    rewrite (map_filter_comm fst
               (fun rp => has_account db (ReportPayment.account_id rp))).
    unfold J1.
    rewrite (JOIN_fst_as _
               (fun rp => has_method db (ReportPayment.payment_method_id rp)))
      by (first
            [ intros rp _;
              apply (filter_key_at_most_one PaymentMethod.id
                       (ReportPayment.payment_method_id rp)), Km
            | intros; reflexivity ]).
    reflexivity.
  - apply (Forall2_map_left (detail_payment_of db)
             (fun r => fst (fst r))).
    apply List.Forall_forall. intros [[rp pm] a] Hin.
    apply List.filter_In in Hin. destruct Hin as [Hj _].
    unfold J in Hj. apply JOIN_In in Hj. destruct Hj as (Hj & Ha & Hon).
    unfold J1 in Hj. apply JOIN_In in Hj. destruct Hj as (_ & Hpm & Hon1).
    apply Z.eqb_eq in Hon, Hon1. unfold detail_payment_of. simpl in *.
    tauto.
Qed.

(** X25. [get_report_details] raises [TypeError] when no report has the id or
    when the location id of the report is not in the table of locations.
    Otherwise, in a reachable store and with unique category ids, it returns
    the report with its location and, each once, the payment rows of the
    report whose payment method and account exist and the income and
    expense rows of the report whose account exists, each with its category
    or NULL; the rows booked on an account id that no account has are left
    out. *)
Theorem get_report_details_outcome (db : database)
  (categories : list Category.t) (rid : Z) :
  ((forall dr l, In dr (daily_reports db) -> In l (locations db) ->
                 DailyReport.id dr = rid ->
                 DailyReport.location_id dr <> Location.id l) ->
   get_report_details db categories rid = Py.Raise Py.TypeError)
  /\ (forall dr l,
         reachable db ->
         List.NoDup (List.map Category.id categories) ->
         In dr (daily_reports db) -> In l (locations db) ->
         DailyReport.id dr = rid ->
         DailyReport.location_id dr = Location.id l ->
         exists d,
           get_report_details db categories rid = Py.Ok d
           /\ ReportDetails.report d = (dr, l)
           /\ one_for_each (detail_payment_of db)
                (List.filter (fun rp => ReportPayment.report_id rp =? rid)
                   (List.filter
                      (fun rp => has_account db (ReportPayment.account_id rp))
                      (List.filter
                         (fun rp => has_method db
                                      (ReportPayment.payment_method_id rp))
                         (report_payments db))))
                (ReportDetails.payments d)
           /\ one_for_each (detail_line_of db categories)
                (List.filter (fun ln => Line.report_id ln =? rid)
                   (List.filter
                      (fun ln => has_account db (Line.account_id ln))
                      (non_sales_income db)))
                (ReportDetails.non_sales_income d)
           /\ one_for_each (detail_line_of db categories)
                (List.filter (fun ln => Line.report_id ln =? rid)
                   (List.filter
                      (fun ln => has_account db (Line.account_id ln))
                      (report_expenses db)))
                (ReportDetails.expenses d)).
Proof.
  split.
  - intros Hno. unfold get_report_details.
    rewrite head_filter_None; [reflexivity|].
    intros [dr l] Hin. apply JOIN_In in Hin. destruct Hin as (Hdr & Hl & Hon).
    apply Z.eqb_eq in Hon. simpl.
    destruct (DailyReport.id dr =? rid) eqn:E; [|reflexivity].
    apply Z.eqb_eq in E. exfalso. exact (Hno dr l Hdr Hl E Hon).
  - intros dr l R Kc Hdr Hl Hid Hloc.
    destruct (reachable_primary_keys db R) as (Ka & Km & Kl & Kr).
    unfold get_report_details.
    destruct (head_filter_Some
                (fun r : DailyReport.t * Location.t =>
                   DailyReport.id (fst r) =? rid)
                (Sql.JOIN report_location (daily_reports db) (locations db))
                (dr, l)) as [[dr' l'] Hy].
    { apply JOIN_In. split; [exact Hdr|]. split; [exact Hl|].
      apply Z.eqb_eq. exact Hloc. }
    { apply Z.eqb_eq. exact Hid. }
    rewrite Hy. eexists. split; [reflexivity|]. cbn [ReportDetails.report
      ReportDetails.payments ReportDetails.non_sales_income
      ReportDetails.expenses].
    split.
    + assert (Hin : In (dr', l')
                      (List.filter
                         (fun r : DailyReport.t * Location.t =>
                            DailyReport.id (fst r) =? rid)
                         (Sql.JOIN report_location (daily_reports db)
                                   (locations db)))).
      { destruct (List.filter _ _); [discriminate Hy|].
        injection Hy as ->. left. reflexivity. }
      apply List.filter_In in Hin. destruct Hin as [Hj Hi].
      apply JOIN_In in Hj. destruct Hj as (Hdr' & Hl' & Hon).
      apply Z.eqb_eq in Hi, Hon. simpl in Hi.
      assert (dr' = dr).
      { apply (NoDup_map_inj DailyReport.id (daily_reports db));
          [exact Kr| | |congruence]; assumption. }
      subst dr'.
      assert (l' = l).
      { apply (NoDup_map_inj Location.id (locations db));
          [exact Kl| | |congruence]; assumption. }
      subst l'. reflexivity.
    + split; [apply detail_payments_one_for_each; assumption|].
      split; apply detail_lines_one_for_each; assumption.
Qed.

Lemma get_report_details_outcome_witness :
  get_report_details stray_store [] 1 = Py.Raise Py.TypeError
  /\ List.map Line.amount (report_expenses no_account_store) = [30%Q]
  /\ exists d,
       get_report_details no_account_store [] 1 = Py.Ok d
       /\ one_for_each (detail_line_of no_account_store [])
            (List.filter (fun ln => Line.report_id ln =? 1)
               (List.filter
                  (fun ln => has_account no_account_store
                               (Line.account_id ln))
                  (report_expenses no_account_store)))
            (ReportDetails.expenses d)
       /\ ReportDetails.expenses d = [].
Proof.
  split.
  - apply (proj1 (get_report_details_outcome stray_store [] 1)).
    intros dr l _ Hl. vm_compute in Hl. destruct Hl.
  - split; [vm_compute; reflexivity|].
    assert (R : reachable no_account_store)
      by apply reachable_run_all, reachable_init.
    destruct (proj2 (get_report_details_outcome no_account_store [] 1)
                (DailyReport.mk 1 "2024-05-01" 1 100%Q None None None None
                   st_open None None)
                (Location.mk 1 "Shop 1" "" true) R (List.NoDup_nil _)
                ltac:(vm_compute; auto) ltac:(vm_compute; auto)
                eq_refl eq_refl)
      as (d & Hd & _ & _ & _ & He).
    exists d. split; [exact Hd|]. split; [exact He|].
    vm_compute in Hd. injection Hd as <-. reflexivity.
Defined.

(** ** Categories *)

Lemma category_type_eqb_eq (a b : category_type) :
  category_type_eqb a b = true <-> a = b.
Proof. destruct a, b; simpl; split; congruence. Qed.

Lemma parent_is_eq (parent_id : option Z) (c : Category.t) :
  parent_is parent_id c = true <-> Category.parent_id c = parent_id.
Proof.
  unfold parent_is.
  destruct parent_id as [p|], (Category.parent_id c) as [q|]; split;
    try congruence; try reflexivity.
  - intros H. apply Z.eqb_eq in H. congruence.
  - intros [= ->]. apply Z.eqb_refl.
Qed.

Lemma get_categories_In (categories : list Category.t)
  (ty : option category_type) (parent_id : option Z) (c : Category.t) :
  In c (get_categories categories ty parent_id)
  <-> In c categories /\ Category.is_active c = true
      /\ (forall t, ty = Some t -> Category.category_type c = t)
      /\ Category.parent_id c = parent_id.
Proof.
  unfold get_categories.
  rewrite ORDER_BY_In, List.filter_In, !andb_true_iff, parent_is_eq.
  destruct ty as [t|].
  - rewrite category_type_eqb_eq. split.
    + intros (H1 & (H2 & H3) & H4). repeat split; try assumption.
      intros t' [= <-]. exact H3.
    + intros (H1 & H2 & H3 & H4). repeat split; try assumption.
      apply H3. reflexivity.
  - split.
    + intros (H1 & (H2 & _) & H4). repeat split; try assumption.
      discriminate.
    + intros (H1 & H2 & _ & H4). tauto.
Qed.

(** X26. [get_categories] lists, by name, the active categories of the given
    type (of any type when none is given) whose parent is the given one;
    without a parent it lists top-level categories only.
    [get_subcategories] is [get_categories] for a parent and any type. The
    income endpoint therefore never lists a subcategory: a category that
    [add_category] stores under a parent is listed by [get_subcategories]
    for that parent and by no call without a parent. *)
Theorem categories_listed (categories : list Category.t) :
  (forall ty parent_id,
      (forall c, In c (get_categories categories ty parent_id)
                 <-> In c categories /\ Category.is_active c = true
                     /\ (forall t, ty = Some t -> Category.category_type c = t)
                     /\ Category.parent_id c = parent_id)
      /\ Sorted (fun a b => String.leb (Category.name a) (Category.name b)
                            = true)
                (get_categories categories ty parent_id))
  /\ (forall p, get_subcategories categories p
                = get_categories categories None (Some p))
  /\ (forall c, In c (get_income_categories categories) ->
                Category.parent_id c = None
                /\ Category.category_type c = income)
  /\ (forall name t parent_id,
         let new := Category.mk (snd (add_category categories name t parent_id))
                      name parent_id t true in
         fst (add_category categories name t parent_id) = categories ++ [new]
         /\ (forall c, In c categories -> Category.id c < Category.id new)
         /\ (forall ty p,
                In new (get_categories
                          (fst (add_category categories name t parent_id))
                          ty p)
                <-> (ty = None \/ ty = Some t) /\ p = parent_id)
         /\ (In new (get_income_categories
                       (fst (add_category categories name t parent_id)))
             <-> t = income /\ parent_id = None)).
Proof.
  split; [|split; [|split]].
  - intros ty parent_id. split; [apply get_categories_In|].
    apply (ORDER_BY_sorted category_name_leb).
    intros x y. apply String.leb_total.
  - intros p. unfold get_subcategories, get_categories. f_equal.
    apply List.filter_ext. intros c. unfold parent_is.
    rewrite andb_true_r. apply andb_comm.
  - intros c Hin. apply get_categories_In in Hin.
    destruct Hin as (_ & _ & Hty & Hp). split; [exact Hp|].
    apply Hty. reflexivity.
  - intros name t parent_id new.
    assert (Hnew : In new (fst (add_category categories name t parent_id))).
    { simpl. apply List.in_or_app. right. left. reflexivity. }
    assert (Hlist : forall ty p,
               In new (get_categories
                         (fst (add_category categories name t parent_id))
                         ty p)
               <-> (ty = None \/ ty = Some t) /\ p = parent_id).
    { intros ty p. rewrite get_categories_In. subst new. simpl. split.
      - intros (_ & _ & Hty & Hp). split; [|congruence].
        destruct ty as [t'|]; [right|left; reflexivity].
        rewrite (Hty t' eq_refl). reflexivity.
      - intros [[->| ->] ->].
        + repeat split; [exact Hnew|discriminate].
        + repeat split; [exact Hnew|]. intros t' [= <-]. reflexivity. }
    split; [reflexivity|]. split.
    { intros c Hc. apply next_id_above, List.in_map, Hc. }
    split; [exact Hlist|].
    unfold get_income_categories. rewrite Hlist. split.
    + intros [[H|[= <-]] <-]; [discriminate H|]. tauto.
    + intros [-> ->]. tauto.
Qed.

(** ** Expense categories *)

(** X27. [delete_expense_category] takes the rows with the given id, and no
    others, out of the list of [get_expense_categories];
    [update_expense_category] with [is_active] true, which is its default,
    puts a soft-deleted category back into the list under its new name and
    description; the list is in order of name. *)
Theorem expense_category_soft_delete (table : list ExpenseCategory.t)
  (i : Z) :
  (forall c,
      In c (get_expense_categories (delete_expense_category table i))
      <-> In c (get_expense_categories table) /\ ExpenseCategory.id c <> i)
  /\ (forall name description,
         (exists c, In c table /\ ExpenseCategory.id c = i) ->
         In (ExpenseCategory.mk i name description true)
            (get_expense_categories
               (update_expense_category (delete_expense_category table i) i
                  name description true)))
  /\ Sorted (fun a b => String.leb (ExpenseCategory.name a)
                                   (ExpenseCategory.name b) = true)
            (get_expense_categories table).
Proof.
  unfold get_expense_categories. split; [|split].
  - intros c. rewrite !ORDER_BY_In, !List.filter_In.
    unfold delete_expense_category. rewrite List.in_map_iff. split.
    + intros [(old & <- & Hin) Hact].
      destruct (ExpenseCategory.id old =? i) eqn:E; [discriminate Hact|].
      apply Z.eqb_neq in E. tauto.
    + intros [[Hin Hact] Hne]. split; [|exact Hact]. exists c.
      split; [|exact Hin].
      assert (E : (ExpenseCategory.id c =? i) = false)
        by (apply Z.eqb_neq; exact Hne).
      rewrite E. reflexivity.
  - intros name description (c & Hin & Hid).
    apply ORDER_BY_In, List.filter_In. split; [|reflexivity].
    unfold update_expense_category, delete_expense_category.
    rewrite List.map_map. apply List.in_map_iff. exists c.
    split; [|exact Hin]. apply Z.eqb_eq in Hid. rewrite Hid. simpl.
    rewrite Hid. apply Z.eqb_eq in Hid. rewrite Hid. reflexivity.
  - apply (ORDER_BY_sorted
             (fun a b => String.leb (ExpenseCategory.name a)
                                    (ExpenseCategory.name b))).
    intros x y. apply String.leb_total.
Qed.

(** ** Updating an account *)

(** X23. [update_account] on an id that no account has returns normally and
    writes nothing. On the id of an account it raises the uniqueness error
    and writes nothing when another account has the new name; otherwise, in
    a reachable store, it rewrites the name, type and [is_active] of that
    account only, so that the account is listed by [get_accounts] exactly
    when the new [is_active] is true, also after a soft delete. *)
Theorem update_account_outcome (db : database) (i : Z) (name : string)
  (ty : account_type) (is_active : bool) :
  ((forall a, In a (accounts db) -> Account.id a <> i) ->
   update_account db i name ty is_active = (db, Py.Ok tt))
  /\ (forall a b,
         In a (accounts db) -> Account.id a = i ->
         In b (accounts db) -> Account.id b <> i -> Account.name b = name ->
         update_account db i name ty is_active
         = (db, Py.Raise (unique_failed "accounts.name")))
  /\ (forall a,
         reachable db ->
         In a (accounts db) -> Account.id a = i ->
         (forall b, In b (accounts db) -> Account.id b <> i ->
                    Account.name b <> name) ->
         snd (update_account db i name ty is_active) = Py.Ok tt
         /\ (forall c,
                In c (accounts (fst (update_account db i name ty is_active)))
                <-> c = Account.mk i name ty is_active
                    \/ (In c (accounts db) /\ Account.id c <> i))
         /\ (In (Account.mk i name ty is_active)
                (get_accounts (fst (update_account db i name ty is_active))
                              None)
             <-> is_active = true)).
Proof.
  split; [|split].
  - intros Hno. unfold update_account.
    assert (E : existsb (fun a => Account.id a =? i) (accounts db) = false).
    { destruct (existsb _ _) eqn:E; [|reflexivity].
      apply existsb_exists in E. destruct E as (a & Hin & Hid).
      apply Z.eqb_eq in Hid. exfalso. exact (Hno a Hin Hid). }
    rewrite E. simpl. f_equal. destruct db. unfold with_accounts. simpl.
    f_equal. rewrite (List.map_ext_in _ (fun x => x)), List.map_id;
      [reflexivity|].
    intros a Hin. rewrite (existsb_false_forall _ _ E a Hin). reflexivity.
  - intros a b Ha Hida Hb Hidb Hname. unfold update_account.
    assert (E1 : existsb (fun a => Account.id a =? i) (accounts db) = true).
    { apply existsb_exists. exists a. split; [exact Ha|].
      apply Z.eqb_eq. exact Hida. }
    assert (E2 : existsb (fun a => negb (Account.id a =? i)
                                   && String.eqb (Account.name a) name)
                         (accounts db) = true).
    { apply existsb_exists. exists b. split; [exact Hb|].
      apply andb_true_iff. split.
      - apply negb_true_iff, Z.eqb_neq. exact Hidb.
      - apply String.eqb_eq. exact Hname. }
    rewrite E1, E2. reflexivity.
  - intros a R Ha Hida Hfree. unfold update_account.
    assert (E2 : existsb (fun a => negb (Account.id a =? i)
                                   && String.eqb (Account.name a) name)
                         (accounts db) = false).
    { destruct (existsb _ _) eqn:E; [|reflexivity].
      apply existsb_exists in E. destruct E as (b & Hb & Hc).
      apply andb_true_iff in Hc. destruct Hc as [Hne Hn].
      apply negb_true_iff, Z.eqb_neq in Hne. apply String.eqb_eq in Hn.
      exfalso. exact (Hfree b Hb Hne Hn). }
    rewrite E2, andb_false_r. cbn [fst snd].
    assert (Hacc : forall c,
               In c (accounts
                       (with_accounts db
                          (List.map
                             (fun a => if Account.id a =? i
                                       then Account.mk (Account.id a) name ty
                                              is_active
                                       else a)
                             (accounts db))))
               <-> c = Account.mk i name ty is_active
                   \/ (In c (accounts db) /\ Account.id c <> i)).
    { intros c. simpl. rewrite List.in_map_iff. split.
      - intros (old & <- & Hin).
        destruct (Account.id old =? i) eqn:E.
        + apply Z.eqb_eq in E. left. rewrite E. reflexivity.
        + apply Z.eqb_neq in E. right. tauto.
      - intros [->|[Hin Hne]].
        + exists a. split; [|exact Ha].
          rewrite Hida, Z.eqb_refl. reflexivity.
        + exists c. split; [|exact Hin].
          apply Z.eqb_neq in Hne. rewrite Hne. reflexivity. }
    split; [reflexivity|]. split; [exact Hacc|].
    rewrite get_accounts_In. split.
    + intros [_ H]. exact H.
    + intros ->. split; [|reflexivity]. apply Hacc. left. reflexivity.
Qed.

Lemma update_account_outcome_witness :
  reachable (delete_account sample_store 3)
  /\ ~ In (Account.mk 3 "Safe" cash false)
          (get_accounts (delete_account sample_store 3) None)
  /\ In (Account.mk 3 "Vault" cash true)
        (get_accounts
           (fst (update_account (delete_account sample_store 3) 3 "Vault"
                   cash true)) None).
Proof.
  assert (R : reachable (delete_account sample_store 3)).
  { apply (reachable_run sample_store (Delete_account 3)).
    apply reachable_run_all, reachable_init. }
  split; [exact R|]. split.
  - intros H. apply get_accounts_In in H. destruct H as [_ H].
    discriminate H.
  - apply (proj2 (proj2 (update_account_outcome
                           (delete_account sample_store 3) 3 "Vault" cash
                           true))
             (Account.mk 3 "Safe" cash false) R).
    + vm_compute. auto.
    + reflexivity.
    + intros b Hb Hne. vm_compute in Hb.
      destruct Hb as [<-|[<-|[<-|[]]]]; discriminate.
    + reflexivity.
Defined.

Lemma reachable_payment_net_witness :
  reachable sample_store
  /\ Forall payment_net (report_payments sample_store).
Proof.
  assert (R : reachable sample_store)
    by apply reachable_run_all, reachable_init.
  split; [exact R|]. exact (reachable_payment_net sample_store R).
Defined.
